(** * pdfify: batch conversion of text, image and document files to PDF

  A shallow embedding of [pdfify.py] and the properties of its
  converters, dispatcher and batch driver.

  Python [str] values are sequences of Unicode code points ([list N]),
  so that [ord(char) < 128] is a comparison on the element itself.
  The operating system (working directory, file tree, console) is an
  explicit [World] threaded through an exception/state monad; programs
  started with [subprocess.run], I/O faults, the Unicode database and
  the wording of the platform's own messages are given by a [Host].

  The console is the standard output of a UTF-8 locale: [print]
  encodes with UTF-8 and [errors='strict'], so a line with a lone
  surrogate (as [os.listdir] returns for a file name that is not
  valid UTF-8) raises [UnicodeEncodeError]. *)

From Stdlib Require Import String Ascii ZArith QArith DecimalString.
From stdpp Require Import base option list gmap strings.

Local Open Scope Z_scope.
Local Open Scope list_scope.

(* ================================================================== *)
(** ** Python strings *)

Module Str.

Abbreviation str := (list N).

(** A literal of the source, as code points. *)
Definition lit (s : string) : str :=
  List.map N_of_ascii (list_ascii_of_string s).

Definition ord_slash : N := 47.
Definition ord_dot : N := 46.

(** [s.rfind(c)]: highest index of [c] in [s], or -1. *)
Fixpoint rfind_from (c : N) (s : str) (i last : Z) : Z :=
  match s with
  | [] => last
  | x :: s' => rfind_from c s' (i + 1) (if N.eqb x c then i else last)
  end.

Definition rfind (c : N) (s : str) : Z := rfind_from c s 0 (-1).

(** [s[:i]] and [s[i:]] for the non-negative indices the program uses. *)
Definition upto (i : Z) (s : str) : str := take (Z.to_nat i) s.
Definition from (i : Z) (s : str) : str := drop (Z.to_nat i) s.

(** *** Encoding for the console *)

Definition is_ascii (c : N) : bool := (c <? 128)%N.

(** The surrogates U+D800..U+DFFF: the code points that UTF-8 with
    [errors='strict'] cannot encode. *)
Definition is_surrogate (c : N) : bool :=
  ((55296 <=? c) && (c <=? 57343))%N.

(** [s.encode('utf-8')] succeeds. *)
Definition encodable (s : str) : bool :=
  forallb (fun c => negb (is_surrogate c)) s.

(** Text without a lone surrogate: what decoding with
    [errors='replace'] yields, and what the platform words its
    messages in. *)
Record ptext := mkText {
  chars : str;
  chars_encodable : encodable chars = true
}.

Definition no_text : ptext := mkText [] eq_refl.

(** The first run of surrogates of [s], from [bad_start] up to
    [bad_end]: what the UTF-8 encoder reports. *)
Fixpoint run_length (p : N -> bool) (s : str) : nat :=
  match s with
  | c :: s' => if p c then S (run_length p s') else O
  | [] => O
  end.

Definition bad_start (s : str) : nat :=
  run_length (fun c => negb (is_surrogate c)) s.

Definition bad_end (s : str) : nat :=
  (bad_start s + run_length is_surrogate (drop (bad_start s) s))%nat.

(** *** The Unicode database *)

(** The character database of the Python build, for the code points
    outside ASCII: [lowercase s i] is the lower-case mapping of the
    code point at index [i] of [s] (the mapping of a capital sigma
    depends on its neighbours), and [isprintable c] is
    [chr(c).isprintable()]. *)
Record Unicode := mkUnicode {
  lowercase : str -> nat -> str;
  isprintable : N -> bool
}.

(** [str.lower()] of an ASCII code point. *)
Definition lower_char (c : N) : N :=
  if (65 <=? c)%N && (c <=? 90)%N then (c + 32)%N else c.

(** The Kelvin sign, the one code point outside ASCII whose lower
    case is an ASCII letter, [k]. *)
Definition kelvin_sign : N := 8490.

(** Lower case of the code point [c] at index [i] of [whole]. A
    surrogate has no case. Of the database's answer only what every
    version of Unicode guarantees is relied on: outside ASCII and
    apart from the Kelvin sign, a lower-case mapping has a code point
    outside ASCII and no surrogate. *)
Definition lower_at (u : Unicode) (whole : str) (i : nat) (c : N) : str :=
  if is_ascii c then [lower_char c]
  else if is_surrogate c then [c]
  else if (c =? kelvin_sign)%N then [107%N]
  else
    let r := lowercase u whole i in
    if forallb is_ascii r || negb (encodable r) then [c] else r.

Fixpoint lower_from (u : Unicode) (whole : str) (i : nat) (s : str) : str :=
  match s with
  | [] => []
  | c :: s' => lower_at u whole i c ++ lower_from u whole (S i) s'
  end.

(** [s.lower()]. *)
Definition lower (u : Unicode) (s : str) : str := lower_from u s 0 s.

(** *** [repr] *)

Definition hex_digit (d : N) : N :=
  if (d <? 10)%N then (48 + d)%N else (87 + d)%N.

(** [n] in hexadecimal, lower case, on [width] digits. *)
Fixpoint hex_pad (width : nat) (n : N) : str :=
  match width with
  | O => []
  | S width' => hex_pad width' (n / 16)%N ++ [hex_digit (n mod 16)%N]
  end.

Definition ord_backslash : N := 92.
Definition ord_quote : N := 39.
Definition ord_dquote : N := 34.

(** The escape of a code point: backslash, then [x] and two digits,
    [u] and four, or [U] and eight. *)
Definition escape_code (c : N) : str :=
  if (c <=? 255)%N then [ord_backslash; 120%N] ++ hex_pad 2 c
  else if (c <=? 65535)%N then [ord_backslash; 117%N] ++ hex_pad 4 c
  else [ord_backslash; 85%N] ++ hex_pad 8 c.

(** One code point inside [repr(s)], for the chosen quote. *)
Definition repr_char (u : Unicode) (quote : N) (c : N) : str :=
  if (c =? quote)%N || (c =? ord_backslash)%N then [ord_backslash; c]
  else if (c =? 9)%N then [ord_backslash; 116%N]
  else if (c =? 10)%N then [ord_backslash; 110%N]
  else if (c =? 13)%N then [ord_backslash; 114%N]
  else if (c <? 32)%N || (c =? 127)%N then escape_code c
  else if (c <? 127)%N then [c]
  else if negb (is_surrogate c) && isprintable u c then [c]
  else escape_code c.

(** [repr(s)] of a string: in single quotes, unless [s] has a single
    quote and no double quote. *)
Definition repr (u : Unicode) (s : str) : str :=
  let quote :=
    if existsb (N.eqb ord_quote) s && negb (existsb (N.eqb ord_dquote) s)
    then ord_dquote else ord_quote in
  [quote] ++ flat_map (repr_char u quote) s ++ [quote].

(** *** White space *)

(** [str.isspace()] of one code point (Unicode White_Space plus the
    separators U+001C..U+001F that Python also counts). *)
Definition isspace (c : N) : bool :=
  ((9 <=? c) && (c <=? 13) || (28 <=? c) && (c <=? 32)
   || (c =? 133) || (c =? 160) || (c =? 5760)
   || (8192 <=? c) && (c <=? 8202) || (c =? 8232) || (c =? 8233)
   || (c =? 8239) || (c =? 8287) || (c =? 12288))%N.

(** [s.lstrip()], [s.rstrip()], [s.strip()]. *)
Fixpoint lstrip (s : str) : str :=
  match s with
  | c :: s' => if isspace c then lstrip s' else s
  | [] => []
  end.

Definition rstrip (s : str) : str := rev (lstrip (rev s)).

Definition strip (s : str) : str := rstrip (lstrip s).

Definition startswith (c : N) (s : str) : bool :=
  match s with x :: _ => N.eqb x c | [] => false end.

Definition endswith (c : N) (s : str) : bool :=
  match last s with Some x => N.eqb x c | None => false end.

(** [s.rstrip('/')]. *)
Fixpoint lstrip_char (c : N) (s : str) : str :=
  match s with
  | x :: s' => if N.eqb x c then lstrip_char c s' else s
  | [] => []
  end.

Definition rstrip_char (c : N) (s : str) : str :=
  rev (lstrip_char c (rev s)).

(** [str(n)] for an integer. *)
Definition of_Z (n : Z) : str :=
  lit (NilZero.string_of_int (Z.to_int n)).

Definition of_nat (n : nat) : str := of_Z (Z.of_nat n).

(** [sep.join(parts)]. *)
Fixpoint join_with (sep : str) (parts : list str) : str :=
  match parts with
  | [] => []
  | [p] => p
  | p :: ps => p ++ sep ++ join_with sep ps
  end.

(** [repr(l)] of a list of strings. *)
Definition repr_list (u : Unicode) (l : list str) : str :=
  lit "[" ++ join_with (lit ", ") (List.map (repr u) l) ++ lit "]".

(** [s.split(c)]: the pieces between occurrences of [c]. *)
Fixpoint split_on (c : N) (s : str) : list str :=
  match s with
  | [] => [[]]
  | x :: s' =>
      match split_on c s' with
      | piece :: rest =>
          if N.eqb x c then [] :: piece :: rest else (x :: piece) :: rest
      | [] => [[x]]
      end
  end.

End Str.
Export Str.

(* ================================================================== *)
(** ** [os.path] (posixpath) *)

Module OsPath.

(** [os.path.basename(p)]. *)
Definition basename (p : str) : str :=
  let i := rfind ord_slash p + 1 in
  from i p.

(** [os.path.dirname(p)]. *)
Definition dirname (p : str) : str :=
  let i := rfind ord_slash p + 1 in
  let head := upto i p in
  if negb (bool_decide (head = []))
     && negb (bool_decide (head = replicate (length head) ord_slash))
  then rstrip_char ord_slash head
  else head.

(** The loop of [genericpath._splitext] that skips leading dots:
    [Some] is the early return from inside the loop, [None] is the
    loop running to its end. [fuel] bounds the iterations by
    [dotIndex - filenameIndex]. *)
Fixpoint splitext_scan (fuel : nat) (p : str) (filenameIndex dotIndex : Z)
  : option (str * str) :=
  match fuel with
  | O => None
  | S fuel' =>
      if filenameIndex <? dotIndex then
        if negb (bool_decide (take 1 (from filenameIndex p) = [ord_dot]))
        then Some (upto dotIndex p, from dotIndex p)
        else splitext_scan fuel' p (filenameIndex + 1) dotIndex
      else None
  end.

(** [os.path.splitext(p)]. *)
Definition splitext (p : str) : str * str :=
  let sepIndex := rfind ord_slash p in
  let dotIndex := rfind ord_dot p in
  if dotIndex >? sepIndex then
    let filenameIndex := sepIndex + 1 in
    match splitext_scan (Z.to_nat (dotIndex - filenameIndex)) p
                        filenameIndex dotIndex with
    | Some r => r
    | None => (p, [])
    end
  else (p, []).

(** [os.path.join(a, b)]. *)
Definition join (a b : str) : str :=
  if startswith ord_slash b then b
  else if bool_decide (a = []) || endswith ord_slash a then a ++ b
  else a ++ [ord_slash] ++ b.

End OsPath.
Export OsPath.

(* ================================================================== *)
(** ** Files, documents and the world *)

Module Model.

(** A [PIL.Image]: colour mode and pixel size [(width, height)]. *)
Record image := mkImage { mode : str; size : Z * Z }.

(** The [format] argument of [FPDF]: the default ['A4'] or a
    [[width, height]] list in user units. *)
Inductive page_format := A4 | Custom (w h : Z).

(** What the program asks an [FPDF] object to draw, in call order. *)
Inductive pdf_op :=
| AddPage
| SetFont (family : str) (pt_size : Z)
| Cell (w h : Z) (txt : str) (ln : bool)
| PlaceImage (img : image) (x y w h : Z).

(** An [FPDF] object: scale factor [k] (points per user unit), page
    format, and the drawing calls made so far. *)
Record FPDF := mkFPDF { k : Q; format : page_format; ops : list pdf_op }.

Inductive content :=
| TextData (t : str)
| ImageData (img : image)
| PdfData (doc : FPDF)
| OtherData (raw : list N).

Inductive node := Dir | File (c : content).

(** Errors of PIL and FPDF whose wording is the library's own. *)
Inductive library_failure :=
| JpegEmptyImage
| JpegTooLarge
| NotAJpegFile
| IncorrectUnit.

(** Exceptions (subclasses of [Exception]) the program can meet:
    [CalledProcessError] of [subprocess]; [OSError] and its subclasses
    ([FileNotFoundError], [NotADirectoryError], ...) with the error
    number and the file names of the failed call;
    [PIL.UnidentifiedImageError]; an error of a library with its
    message; [UnicodeEncodeError] of the UTF-8 encoder with the text
    and the range it could not encode. *)
Inductive exn :=
| CalledProcessError (returncode : Z) (cmd : list str) (stderr : ptext)
| OSError (errno : Z) (filenames : list str)
| UnidentifiedImageError (filename : str)
| LibraryError (message : ptext)
| UnicodeEncodeError (object : str) (start stop : nat).

Inductive exn_class := CalledProcessErrorC | ExceptionC.

Definition isinstance (e : exn) (c : exn_class) : bool :=
  match c, e with
  | CalledProcessErrorC, CalledProcessError _ _ _ => true
  | CalledProcessErrorC, _ => false
  | ExceptionC, _ => true
  end.

(** The process state: working directory and file tree (both by
    resolved path, a list of components from the root) and the lines
    printed so far. *)
Record World := mkWorld {
  cwd : list str;
  fs : gmap (list str) node;
  stdout : list str
}.

Definition set_cwd (d : list str) (w : World) : World :=
  mkWorld d (fs w) (stdout w).
Definition set_fs (m : gmap (list str) node) (w : World) : World :=
  mkWorld (cwd w) m (stdout w).
Definition put_line (s : str) (w : World) : World :=
  mkWorld (cwd w) (fs w) (stdout w ++ [s]).

(** How a started program ends: it exits with a return code (the
    negated signal number when a signal ended it), the bytes captured
    from its standard output and the text its standard error decodes
    to; or it could not be started at all. *)
Inductive proc_outcome :=
| Exited (returncode : Z) (out : list N) (err : ptext)
| NotStarted (e : exn).

Inductive io_op :=
| OpGetcwd
| OpChdir (p : str)
| OpRead (p : str)
| OpWrite (p : str)
| OpRemove (p : str)
| OpRename (src dst : str)
| OpMakedirs (p : str)
| OpListdir (p : str)
| OpImageConvert.

(** Everything outside the program: the programs on the execution
    path ([spawn argv w] is the outcome and the file tree the child
    leaves behind), faults of the machine and of the libraries
    (permissions, full disk, truncated data), the text seen when a
    non-text file is read with [errors='replace'], the path the script
    was started from, the Unicode database, the C library's message
    for an error number, the platform's name for a signal number, and
    the libraries' wording of their own errors. *)
Record Host := mkHost {
  spawn : list str -> World -> proc_outcome * gmap (list str) node;
  fault : io_op -> World -> option exn;
  text_view : content -> str;
  script_file : str;
  unicode : Unicode;
  strerror : Z -> ptext;
  signal_name : Z -> option string;
  wording : library_failure -> ptext
}.

(** [str(e)]. *)
Definition exn_str (host : Host) (e : exn) : str :=
  match e with
  | CalledProcessError code cmd _ =>
      if code <? 0 then
        match signal_name host (- code) with
        | Some name =>
            lit "Command '" ++ repr_list (unicode host) cmd
            ++ lit "' died with <Signals." ++ lit name ++ lit ": "
            ++ of_Z (- code) ++ lit ">."
        | None =>
            lit "Command '" ++ repr_list (unicode host) cmd
            ++ lit "' died with unknown signal " ++ of_Z (- code) ++ lit "."
        end
      else
        lit "Command '" ++ repr_list (unicode host) cmd
        ++ lit "' returned non-zero exit status " ++ of_Z code ++ lit "."
  | OSError errno filenames =>
      lit "[Errno " ++ of_Z errno ++ lit "] " ++ chars (strerror host errno)
      ++ match filenames with
         | [] => []
         | [f] => lit ": " ++ repr (unicode host) f
         | f :: g :: _ =>
             lit ": " ++ repr (unicode host) f ++ lit " -> "
             ++ repr (unicode host) g
         end
  | UnidentifiedImageError f =>
      lit "cannot identify image file " ++ repr (unicode host) f
  | LibraryError m => chars m
  | UnicodeEncodeError object start stop =>
      if bool_decide (stop = S start) then
        lit "'utf-8' codec can't encode character '"
        ++ escape_code (default 0%N (object !! start))
        ++ lit "' in position " ++ of_nat start
        ++ lit ": surrogates not allowed"
      else
        lit "'utf-8' codec can't encode characters in position "
        ++ of_nat start ++ lit "-" ++ of_nat (Nat.pred stop)
        ++ lit ": surrogates not allowed"
  end.

(** The error numbers the model raises itself. *)
Definition ENOENT : Z := 2.
Definition EEXIST : Z := 17.
Definition ENOTDIR : Z := 20.
Definition EISDIR : Z := 21.
Definition EINVAL : Z := 22.
Definition ENOTEMPTY : Z := 39.

(** *** Path resolution *)

Fixpoint walk (acc : list str) (cs : list str) : list str :=
  match cs with
  | [] => rev acc
  | c :: cs' =>
      if bool_decide (c = []) || bool_decide (c = lit ".") then walk acc cs'
      else if bool_decide (c = lit "..") then walk (tail acc) cs'
      else walk (c :: acc) cs'
  end.

Definition resolve (cwd : list str) (p : str) : list str :=
  if startswith ord_slash p then walk [] (split_on ord_slash p)
  else walk (rev cwd) (split_on ord_slash p).

Definition render (d : list str) : str :=
  match d with
  | [] => [ord_slash]
  | _ => concat (List.map (fun c => ord_slash :: c) d)
  end.

Definition lookup_path (w : World) (p : str) : option node :=
  if bool_decide (p = []) then None else fs w !! resolve (cwd w) p.

Fixpoint strip_prefix (d key : list str) : option (list str) :=
  match d, key with
  | [], _ => Some key
  | x :: d', y :: key' =>
      if bool_decide (x = y) then strip_prefix d' key' else None
  | _ :: _, [] => None
  end.

Definition child_name (d key : list str) : option str :=
  match strip_prefix d key with
  | Some [name] => Some name
  | _ => None
  end.

Definition children (d : list str) (m : gmap (list str) node) : list str :=
  omap (fun kv => child_name d kv.1) (map_to_list m).

Definition parent (d : list str) : list str := removelast d.

End Model.
Export Model.

(* ================================================================== *)
(** ** Exceptions and state *)

Module Monad.

Inductive result (A : Type) := Ok (a : A) | Raise (e : exn).
Arguments Ok {A} a.
Arguments Raise {A} e.

(** A statement: it runs in a world and either yields a value or
    raises, leaving a new world. *)
Definition M (A : Type) : Type := World -> result A * World.

Definition ret {A} (a : A) : M A := fun w => (Ok a, w).

Definition bind {A B} (c : M A) (f : A -> M B) : M B :=
  fun w =>
    match c w with
    | (Ok a, w') => f a w'
    | (Raise e, w') => (Raise e, w')
    end.

Definition raise {A} (e : exn) : M A := fun w => (Raise e, w).

Definition get_world : M World := fun w => (Ok w, w).

Definition modify (f : World -> World) : M unit := fun w => (Ok tt, f w).

#[global] Instance M_ret : MRet M := @ret.
#[global] Instance M_bind : MBind M := fun A B f c => bind c f.

(** [except C as e: h] clauses, tried in order. *)
Fixpoint select_handler {A} (hs : list (exn_class * (exn -> M A))) (e : exn)
  : option (M A) :=
  match hs with
  | [] => None
  | (c, h) :: hs' =>
      if isinstance e c then Some (h e) else select_handler hs' e
  end.

(** [try: body  except ...]. An exception raised by a handler leaves
    the statement. *)
Definition try_except {A} (body : M A)
           (hs : list (exn_class * (exn -> M A))) : M A :=
  fun w =>
    match body w with
    | (Ok a, w') => (Ok a, w')
    | (Raise e, w') =>
        match select_handler hs e with
        | Some h => h w'
        | None => (Raise e, w')
        end
    end.

(** A [for] loop threading an accumulator. *)
Fixpoint for_each {A B} (f : B -> A -> M B) (acc : B) (xs : list A) : M B :=
  match xs with
  | [] => mret acc
  | x :: xs' => acc' ← f acc x; for_each f acc' xs'
  end.

Definition when (b : bool) (c : M unit) : M unit :=
  if b then c else mret tt.

End Monad.
Export Monad.

(* ================================================================== *)
(** ** The operating system and the libraries *)

Module Os.
Section WithHost.

Variable host : Host.

(** [print(s)]: the line is encoded for the console before anything
    is written; a line that cannot be encoded raises and prints
    nothing. *)
Definition print (s : str) : M unit :=
  if encodable s then modify (put_line s)
  else raise (UnicodeEncodeError s (bad_start s) (bad_end s)).

Definition check_fault (op : io_op) : M unit :=
  fun w =>
    match fault host op w with
    | Some e => (Raise e, w)
    | None => (Ok tt, w)
    end.

(** [os.getcwd()]. *)
Definition os_getcwd : M str :=
  check_fault OpGetcwd;;
  w ← get_world;
  match fs w !! cwd w with
  | Some Dir => mret (render (cwd w))
  | _ => raise (OSError ENOENT [])
  end.

(** [os.chdir(p)]. *)
Definition os_chdir (p : str) : M unit :=
  check_fault (OpChdir p);;
  w ← get_world;
  match lookup_path w p with
  | Some Dir => modify (set_cwd (resolve (cwd w) p))
  | Some (File _) => raise (OSError ENOTDIR [p])
  | None => raise (OSError ENOENT [p])
  end.

(** [os.path.exists(p)] and [os.path.isdir(p)]: they never raise. *)
Definition os_path_exists (p : str) : M bool :=
  w ← get_world;
  mret (bool_decide (is_Some (lookup_path w p))).

Definition os_path_isdir (p : str) : M bool :=
  w ← get_world;
  mret (match lookup_path w p with Some Dir => true | _ => false end).

(** Opening [p] for reading and taking its whole content. *)
Definition read_file (p : str) : M content :=
  check_fault (OpRead p);;
  w ← get_world;
  match lookup_path w p with
  | Some (File c) => mret c
  | Some Dir => raise (OSError EISDIR [p])
  | None => raise (OSError ENOENT [p])
  end.

(** Opening [p] for writing and storing [c] (created or replaced). *)
Definition write_file (p : str) (c : content) : M unit :=
  check_fault (OpWrite p);;
  w ← get_world;
  let target := resolve (cwd w) p in
  match lookup_path w p with
  | Some Dir => raise (OSError EISDIR [p])
  | Some (File _) => modify (set_fs (<[target := File c]> (fs w)))
  | None =>
      if bool_decide (p = [])
      then raise (OSError ENOENT [p])
      else
        match fs w !! parent target with
        | Some Dir => modify (set_fs (<[target := File c]> (fs w)))
        | Some (File _) => raise (OSError ENOTDIR [p])
        | None => raise (OSError ENOENT [p])
        end
  end.

(** [os.remove(p)]. *)
Definition os_remove (p : str) : M unit :=
  check_fault (OpRemove p);;
  w ← get_world;
  match lookup_path w p with
  | Some (File _) => modify (set_fs (delete (resolve (cwd w) p) (fs w)))
  | Some Dir => raise (OSError EISDIR [p])
  | None => raise (OSError ENOENT [p])
  end.

(** Re-rooting of every entry at or below [src] to [dst]. *)
Definition move_tree (src dst : list str) (m : gmap (list str) node)
  : gmap (list str) node :=
  list_to_map
    (List.map (fun kv : list str * node =>
                 match strip_prefix src kv.1 with
                 | Some rest => (dst ++ rest, kv.2)
                 | None => kv
                 end)
              (map_to_list m)).

(** [os.rename(src, dst)]. *)
Definition os_rename (src dst : str) : M unit :=
  check_fault (OpRename src dst);;
  w ← get_world;
  let s := resolve (cwd w) src in
  let d := resolve (cwd w) dst in
  let missing := OSError ENOENT [src; dst] in
  match lookup_path w src with
  | None => raise missing
  | Some (File c) =>
      match lookup_path w dst with
      | Some Dir => raise (OSError EISDIR [src; dst])
      | Some (File _) =>
          modify (set_fs (<[d := File c]> (delete s (fs w))))
      | None =>
          match fs w !! parent d with
          | Some Dir =>
              if bool_decide (dst = []) then raise missing
              else modify (set_fs (<[d := File c]> (delete s (fs w))))
          | _ => raise missing
          end
      end
  | Some Dir =>
      if bool_decide (s = d) then mret tt
      else if bool_decide (is_Some (strip_prefix s d))
      then raise (OSError EINVAL [src; dst])
      else
        match lookup_path w dst with
        | Some (File _) => raise (OSError ENOTDIR [src; dst])
        | Some Dir =>
            match children d (fs w) with
            | [] => modify (set_fs (move_tree s d (delete d (fs w))))
            | _ :: _ => raise (OSError ENOTEMPTY [src; dst])
            end
        | None =>
            match fs w !! parent d with
            | Some Dir =>
                if bool_decide (dst = []) then raise missing
                else modify (set_fs (move_tree s d (fs w)))
            | _ => raise missing
            end
        end
  end.

(** [os.makedirs(p)]: the leaf must not exist; missing ancestors are
    created. *)
Fixpoint mkdirs (pre rest : list str) (m : gmap (list str) node)
  : exn + gmap (list str) node :=
  match rest with
  | [] => inr m
  | c :: rest' =>
      let d := pre ++ [c] in
      match m !! d with
      | Some Dir => mkdirs d rest' m
      | Some (File _) => inl (OSError ENOTDIR [render d])
      | None => mkdirs d rest' (<[d := Dir]> m)
      end
  end.

Definition os_makedirs (p : str) : M unit :=
  check_fault (OpMakedirs p);;
  w ← get_world;
  match lookup_path w p with
  | Some _ => raise (OSError EEXIST [p])
  | None =>
      if bool_decide (p = [])
      then raise (OSError ENOENT [p])
      else
        match mkdirs [] (resolve (cwd w) p) (fs w) with
        | inl e => raise e
        | inr m => modify (set_fs m)
        end
  end.

(** [os.listdir(p)]; the order of the names is the tree's own. *)
Definition os_listdir (p : str) : M (list str) :=
  check_fault (OpListdir p);;
  w ← get_world;
  match lookup_path w p with
  | Some Dir => mret (children (resolve (cwd w) p) (fs w))
  | Some (File _) => raise (OSError ENOTDIR [p])
  | None => raise (OSError ENOENT [p])
  end.

(** [subprocess.run(argv, check=.., stdout=PIPE, stderr=PIPE)]: the
    result is [(returncode, stdout, stderr)]. A child cannot change
    the caller's working directory, only the file tree. *)
Definition subprocess_run (argv : list str) (check : bool)
  : M (Z * list N * ptext) :=
  w ← get_world;
  match spawn host argv w with
  | (NotStarted e, m) => modify (set_fs m);; raise e
  | (Exited code out err, m) =>
      modify (set_fs m);;
      if check && negb (code =? 0)
      then raise (CalledProcessError code argv err)
      else mret (code, out, err)
  end.

End WithHost.
End Os.
Export Os.

Module Lib.
Section WithHost.

Variable host : Host.

(** *** Text files *)

(** Newline translation of text mode: a carriage return followed by a
    line feed, and a lone carriage return, are read as a line feed. *)
Fixpoint universal_newlines (s : str) : str :=
  match s with
  | [] => []
  | c :: rest =>
      if N.eqb c 13 then
        match rest with
        | d :: _ =>
            if N.eqb d 10 then universal_newlines rest
            else 10%N :: universal_newlines rest
        | [] => [10%N]
        end
      else c :: universal_newlines rest
  end.

(** The lines a file object yields, each with its line feed when it
    has one. *)
Fixpoint readlines (s : str) : list str :=
  match s with
  | [] => []
  | c :: rest =>
      if N.eqb c 10 then [c] :: readlines rest
      else
        match readlines rest with
        | l :: ls => (c :: l) :: ls
        | [] => [[c]]
        end
  end.

(** [open(p, 'r', encoding='utf-8', errors='replace')] and iteration
    over the lines: undecodable bytes become U+FFFD, never an error. *)
Definition file_text (c : content) : str :=
  match c with TextData t => t | _ => text_view host c end.

Definition open_lines (p : str) : M (list str) :=
  c ← read_file host p;
  mret (readlines (universal_newlines (file_text c))).

(** *** PIL *)

(** [Image.open(p)]. *)
Definition Image_open (p : str) : M image :=
  c ← read_file host p;
  match c with
  | ImageData img => mret img
  | _ => raise (UnidentifiedImageError p)
  end.

(** [image.convert(mode)]. *)
Definition Image_convert (img : image) (m : str) : M image :=
  check_fault host OpImageConvert;;
  mret (mkImage m (size img)).

(** The largest width and height a JPEG file can have. *)
Definition jpeg_limit : Z := 65500.

(** Why the JPEG encoder refuses an image: a side of 0 pixels, or a
    side above the limit of the format. *)
Definition jpeg_refuses (img : image) : option library_failure :=
  if ((size img).1 <=? 0) || ((size img).2 <=? 0) then Some JpegEmptyImage
  else if (jpeg_limit <? (size img).1) || (jpeg_limit <? (size img).2)
  then Some JpegTooLarge
  else None.

(** [image.save(p, 'JPEG')]: the file is opened for writing (created
    or emptied), then the image is encoded into it. When the encoder
    refuses the image, PIL removes the file if this call created it,
    and the error leaves the call. *)
Definition Image_save (img : image) (p : str) : M unit :=
  w ← get_world;
  let created := negb (bool_decide (is_Some (lookup_path w p))) in
  let target := resolve (cwd w) p in
  write_file host p (OtherData []);;
  match jpeg_refuses img with
  | Some failure =>
      when created (modify (fun w' => set_fs (delete target (fs w')) w'));;
      raise (LibraryError (wording host failure))
  | None =>
      modify (fun w' => set_fs (<[target := File (ImageData img)]> (fs w')) w')
  end.

(** *** FPDF *)

Definition scale_factor (unit : str) : option Q :=
  if bool_decide (unit = lit "pt") then Some (1 # 1)%Q
  else if bool_decide (unit = lit "mm") then Some (720 # 254)%Q
  else if bool_decide (unit = lit "cm") then Some (7200 # 254)%Q
  else if bool_decide (unit = lit "in") then Some (72 # 1)%Q
  else None.

(** [FPDF(unit=.., format=..)], portrait orientation. *)
Definition FPDF_new (unit : str) (fmt : page_format) : M FPDF :=
  match scale_factor unit with
  | Some k => mret (mkFPDF k fmt [])
  | None => raise (LibraryError (wording host IncorrectUnit))
  end.

Definition draw (op : pdf_op) (pdf : FPDF) : FPDF :=
  mkFPDF (k pdf) (format pdf) (ops pdf ++ [op]).

(** [pdf.image(name, x, y, w, h)]: the file is read when it is placed. *)
Definition FPDF_image (pdf : FPDF) (name : str) (x y w h : Z) : M FPDF :=
  c ← read_file host name;
  match c with
  | ImageData img => mret (draw (PlaceImage img x y w h) pdf)
  | _ => raise (LibraryError (wording host NotAJpegFile))
  end.

(** [pdf.output(name)]. *)
Definition FPDF_output (pdf : FPDF) (name : str) : M unit :=
  write_file host name (PdfData pdf).

End WithHost.




(** The text of the cells, in order. *)
Definition cell_texts (pdf : FPDF) : list str :=
  omap (fun op => match op with Cell _ _ t _ => Some t | _ => None end)
       (ops pdf).


End Lib.
Export Lib.

(* ================================================================== *)
(** ** The program *)

Module Pdfify.
Section WithHost.

Variable host : Host.

(** [check_dependencies()]; the function has no [return]. *)
Definition check_dependencies : M unit :=
  try_except
    (subprocess_run host [lit "which"; lit "abiword"] true;;
     print (lit "AbiWord is installed."))
    [(CalledProcessErrorC, fun _ =>
        print (lit "WARNING: AbiWord is not installed. DOCX conversion will not work.");;
        print (lit "Install with: sudo apt-get install abiword"))].

(** [''.join(char for char in line if ord(char) < 128)]. *)
Definition clean (line : str) : str :=
  List.filter (fun char => (char <? 128)%N) line.

(** The [try] block of [convert_txt_to_pdf]. *)
Definition convert_txt_body (input_file output_file : str) : M bool :=
  pdf ← FPDF_new host (lit "mm") A4;
  let pdf := draw AddPage pdf in
  let pdf := draw (SetFont (lit "Arial") 12) pdf in
  lines ← open_lines host input_file;
  let pdf :=
    fold_left (fun pdf line =>
                 let clean_line := clean line in
                 draw (Cell 0 10 (strip clean_line) true) pdf)
              lines pdf in
  FPDF_output host pdf output_file;;
  mret true.

(** The document the [try] block hands to [pdf.output], as a function
    of the lines read. *)
Definition text_pdf (lines : list str) : FPDF :=
  fold_left (fun pdf line => draw (Cell 0 10 (strip (clean line)) true) pdf)
            lines
            (draw (SetFont (lit "Arial") 12)
                  (draw AddPage (mkFPDF (720 # 254) A4 []))).

Definition convert_txt_to_pdf (input_file output_file : str) : M bool :=
  try_except
    (convert_txt_body input_file output_file)
    [(ExceptionC, fun e =>
        print (lit "Error converting text file: " ++ exn_str host e);;
        mret false)].

(** The [try] block of [convert_image_to_pdf]. *)
Definition convert_image_body (input_file output_file : str) : M bool :=
  image ← Image_open host input_file;
  let '(width, height) := size image in
  image ← (if negb (bool_decide (mode image = lit "RGB"))
           then Image_convert host image (lit "RGB")
           else mret image);
  let temp_jpg := input_file ++ lit ".temp.jpg" in
  Image_save host image temp_jpg;;
  pdf ← FPDF_new host (lit "pt") (Custom width height);
  let pdf := draw AddPage pdf in
  pdf ← FPDF_image host pdf temp_jpg 0 0 width height;
  FPDF_output host pdf output_file;;
  os_remove host temp_jpg;;
  mret true.

(** The image [image.save] receives: the source, in mode RGB. *)
Definition as_rgb (img : image) : image :=
  if bool_decide (mode img = lit "RGB") then img
  else mkImage (lit "RGB") (size img).

(** The document the [try] block hands to [pdf.output] for a source
    image [img]. *)
Definition image_pdf (img : image) : FPDF :=
  draw (PlaceImage (as_rgb img) 0 0 (size img).1 (size img).2)
       (draw AddPage (mkFPDF (1 # 1) (Custom (size img).1 (size img).2) [])).

Definition convert_image_to_pdf (input_file output_file : str) : M bool :=
  try_except
    (convert_image_body input_file output_file)
    [(ExceptionC, fun e =>
        print (lit "Error converting image: " ++ exn_str host e);;
        mret false)].

(** [output_dir] as [convert_docx_to_pdf] computes it. *)
Definition docx_output_dir (output_file : str) : str :=
  let output_dir := dirname output_file in
  if bool_decide (output_dir = []) then lit "." else output_dir.

Definition abiword_argv (input_file : str) : list str :=
  [lit "abiword"; lit "--to=pdf"; input_file].

(** [expected_pdf]: where AbiWord is expected to leave its result. *)
Definition docx_expected_pdf (input_file output_file : str) : str :=
  let base_name := basename input_file in
  let name_without_ext := (splitext base_name).1 in
  join (docx_output_dir output_file) (name_without_ext ++ lit ".pdf").

(** The [try] block of [convert_docx_to_pdf]. *)
Definition convert_docx_body (input_file output_file : str) : M bool :=
  let output_dir := docx_output_dir output_file in
  current_dir ← os_getcwd host;
  os_chdir host output_dir;;
  result ← subprocess_run host (abiword_argv input_file) true;
  os_chdir host current_dir;;
  let expected_pdf := docx_expected_pdf input_file output_file in
  found ← os_path_exists expected_pdf;
  when (found && negb (bool_decide (expected_pdf = output_file)))
       (os_rename host expected_pdf output_file);;
  mret true.

(** [e.stderr.decode('utf-8', errors='replace')]. *)
Definition stderr_text (e : exn) : str :=
  match e with
  | CalledProcessError _ _ stderr => chars stderr
  | _ => []
  end.

Definition convert_docx_to_pdf (input_file output_file : str) : M bool :=
  try_except
    (convert_docx_body input_file output_file)
    [(CalledProcessErrorC, fun e =>
        print (lit "Error running AbiWord: " ++ exn_str host e);;
        print (lit "STDERR: " ++ stderr_text e);;
        mret false);
     (ExceptionC, fun e =>
        print (lit "Error converting DOCX: " ++ exn_str host e);;
        mret false)].

Definition text_extensions : list str :=
  [lit ".txt"; lit ".md"; lit ".csv"].
Definition image_extensions : list str :=
  [lit ".jpg"; lit ".jpeg"; lit ".png"; lit ".bmp"; lit ".gif"].
Definition document_extensions : list str :=
  [lit ".docx"; lit ".doc"].

(** [x in xs] on a list of strings. *)
Definition elem (x : str) (xs : list str) : bool := bool_decide (x ∈ xs).

(** The output path [convert_to_pdf] builds before dispatching. *)
Definition output_path (input_file output_dir : str) : str :=
  let file_name := basename input_file in
  let name_without_ext := (splitext file_name).1 in
  join output_dir (name_without_ext ++ lit ".pdf").

Definition convert_to_pdf (input_file output_dir : str) : M (option str) :=
  let file_name := basename input_file in
  let name_without_ext := (splitext file_name).1 in
  let extension := lower (unicode host) (splitext file_name).2 in
  let output_file := join output_dir (name_without_ext ++ lit ".pdf") in
  print (lit "Converting " ++ file_name ++ lit " to " ++ output_file
         ++ lit "...");;
  if elem extension text_extensions then
    success ← convert_txt_to_pdf input_file output_file;
    if success : bool then mret (Some output_file) else mret None
  else if elem extension image_extensions then
    success ← convert_image_to_pdf input_file output_file;
    if success : bool then mret (Some output_file) else mret None
  else if elem extension document_extensions then
    success ← convert_docx_to_pdf input_file output_file;
    if success : bool then mret (Some output_file) else mret None
  else
    print (lit "Unsupported file format: " ++ extension);;
    mret None.

Definition supported_extensions : list str :=
  [lit ".txt"; lit ".md"; lit ".csv";
   lit ".jpg"; lit ".jpeg"; lit ".png"; lit ".bmp"; lit ".gif";
   lit ".docx"; lit ".doc"].

(** Truth value of [output_file] in [if output_file and ...]: [None]
    and the empty string are false. *)
Definition truthy (o : option str) : bool :=
  match o with
  | Some (_ :: _) => true
  | _ => false
  end.

(** One iteration of the loop of [main] over [os.listdir]; the pair
    is [(converted_files, failed_files)]. The name is appended before
    the line is printed. *)
Definition process_entry (current_dir output_dir : str)
           (acc : list str * list str) (file_name : str)
  : M (list str * list str) :=
  let file_path := join current_dir file_name in
  is_dir ← os_path_isdir file_path;
  if is_dir || bool_decide (file_name = basename (script_file host))
  then mret acc
  else
    let extension := lower (unicode host) (splitext file_name).2 in
    if elem extension supported_extensions then
      output_file ← convert_to_pdf file_path output_dir;
      on_disk ← (if truthy output_file
                 then os_path_exists (default [] output_file)
                 else mret false);
      if on_disk : bool then
        let acc := (acc.1 ++ [file_name], acc.2) in
        print ([10003%N] ++ lit " Successfully converted: " ++ file_name);;
        mret acc
      else
        let acc := (acc.1, acc.2 ++ [file_name]) in
        print ([10007%N] ++ lit " Failed to convert: " ++ file_name);;
        mret acc
    else mret acc.

(** The batch report printed at the end of [main]. *)
Record BatchReport := mkReport {
  totalProcessed : nat;
  succeededCount : nat;
  failedCount : nat
}.

Definition report (acc : list str * list str) : BatchReport :=
  mkReport (length acc.1 + length acc.2) (length acc.1) (length acc.2).

(** [main()]. The source prints the report; the model also returns
    the two lists it was computed from. *)
Definition main : M (list str * list str) :=
  check_dependencies;;
  current_dir ← os_getcwd host;
  let output_dir := join current_dir (lit "pdf_output") in
  present ← os_path_exists output_dir;
  when (negb present)
       (os_makedirs host output_dir;;
        print (lit "Created output directory: " ++ output_dir));;
  names ← os_listdir host current_dir;
  acc ← for_each (process_entry current_dir output_dir) ([], []) names;
  let r := report acc in
  print ([10%N] ++ lit "=== Conversion Summary ===");;
  print (lit "Total files processed: " ++ of_nat (totalProcessed r));;
  print (lit "Successfully converted: " ++ of_nat (succeededCount r));;
  print (lit "Failed conversions: " ++ of_nat (failedCount r));;
  when (negb (bool_decide (acc.1 = [])))
       (print ([10%N] ++ lit "Converted files can be found in the 'pdf_output' directory"));;
  mret acc.

End WithHost.
End Pdfify.
Export Pdfify.

(* ================================================================== *)
(** ** Scenarios: concrete hosts and worlds *)

Module Scenario.

Definition no_fault (op : io_op) (w : World) : option exn := None.

Definition binary_text (c : content) : str := [65533%N].

(** A database without case or unprintable code points outside ASCII. *)
Definition plain_unicode : Unicode :=
  mkUnicode (fun s i => match s !! i with Some c => [c] | None => [] end)
            (fun _ => true).

(** The messages of the C library, in English. *)
Definition strerror_en (errno : Z) : ptext :=
  if errno =? ENOENT then mkText (lit "No such file or directory") eq_refl
  else if errno =? EEXIST then mkText (lit "File exists") eq_refl
  else if errno =? ENOTDIR then mkText (lit "Not a directory") eq_refl
  else if errno =? EISDIR then mkText (lit "Is a directory") eq_refl
  else if errno =? EINVAL then mkText (lit "Invalid argument") eq_refl
  else if errno =? ENOTEMPTY then mkText (lit "Directory not empty") eq_refl
  else if errno =? 13 then mkText (lit "Permission denied") eq_refl
  else if errno =? 28 then mkText (lit "No space left on device") eq_refl
  else mkText (lit "Unknown error") eq_refl.

(** Some signals of Linux. *)
Definition signal_name_linux (n : Z) : option string :=
  if n =? 2 then Some "SIGINT"%string
  else if n =? 6 then Some "SIGABRT"%string
  else if n =? 9 then Some "SIGKILL"%string
  else if n =? 11 then Some "SIGSEGV"%string
  else if n =? 15 then Some "SIGTERM"%string
  else None.

Definition wording_en (f : library_failure) : ptext :=
  match f with
  | JpegEmptyImage => mkText (lit "cannot write empty image as JPEG") eq_refl
  | JpegTooLarge =>
      mkText (lit "encoder error -2 when writing image file") eq_refl
  | NotAJpegFile => mkText (lit "FPDF error: Not a JPEG file") eq_refl
  | IncorrectUnit => mkText (lit "FPDF error: Incorrect unit") eq_refl
  end.

(** What AbiWord writes for a document (its content is not modelled). *)
Definition abiword_doc : FPDF := mkFPDF (720 # 254) A4 [AddPage].

Definition cannot_open : ptext :=
  mkText (lit "abiword: cannot open document") eq_refl.

(** A host with [which] and a working [abiword]: it leaves
    [<stem>.pdf] in its working directory. *)
Definition spawn_working (argv : list str) (w : World)
  : proc_outcome * gmap (list str) node :=
  match argv with
  | [_; _; input] =>
      (Exited 0 [] no_text,
       <[cwd w ++ [(splitext (basename input)).1 ++ lit ".pdf"]
         := File (PdfData abiword_doc)]> (fs w))
  | _ => (Exited 0 (lit "/usr/bin/abiword") no_text, fs w)
  end.

(** [abiword] is missing from the path: [which] exits 1, and starting
    [abiword] raises [FileNotFoundError]. *)
Definition spawn_missing (argv : list str) (w : World)
  : proc_outcome * gmap (list str) node :=
  match argv with
  | [_; _; _] => (NotStarted (OSError ENOENT [lit "abiword"]), fs w)
  | _ => (Exited 1 [] no_text, fs w)
  end.

(** [abiword] rejects the document: exit status 1 and a message on
    stderr. *)
Definition spawn_rejecting (argv : list str) (w : World)
  : proc_outcome * gmap (list str) node :=
  match argv with
  | [_; _; _] => (Exited 1 [] cannot_open, fs w)
  | _ => (Exited 0 (lit "/usr/bin/abiword") no_text, fs w)
  end.


(** [abiword] exits 0 without writing anything. *)
Definition spawn_silent (argv : list str) (w : World)
  : proc_outcome * gmap (list str) node :=
  (Exited 0 [] no_text, fs w).

(** A host without the [which] command. *)
Definition spawn_no_which (argv : list str) (w : World)
  : proc_outcome * gmap (list str) node :=
  (NotStarted (OSError ENOENT [lit "which"]), fs w).

Definition host_of (sp : list str -> World
                         -> proc_outcome * gmap (list str) node) : Host :=
  mkHost sp no_fault binary_text (lit "/work/pdfify.py")
         plain_unicode strerror_en signal_name_linux wording_en.

Definition host_working : Host := host_of spawn_working.
Definition host_missing : Host := host_of spawn_missing.
Definition host_rejecting : Host := host_of spawn_rejecting.
Definition host_silent : Host := host_of spawn_silent.
Definition host_no_which : Host := host_of spawn_no_which.

Definition photo : image := mkImage (lit "RGBA") (800, 600).


(** The first line of [a.txt]: two blanks, then a word with an
    accented letter. *)
Definition a_txt_text : str :=
  lit "  caf" ++ [233%N] ++ lit " au lait" ++ [10%N] ++ lit "fin".

(** [/work] holds [a.txt], [a.jpg], [report.docx], [archive.zip], the
    script, and a directory named [notes.txt]; [/work/pdf_output]
    exists. *)
Definition tree : gmap (list str) node :=
  list_to_map
    [([], Dir);
     ([lit "work"], Dir);
     ([lit "work"; lit "pdf_output"], Dir);
     ([lit "work"; lit "a.txt"], File (TextData a_txt_text));
     ([lit "work"; lit "a.jpg"], File (ImageData photo));
     ([lit "work"; lit "report.docx"], File (OtherData [80; 75]%N));
     ([lit "work"; lit "archive.zip"], File (OtherData [80; 75]%N));
     ([lit "work"; lit "pdfify.py"], File (OtherData []));
     ([lit "work"; lit "notes.txt"], Dir)].

Definition world : World := mkWorld [lit "work"] tree [].

Definition out_dir : str := lit "/work/pdf_output".

Definition report_docx : str := lit "/work/report.docx".
Definition report_pdf : str := lit "/work/pdf_output/report.pdf".
Definition a_txt : str := lit "/work/a.txt".
Definition a_jpg : str := lit "/work/a.jpg".
Definition a_pdf : str := lit "/work/pdf_output/a.pdf".



(** A directory whose only entry is a text file with a name that is
    not valid UTF-8: [os.listdir] returns the byte E9 of the name as
    the lone surrogate U+DCE9. *)
Definition latin1_name : str := lit "caf" ++ [56553%N] ++ lit ".txt".

Definition world_latin1 : World :=
  mkWorld [lit "work"]
          (list_to_map
             [([], Dir);
              ([lit "work"], Dir);
              ([lit "work"; lit "pdf_output"], Dir);
              ([lit "work"; latin1_name], File (TextData (lit "menu")))])
          [].

(** [/work] with the text [a.txt] and a document [a.docx]. *)
Definition world_pair : World :=
  mkWorld [lit "work"]
          (list_to_map
             [([], Dir);
              ([lit "work"], Dir);
              ([lit "work"; lit "pdf_output"], Dir);
              ([lit "work"; lit "a.txt"], File (TextData a_txt_text));
              ([lit "work"; lit "a.docx"], File (OtherData [80; 75]%N))])
          [].

End Scenario.
(* ================================================================== *)
(** ** Notions used in the statements *)

Module Derived.

(** The world in which [convert_docx_to_pdf] starts AbiWord: the
    working directory is the output directory. *)
Definition docx_launch_world (output_file : str) (w : World) : World :=
  set_cwd (resolve (cwd w) (docx_output_dir output_file)) w.

(** Neither end of a cell is white space. *)
Definition no_edge_space (cell : str) : Prop :=
  (∀ c, head cell = Some c → isspace c = false) ∧
  (∀ c, last cell = Some c → isspace c = false).

(** The loop of [main] skips an entry before looking at its
    extension when it is a directory or carries the script's name. *)
Definition skipped (host : Host) (current_dir file_name : str) (w : World)
  : bool :=
  match lookup_path w (join current_dir file_name) with
  | Some Dir => true
  | _ => false
  end
  || bool_decide (file_name = basename (script_file host)).

Definition supported (host : Host) (file_name : str) : bool :=
  elem (lower (unicode host) (splitext file_name).2) supported_extensions.

(** The lines printed outside every [try]: by the dispatcher before
    it dispatches, and by the loop of [main] after each conversion. *)
Definition converting_line (input_file output_dir : str) : str :=
  lit "Converting " ++ basename input_file ++ lit " to "
  ++ output_path input_file output_dir ++ lit "...".

Definition success_line (file_name : str) : str :=
  [10003%N] ++ lit " Successfully converted: " ++ file_name.

Definition failure_line (file_name : str) : str :=
  [10007%N] ++ lit " Failed to convert: " ++ file_name.

(** What [print] raises for a line it cannot encode. *)
Definition encode_error (line : str) : exn :=
  UnicodeEncodeError line (bad_start line) (bad_end line).



(** A path component that resolution keeps as it is. *)
Definition plain_name (b : str) : Prop :=
  b ≠ [] ∧ b ≠ lit "." ∧ b ≠ lit "..".

(** A path at which a file can be created or replaced. *)
Definition writable (w : World) (p : str) : Prop :=
  p ≠ [] ∧
  ((∃ c, lookup_path w p = Some (File c)) ∨
   (lookup_path w p = None ∧ fs w !! parent (resolve (cwd w) p) = Some Dir)).

(** A machine on which no operation faults. *)
Definition fault_free (host : Host) : Prop :=
  ∀ op w, fault host op w = None.

End Derived.
Export Derived.

(* ================================================================== *)
(** ** The specification's wording, for comparison with the program *)

Module Stated.

(** The format kinds of the specification's data model, with the
    dispatcher's fourth outcome. *)
Inductive FormatKind := Text | Image | Document | Unsupported.

(** Classification of an extension as the specification tabulates it. *)
Definition classify (host : Host) (extension : str) : FormatKind :=
  let e := lower (unicode host) extension in
  if elem e [lit ".txt"; lit ".md"; lit ".csv"] then Text
  else if elem e [lit ".jpg"; lit ".jpeg"; lit ".png"; lit ".bmp"; lit ".gif"]
  then Image
  else if elem e [lit ".docx"; lit ".doc"] then Document
  else Unsupported.


(** A line without its terminator. *)
Definition chomp (line : str) : str :=
  match last line with
  | Some 10%N => removelast line
  | _ => line
  end.

(** The text the specification expects in the PDF: every line of the
    input with the code points at or above 128 removed and nothing
    else changed. *)
Definition stated_pdf_lines (text : str) : list str :=
  List.map (fun line => clean (chomp line))
         (readlines (universal_newlines text)).

Definition text_written_as_stated
           (host : Host) (input_file output_file : str) (w : World) : Prop :=
  ∀ text w',
    lookup_path w input_file = Some (File (TextData text)) →
    convert_txt_to_pdf host input_file output_file w = (Ok true, w') →
    ∃ doc, lookup_path w' output_file = Some (File (PdfData doc)) ∧
           cell_texts doc = stated_pdf_lines text.

(** The specification's capability probe: it never raises. *)
Definition probe_never_raises (host : Host) (w : World) : Prop :=
  ∃ w', check_dependencies host w = (Ok tt, w').



(** The specification's overwrite: of two files with one output path
    that the loop both records as succeeded, the later one replaces
    the PDF the earlier one left at that path. *)
Definition later_conversion_overwrites
           (host : Host) (current_dir output_dir first later : str)
           (w : World) : Prop :=
  let step := process_entry host current_dir output_dir in
  let w1 := (step ([], []) first w).2 in
  let w2 := (step ([first], []) later w1).2 in
  output_path (join current_dir first) output_dir
  = output_path (join current_dir later) output_dir →
  (for_each step ([], []) [first; later] w).1 = Ok ([first; later], []) →
  lookup_path w2 (output_path (join current_dir later) output_dir)
  ≠ lookup_path w1 (output_path (join current_dir first) output_dir).

End Stated.
Export Stated.
(* ================================================================== *)
(** ** Further notions: what a statement leaves alone *)

Module Frame.

(** A statement keeps an observation [f] of the world when [f] reads
    the same after the statement as before, whether it returns or
    raises. *)
Definition keeps {X A} (f : World -> X) (c : M A) : Prop :=
  ∀ w, f (c w).2 = f w.

(** A code point that shows on the page: ASCII and not white space. *)
Definition visible (c : N) : bool := (c <? 128)%N && negb (isspace c).

(** A line as a file object yields it: at most one line feed, at its
    end. *)
Definition line_shaped (l : str) : Prop :=
  ∃ b, (l = b ++ [10%N] ∨ l = b) ∧ 10%N ∉ b.

(** A resolved directory as path resolution produces it: every
    component is a plain name without a slash. *)
Definition canonical (d : list str) : Prop :=
  Forall (λ c, plain_name c ∧ ord_slash ∉ c) d.

(** From a world with working directory [c0], [w'] differs from [w]
    in the file tree at most at the given paths, and has the same
    working directory. *)
Definition touches_only (c0 : list str) (paths : list str) (w w' : World)
  : Prop :=
  cwd w = c0 →
  cwd w' = c0 ∧
  ∀ key, key ∉ List.map (resolve c0) paths → fs w' !! key = fs w !! key.

Definition confined {A} (c0 : list str) (paths : list str) (c : M A) : Prop :=
  ∀ w, touches_only c0 paths w (c w).2.

(** A converter's outcome [r] from the world [w]: a boolean, with
    nothing printed when it is [true] and at least one line printed
    when it is [false]. *)
Definition logs_iff_fails (r : result bool * World) (w : World) : Prop :=
  ∃ b, r.1 = Ok b ∧
       if b then stdout r.2 = stdout w
       else ∃ lines, lines ≠ [] ∧ stdout r.2 = stdout w ++ lines.

(** Every component of every path of the tree can be printed. *)
Definition printable_tree (m : gmap (list str) node) : Prop :=
  ∀ key n, m !! key = Some n → Forall (λ c, encodable c = true) key.

End Frame.
Export Frame.

(* ================================================================== *)
(** ** Further scenarios *)

Module Scenario2.
Import Scenario.

(** [/work] before the first run: there is no [pdf_output] yet. *)
Definition bare_world : World :=
  mkWorld [lit "work"] (delete [lit "work"; lit "pdf_output"] tree) [].

(** The image [a.jpg] as saved for FPDF, beside the source. *)
Definition a_temp : str := lit "/work/a.jpg.temp.jpg".

(** A caller that wants the PDF under another name than AbiWord's. *)
Definition final_pdf : str := lit "/work/pdf_output/final.pdf".

End Scenario2.
(* ================================================================== *)
(** ** Reduction behaviour in proofs *)

Arguments lit : simpl never.
Arguments join : simpl never.
Arguments dirname : simpl never.
Arguments basename : simpl never.
Arguments splitext : simpl never.
Arguments resolve : simpl never.
Arguments render : simpl never.
Arguments exn_str : simpl never.
Arguments lookup_path : simpl never.
Arguments of_nat : simpl never.
Arguments of_Z : simpl never.
Arguments encodable : simpl never.
Arguments repr : simpl never.
Arguments lower : simpl never.
Arguments print : simpl never.
Arguments success_line : simpl never.
Arguments failure_line : simpl never.
Arguments converting_line : simpl never.

Ltac munfold :=
  unfold mbind, M_bind, bind, mret, M_ret, ret, raise, modify, get_world,
    check_fault, when in *.

Import Scenario.
Import Scenario2.

(* ================================================================== *)
(** ** Facts about [os.path] *)

Lemma rfind_from_notin c s : ∀ i l, c ∉ s → rfind_from c s i l = l.
Proof.
  induction s as [|x s IH]; intros i l Hc; cbn; [done|].
  apply not_elem_of_cons in Hc as [Hx Hs].
  destruct (N.eqb_spec x c); [congruence|]. by apply IH.
Qed.

Lemma rfind_from_last c a b : ∀ i l,
  c ∉ b → rfind_from c (a ++ c :: b) i l = i + Z.of_nat (length a).
Proof.
  induction a as [|x a IH]; intros i l Hc; cbn.
  - rewrite N.eqb_refl, rfind_from_notin by done. lia.
  - rewrite IH by done. lia.
Qed.

Lemma last_occurrence (c : N) (s : str) :
  c ∉ s ∨ ∃ a b, s = a ++ c :: b ∧ c ∉ b.
Proof.
  induction s as [|x s [IH|(a & b & -> & Hb)]].
  - left. apply not_elem_of_nil.
  - destruct (decide (x = c)) as [->|Hx].
    + right. by exists [], s.
    + left. by apply not_elem_of_cons.
  - right. by exists (x :: a), b.
Qed.

Lemma rfind_notin c s : c ∉ s → rfind c s = -1.
Proof. apply rfind_from_notin. Qed.

Lemma rfind_last c a b : c ∉ b → rfind c (a ++ c :: b) = Z.of_nat (length a).
Proof. intros. unfold rfind. by rewrite rfind_from_last. Qed.

Lemma upto_app a b : upto (Z.of_nat (length a)) (a ++ b) = a.
Proof. unfold upto. rewrite Nat2Z.id. by rewrite take_app_length. Qed.

Lemma from_app a b : from (Z.of_nat (length a)) (a ++ b) = b.
Proof. unfold from. rewrite Nat2Z.id. by rewrite drop_app_length. Qed.

Lemma basename_notin p : ord_slash ∉ p → basename p = p.
Proof. intros H. unfold basename. by rewrite rfind_notin. Qed.

Lemma basename_app_slash a b :
  ord_slash ∉ b → basename (a ++ ord_slash :: b) = b.
Proof.
  intros H. unfold basename. rewrite rfind_last by done.
  replace (Z.of_nat (length a) + 1) with (Z.of_nat (length (a ++ [ord_slash])))
    by (rewrite length_app; cbn; lia).
  rewrite (cons_middle _ a b), app_assoc. apply from_app.
Qed.

Lemma basename_no_slash p : ord_slash ∉ basename p.
Proof.
  destruct (last_occurrence ord_slash p) as [H|(a & b & -> & H)].
  - by rewrite basename_notin.
  - by rewrite basename_app_slash.
Qed.

Lemma basename_app_r p s :
  ord_slash ∉ s → basename (p ++ s) = basename p ++ s.
Proof.
  intros Hs.
  destruct (last_occurrence ord_slash p) as [H|(a & b & -> & H)].
  - rewrite !basename_notin; [done..|].
    rewrite elem_of_app. tauto.
  - rewrite <- app_assoc. cbn. rewrite !basename_app_slash; [done..|].
    rewrite elem_of_app. tauto.
Qed.

(** The scan of [splitext] over leading dots. *)
Lemma splitext_scan_spec pre rest tl :
  splitext_scan (length rest) (pre ++ rest ++ tl)
                (Z.of_nat (length pre)) (Z.of_nat (length pre + length rest))
  = if bool_decide (Forall (λ c, c = ord_dot) rest) then None
    else Some (pre ++ rest, tl).
Proof.
  revert pre. induction rest as [|c rest IH]; intros pre; cbn [length splitext_scan].
  - by rewrite bool_decide_eq_true_2.
  - destruct (Z.ltb_spec (Z.of_nat (length pre))
                         (Z.of_nat (length pre + S (length rest)))); [|lia].
    rewrite from_app. cbn [take app].
    destruct (decide (c = ord_dot)) as [->|Hc].
    + rewrite bool_decide_eq_true_2 by done. cbn [negb].
      specialize (IH (pre ++ [ord_dot])).
      rewrite <- !app_assoc in IH. cbn [app] in IH.
      rewrite length_app in IH. cbn [length] in IH.
      replace (Z.of_nat (length pre) + 1) with (Z.of_nat (length pre + 1)) by lia.
      replace (length pre + S (length rest))%nat
        with (length pre + 1 + length rest)%nat by lia.
      rewrite IH.
      destruct (decide (Forall (λ c, c = ord_dot) rest)).
      * by rewrite !bool_decide_eq_true_2 by (try constructor; done).
      * rewrite !bool_decide_eq_false_2; [done| |done].
        by intros [_ ?]%Forall_cons.
    + rewrite bool_decide_eq_false_2 by congruence. cbn [negb].
      rewrite (bool_decide_eq_false_2 (Forall _ (c :: rest)))
        by (by intros [? _]%Forall_cons).
      f_equal. f_equal.
      * replace (pre ++ c :: rest ++ tl) with ((pre ++ c :: rest) ++ tl)
          by (by rewrite <- app_assoc).
        replace (Z.of_nat (length pre + S (length rest)))
          with (Z.of_nat (length (pre ++ c :: rest)))
          by (rewrite length_app; cbn; lia).
        apply upto_app.
      * replace (pre ++ c :: rest ++ tl) with ((pre ++ c :: rest) ++ tl)
          by (by rewrite <- app_assoc).
        replace (Z.of_nat (length pre + S (length rest)))
          with (Z.of_nat (length (pre ++ c :: rest)))
          by (rewrite length_app; cbn; lia).
        apply from_app.
Qed.

Lemma splitext_no_dot f : ord_dot ∉ f → splitext f = (f, []).
Proof.
  intros H. unfold splitext. rewrite (rfind_notin ord_dot) by done.
  destruct (last_occurrence ord_slash f) as [Hs|(a & b & -> & Hs)].
  - by rewrite rfind_notin.
  - rewrite rfind_last by done.
    destruct (Z.gtb_spec (-1) (Z.of_nat (length a))); [lia|done].
Qed.

(** [splitext] of a name without directory part. *)
Lemma splitext_name a e :
  ord_slash ∉ a → ord_slash ∉ e → ord_dot ∉ e →
  splitext (a ++ ord_dot :: e)
  = if bool_decide (Forall (λ c, c = ord_dot) a)
    then (a ++ ord_dot :: e, [])
    else (a, ord_dot :: e).
Proof.
  intros Ha He Hd. unfold splitext.
  rewrite (rfind_last ord_dot) by done.
  rewrite rfind_notin.
  2: { rewrite elem_of_app, elem_of_cons. intros [?|[?|?]]; done. }
  destruct (Z.gtb_spec (Z.of_nat (length a)) (-1)); [|lia].
  replace (Z.of_nat (length a) - (-1 + 1)) with (Z.of_nat (length a)) by lia.
  rewrite Nat2Z.id.
  pose proof (splitext_scan_spec [] a (ord_dot :: e)) as Hscan.
  cbn [app length] in Hscan. cbn [Z.add]. 
  change (-1 + 1) with (Z.of_nat 0).
  rewrite Nat.add_0_l in Hscan. rewrite Hscan.
  by destruct (bool_decide _).
Qed.

Lemma splitext_spec f :
  ord_slash ∉ f →
  f = ((splitext f).1 ++ (splitext f).2) ∧
  ((splitext f).2 = [] ∨
   ∃ e, (splitext f).2 = ord_dot :: e ∧ (ord_dot ∉ e) ∧
        (¬ Forall (λ c, c = ord_dot) (splitext f).1)).
Proof.
  intros Hs.
  destruct (last_occurrence ord_dot f) as [H|(a & e & -> & H)].
  - rewrite splitext_no_dot by done. cbn. rewrite app_nil_r. auto.
  - apply not_elem_of_app in Hs as [Ha [_ He]%not_elem_of_cons].
    rewrite splitext_name by done.
    destruct (decide (Forall (λ c, c = ord_dot) a)).
    + rewrite bool_decide_eq_true_2 by done. cbn. rewrite app_nil_r. auto.
    + rewrite bool_decide_eq_false_2 by done. cbn. split; [done|].
      right. by exists e.
Qed.

Lemma stem_no_slash f : ord_slash ∉ f → ord_slash ∉ (splitext f).1.
Proof.
  intros Hs. destruct (splitext_spec f Hs) as [Hf _].
  rewrite Hf in Hs. by apply not_elem_of_app in Hs as [? _].
Qed.

Lemma join_cases a b :
  startswith ord_slash b = false →
  join a b = b ∧ a = [] ∨ ∃ a', join a b = a' ++ ord_slash :: b.
Proof.
  intros Hb. unfold join. rewrite Hb.
  destruct (decide (a = [])) as [->|Ha].
  - left. by rewrite bool_decide_eq_true_2.
  - rewrite bool_decide_eq_false_2 by done. cbn [orb].
    unfold endswith. destruct (last a) as [x|] eqn:Hl.
    + destruct (N.eqb_spec x ord_slash) as [->|].
      * apply last_Some in Hl as [a' ->]. right. exists a'.
        by rewrite <- app_assoc.
      * right. by exists a.
    + right. by exists a.
Qed.

Lemma startswith_notin c b : c ∉ b → startswith c b = false.
Proof.
  destruct b as [|x b]; [done|]. cbn. intros H.
  destruct (N.eqb_spec x c) as [->|]; [|done].
  destruct H. by apply elem_of_cons; left.
Qed.

Lemma basename_join a b : ord_slash ∉ b → basename (join a b) = b.
Proof.
  intros Hb.
  destruct (join_cases a b (startswith_notin _ _ Hb)) as [[-> _]|[a' ->]].
  - by apply basename_notin.
  - by apply basename_app_slash.
Qed.

Lemma join_plain a b :
  a ≠ [] → endswith ord_slash a = false → startswith ord_slash b = false →
  join a b = a ++ [ord_slash] ++ b.
Proof.
  intros Ha He Hb. unfold join.
  by rewrite Hb, He, bool_decide_eq_false_2.
Qed.

(** *** The output path *)

Lemma lit_pdf_no_slash : ord_slash ∉ lit ".pdf".
Proof. apply (bool_decide_unpack _). vm_compute. exact I. Qed.

Lemma basename_output_path input dir :
  basename (output_path input dir)
  = (splitext (basename input)).1 ++ lit ".pdf".
Proof.
  unfold output_path. apply basename_join.
  rewrite elem_of_app. intros [H|H].
  - by apply (stem_no_slash (basename input) (basename_no_slash input)).
  - by apply lit_pdf_no_slash.
Qed.

Lemma output_path_nonempty input dir : output_path input dir ≠ [].
Proof.
  intros H. pose proof (basename_output_path input dir) as Hb.
  rewrite H in Hb. apply (f_equal length) in Hb.
  rewrite length_app in Hb.
  change (length (basename [])) with 0%nat in Hb.
  change (length (lit ".pdf")) with 4%nat in Hb. lia.
Qed.

(** *** Lower case *)






Lemma classify_nil host : classify host [] = Unsupported.
Proof. reflexivity. Qed.



(** *** The last component of a resolved path *)

Lemma split_on_nonempty c s : split_on c s ≠ [].
Proof.
  destruct s as [|x s]; cbn; [done|].
  destruct (split_on c s); [done|]. by destruct (N.eqb x c).
Qed.

Lemma split_on_notin c s : c ∉ s → split_on c s = [s].
Proof.
  induction s as [|x s IH]; intros Hc; cbn; [done|].
  apply not_elem_of_cons in Hc as [Hx Hs]. rewrite IH by done.
  destruct (N.eqb_spec x c); [congruence|done].
Qed.

Lemma split_on_snoc c a b :
  c ∉ b → split_on c (a ++ c :: b) = split_on c a ++ [b].
Proof.
  intros Hb. induction a as [|x a IH]; cbn.
  - by rewrite split_on_notin, N.eqb_refl.
  - rewrite IH. pose proof (split_on_nonempty c a) as Hne.
    destruct (split_on c a) as [|piece rest]; [done|]. cbn.
    by destruct (N.eqb x c).
Qed.

Lemma walk_snoc b : plain_name b → ∀ cs acc,
  last (walk acc (cs ++ [b])) = Some b.
Proof.
  intros (H1 & H2 & H3). induction cs as [|c cs IH]; intros acc; cbn.
  - rewrite !bool_decide_eq_false_2 by done. cbn. apply last_snoc.
  - repeat case_match; apply IH.
Qed.

Lemma resolve_last cwd p :
  plain_name (basename p) → last (resolve cwd p) = Some (basename p).
Proof.
  intros Hb. unfold resolve.
  destruct (last_occurrence ord_slash p) as [H|(a & b & -> & H)].
  - rewrite basename_notin in * by done.
    rewrite split_on_notin by done.
    case_match; apply (walk_snoc _ Hb []).
  - rewrite basename_app_slash in * by done.
    rewrite split_on_snoc by done.
    case_match; by apply walk_snoc.
Qed.

Lemma plain_name_suffix a (s : str) :
  (2 < length s)%nat → plain_name (a ++ s).
Proof.
  intros Hs. repeat split; intros H%(f_equal length);
    rewrite length_app in H;
    change (length (lit ".")) with 1%nat in H;
    change (length (lit "..")) with 2%nat in H;
    cbn [length] in H; lia.
Qed.

Lemma output_path_not_temp cwd input dir :
  resolve cwd (output_path input dir)
  ≠ resolve cwd (input ++ lit ".temp.jpg").
Proof.
  intros H%(f_equal last).
  rewrite !resolve_last in H.
  - rewrite basename_output_path, basename_app_r in H
      by (apply (bool_decide_unpack _); vm_compute; exact I).
    injection H as H. apply (f_equal last) in H.
    change (lit ".pdf") with (lit ".pd" ++ [102%N]) in H.
    change (lit ".temp.jpg") with (lit ".temp.jp" ++ [103%N]) in H.
    rewrite !app_assoc, !last_snoc in H. discriminate H.
  - rewrite basename_app_r by (apply (bool_decide_unpack _); vm_compute; exact I).
    apply plain_name_suffix. vm_compute. lia.
  - rewrite basename_output_path. apply plain_name_suffix. vm_compute. lia.
Qed.
(* ================================================================== *)
(** ** Facts about what the console can encode *)

Lemma encodable_app a b : encodable (a ++ b) = encodable a && encodable b.
Proof. apply forallb_app. Qed.

Lemma encodable_cons c s :
  encodable (c :: s) = negb (is_surrogate c) && encodable s.
Proof. reflexivity. Qed.

Lemma encodable_Forall s :
  encodable s = true ↔ Forall (λ c, is_surrogate c = false) s.
Proof.
  induction s as [|c s IH]; [by split; [constructor|]|].
  rewrite encodable_cons, andb_true_iff, negb_true_iff, IH, Forall_cons.
  done.
Qed.

Lemma encodable_ascii s : forallb is_ascii s = true → encodable s = true.
Proof.
  induction s as [|c s IH]; [done|]. cbn. intros [Hc Hs]%andb_prop.
  rewrite encodable_cons, IH by done.
  unfold is_ascii, is_surrogate in *. apply N.ltb_lt in Hc.
  destruct (N.leb_spec 55296 c); [lia|done].
Qed.

Lemma encodable_lit (s : string) : encodable (lit s) = true.
Proof.
  unfold lit. induction s as [|a s IH]; [done|].
  cbn [list_ascii_of_string List.map]. rewrite encodable_cons, IH.
  pose proof (N_ascii_bounded a).
  unfold is_surrogate. destruct (N.leb_spec 55296 (N_of_ascii a)); [lia|done].
Qed.

Lemma encodable_of_Z n : encodable (of_Z n) = true.
Proof. apply encodable_lit. Qed.

Lemma encodable_of_nat n : encodable (of_nat n) = true.
Proof. apply encodable_lit. Qed.

Lemma encodable_take n s : encodable s = true → encodable (take n s) = true.
Proof. rewrite !encodable_Forall. apply Forall_take. Qed.

Lemma encodable_drop n s : encodable s = true → encodable (drop n s) = true.
Proof. rewrite !encodable_Forall. apply Forall_drop. Qed.

Lemma encodable_app_true a b :
  encodable a = true → encodable b = true → encodable (a ++ b) = true.
Proof. intros Ha Hb. by rewrite encodable_app, Ha, Hb. Qed.

Lemma encodable_basename p : encodable p = true → encodable (basename p) = true.
Proof. apply encodable_drop. Qed.

Lemma splitext_scan_cases fuel p : ∀ i d r,
  splitext_scan fuel p i d = Some r → r = (upto d p, from d p).
Proof.
  induction fuel as [|fuel IH]; intros i d r; cbn; [done|].
  destruct (i <? d); [|done].
  destruct (negb _); [by intros [= <-]|]. apply IH.
Qed.

Lemma splitext_cases p :
  splitext p = (p, []) ∨ ∃ d, splitext p = (upto d p, from d p).
Proof.
  unfold splitext. destruct (_ >? _); [|by left].
  destruct (splitext_scan _ _ _ _) as [r|] eqn:Hscan; [|by left].
  apply splitext_scan_cases in Hscan as ->. right. by eexists.
Qed.

Lemma encodable_splitext p :
  encodable p = true →
  encodable (splitext p).1 = true ∧ encodable (splitext p).2 = true.
Proof.
  intros Hp. destruct (splitext_cases p) as [->|[d ->]]; cbn.
  - done.
  - split; [by apply encodable_take|by apply encodable_drop].
Qed.

Lemma encodable_join a b :
  encodable a = true → encodable b = true → encodable (join a b) = true.
Proof.
  intros Ha Hb. unfold join. repeat case_match; [done|..];
    rewrite ?encodable_app, ?Ha, ?Hb; done.
Qed.

Lemma encodable_output_path input dir :
  encodable input = true → encodable dir = true →
  encodable (output_path input dir) = true.
Proof.
  intros Hi Hd. unfold output_path. apply encodable_join; [done|].
  apply encodable_app_true; [|apply encodable_lit].
  by apply encodable_splitext, encodable_basename.
Qed.

Lemma encodable_converting_line input dir :
  encodable input = true → encodable dir = true →
  encodable (converting_line input dir) = true.
Proof.
  intros Hi Hd. unfold converting_line.
  repeat apply encodable_app_true; try apply encodable_lit.
  - by apply encodable_basename.
  - by apply encodable_output_path.
Qed.

(** A line the dispatcher can print shows a base name that can be
    printed. *)
Lemma converting_line_basename input dir :
  encodable (converting_line input dir) = true →
  encodable (basename input) = true.
Proof.
  unfold converting_line. rewrite !encodable_app.
  intros H. repeat (apply andb_prop in H as [? H]). done.
Qed.

Lemma encodable_success_line n : encodable (success_line n) = encodable n.
Proof.
  unfold success_line. rewrite !encodable_app, encodable_lit. reflexivity.
Qed.

Lemma encodable_failure_line n : encodable (failure_line n) = encodable n.
Proof.
  unfold failure_line. rewrite !encodable_app, encodable_lit. reflexivity.
Qed.

Lemma encodable_render d :
  Forall (λ c, encodable c = true) d → encodable (render d) = true.
Proof.
  unfold render. destruct d as [|c d]; [done|]. generalize (c :: d).
  clear. intros l Hl. induction Hl as [|x l Hx Hl IH]; [done|].
  cbn [List.map concat]. rewrite encodable_app, IH, encodable_cons, Hx. done.
Qed.

(** *** Lower case *)

Lemma encodable_lower_at u whole i c :
  is_surrogate c = false → encodable (lower_at u whole i c) = true.
Proof.
  intros Hc. unfold lower_at. rewrite Hc.
  assert (encodable [c] = true) as Hself
    by (by rewrite encodable_cons, Hc).
  destruct (is_ascii c) eqn:Ha.
  { apply encodable_ascii. cbn. rewrite andb_true_r.
    unfold lower_char, is_ascii in *. apply N.ltb_lt in Ha.
    apply N.ltb_lt. case_match; [|done].
    apply andb_prop in H as [_ ?%N.leb_le]. lia. }
  destruct (c =? kelvin_sign)%N; [done|].
  destruct (forallb is_ascii _); [done|]. cbn [orb].
  by destruct (encodable (lowercase u whole i)) eqn:Hr.
Qed.

Lemma encodable_lower_from u whole s : ∀ i,
  encodable s = true → encodable (lower_from u whole i s) = true.
Proof.
  induction s as [|c s IH]; intros i; [done|].
  rewrite encodable_cons. intros [Hc%negb_true_iff Hs]%andb_prop.
  cbn [lower_from]. by rewrite encodable_app, encodable_lower_at, IH.
Qed.

Lemma encodable_lower u s : encodable s = true → encodable (lower u s) = true.
Proof. apply encodable_lower_from. Qed.

(** *** [repr] and the text of exceptions *)

Lemma encodable_hex_pad width : ∀ n, encodable (hex_pad width n) = true.
Proof.
  induction width as [|width IH]; intros n; [done|].
  cbn [hex_pad]. rewrite encodable_app, IH. cbn [andb].
  apply encodable_ascii. cbn. rewrite andb_true_r.
  pose proof (N.mod_lt n 16). unfold hex_digit, is_ascii.
  apply N.ltb_lt. case_match; lia.
Qed.

Lemma encodable_escape_code c : encodable (escape_code c) = true.
Proof.
  unfold escape_code.
  repeat case_match; rewrite encodable_app, encodable_hex_pad; done.
Qed.

Lemma encodable_repr_char u quote c :
  is_surrogate quote = false → encodable (repr_char u quote c) = true.
Proof.
  intros Hq. unfold repr_char.
  destruct (_ || _) eqn:H1.
  { apply orb_prop in H1 as [->%N.eqb_eq| ->%N.eqb_eq].
    - by rewrite !encodable_cons, Hq.
    - done. }
  repeat case_match;
    first
      [ reflexivity
      | apply encodable_escape_code
      | match goal with
        | H : (c <? 127)%N = true |- _ =>
            apply encodable_ascii; cbn; unfold is_ascii;
            apply N.ltb_lt in H; rewrite andb_true_r; apply N.ltb_lt; lia
        end
      | match goal with
        | H : negb (is_surrogate c) && _ = true |- _ =>
            apply andb_prop in H as [H _]; by rewrite encodable_cons, H
        end ].
Qed.

Lemma encodable_flat_map (f : N → str) s :
  (∀ c, encodable (f c) = true) → encodable (flat_map f s) = true.
Proof.
  intros Hf. induction s as [|c s IH]; [done|].
  cbn [flat_map]. by rewrite encodable_app, Hf, IH.
Qed.

Lemma encodable_repr u s : encodable (repr u s) = true.
Proof.
  unfold repr. cbv zeta.
  destruct (existsb (N.eqb ord_quote) s && negb (existsb (N.eqb ord_dquote) s)).
  - rewrite !encodable_app, encodable_flat_map; [done|].
    intros c. by apply encodable_repr_char.
  - rewrite !encodable_app, encodable_flat_map; [done|].
    intros c. by apply encodable_repr_char.
Qed.

Lemma encodable_join_with sep parts :
  encodable sep = true → Forall (λ p, encodable p = true) parts →
  encodable (join_with sep parts) = true.
Proof.
  intros Hsep Hp. induction Hp as [|p ps Hp Hps IH]; [done|].
  cbn [join_with]. destruct ps as [|q ps]; [done|].
  by rewrite !encodable_app, Hp, Hsep, IH.
Qed.

Lemma encodable_repr_list u l : encodable (repr_list u l) = true.
Proof.
  unfold repr_list. rewrite !encodable_app, !encodable_lit.
  rewrite encodable_join_with; [done|apply encodable_lit|].
  induction l as [|x l IH]; constructor; [apply encodable_repr|done].
Qed.

(** The text of an exception can always be printed. *)
Lemma exn_str_encodable host e : encodable (exn_str host e) = true.
Proof.
  unfold exn_str. destruct e as [code cmd err|errno fs|f|m|obj start stop].
  - repeat case_match;
      rewrite !encodable_app, ?encodable_lit, ?encodable_repr_list,
        ?encodable_of_Z; done.
  - rewrite !encodable_app, !encodable_lit, encodable_of_Z, chars_encodable.
    destruct fs as [|f [|g fs]]; [done|..];
      rewrite !encodable_app, ?encodable_lit, !encodable_repr; done.
  - by rewrite encodable_app, encodable_lit, encodable_repr.
  - apply chars_encodable.
  - case_match;
      rewrite !encodable_app, ?encodable_lit, ?encodable_of_nat,
        ?encodable_escape_code; done.
Qed.

Lemma stderr_text_encodable e : encodable (stderr_text e) = true.
Proof. destruct e; try done. apply chars_encodable. Qed.

(** *** [print] *)

Lemma print_ok s w : encodable s = true → print s w = (Ok tt, put_line s w).
Proof. intros H. unfold print. by rewrite H. Qed.

Lemma print_raise s w :
  encodable s = false → print s w = (Raise (encode_error s), w).
Proof. intros H. unfold print. by rewrite H. Qed.

Lemma print_run s w :
  print s w
  = if encodable s then (Ok tt, put_line s w) else (Raise (encode_error s), w).
Proof. unfold print. by destruct (encodable s). Qed.

Lemma print_lit s w : print (lit s) w = (Ok tt, put_line (lit s) w).
Proof. apply print_ok, encodable_lit. Qed.

Lemma print_message s e host w :
  print (lit s ++ exn_str host e) w
  = (Ok tt, put_line (lit s ++ exn_str host e) w).
Proof.
  apply print_ok. by rewrite encodable_app, encodable_lit, exn_str_encodable.
Qed.
(* ================================================================== *)
(** ** Facts about the handlers: no converter raises *)

Lemma convert_txt_to_pdf_run host i o w :
  convert_txt_to_pdf host i o w =
  match convert_txt_body host i o w with
  | (Ok b, w') => (Ok b, w')
  | (Raise e, w') =>
      (Ok false,
       put_line (lit "Error converting text file: " ++ exn_str host e) w')
  end.
Proof.
  unfold convert_txt_to_pdf, try_except.
  destruct (convert_txt_body host i o w) as [[b|e] w']; [done|].
  cbn [select_handler isinstance]. munfold. by rewrite print_message.
Qed.

Lemma convert_image_to_pdf_run host i o w :
  convert_image_to_pdf host i o w =
  match convert_image_body host i o w with
  | (Ok b, w') => (Ok b, w')
  | (Raise e, w') =>
      (Ok false, put_line (lit "Error converting image: " ++ exn_str host e) w')
  end.
Proof.
  unfold convert_image_to_pdf, try_except.
  destruct (convert_image_body host i o w) as [[b|e] w']; [done|].
  cbn [select_handler isinstance]. munfold. by rewrite print_message.
Qed.

Lemma print_stderr e w :
  print (lit "STDERR: " ++ stderr_text e) w
  = (Ok tt, put_line (lit "STDERR: " ++ stderr_text e) w).
Proof.
  apply print_ok. by rewrite encodable_app, encodable_lit, stderr_text_encodable.
Qed.

Lemma convert_docx_to_pdf_run host i o w :
  convert_docx_to_pdf host i o w =
  match convert_docx_body host i o w with
  | (Ok b, w') => (Ok b, w')
  | (Raise e, w') =>
      (Ok false,
       if isinstance e CalledProcessErrorC
       then put_line (lit "STDERR: " ++ stderr_text e)
              (put_line (lit "Error running AbiWord: " ++ exn_str host e) w')
       else put_line (lit "Error converting DOCX: " ++ exn_str host e) w')
  end.
Proof.
  unfold convert_docx_to_pdf, try_except.
  destruct (convert_docx_body host i o w) as [[b|e] w']; [done|].
  destruct e; cbn [select_handler isinstance]; munfold;
    rewrite print_message, ?print_stderr; done.
Qed.

Lemma convert_txt_to_pdf_total host i o w :
  ∃ b w', convert_txt_to_pdf host i o w = (Ok b, w').
Proof.
  rewrite convert_txt_to_pdf_run.
  destruct (convert_txt_body host i o w) as [[b|e] w']; eauto.
Qed.

Lemma convert_image_to_pdf_total host i o w :
  ∃ b w', convert_image_to_pdf host i o w = (Ok b, w').
Proof.
  rewrite convert_image_to_pdf_run.
  destruct (convert_image_body host i o w) as [[b|e] w']; eauto.
Qed.

Lemma convert_docx_to_pdf_total host i o w :
  ∃ b w', convert_docx_to_pdf host i o w = (Ok b, w').
Proof.
  rewrite convert_docx_to_pdf_run.
  destruct (convert_docx_body host i o w) as [[b|e] w']; eauto.
Qed.

(** *** The dispatcher *)

Lemma bind_Ok {A B} (c : M A) (f : A → M B) w a w1 :
  c w = (Ok a, w1) → (c ≫= f) w = f a w1.
Proof. intros H. unfold mbind, M_bind, bind. by rewrite H. Qed.

Lemma bind_Raise {A B} (c : M A) (f : A → M B) w e w1 :
  c w = (Raise e, w1) → (c ≫= f) w = (Raise e, w1).
Proof. intros H. unfold mbind, M_bind, bind. by rewrite H. Qed.

Lemma ret_bind {A B} (a : A) (f : A → M B) w : (mret a ≫= f) w = f a w.
Proof. reflexivity. Qed.

Lemma bind_inv_Ok {A B} (c : M A) (f : A → M B) w b w' :
  (c ≫= f) w = (Ok b, w') →
  ∃ a w1, c w = (Ok a, w1) ∧ f a w1 = (Ok b, w').
Proof.
  unfold mbind, M_bind, bind.
  destruct (c w) as [[a|e] w1]; intros; simplify_eq; eauto.
Qed.

Lemma bind_inv_Raise {A B} (c : M A) (f : A → M B) w e w' :
  (c ≫= f) w = (Raise e, w') →
  c w = (Raise e, w') ∨ ∃ a w1, c w = (Ok a, w1) ∧ f a w1 = (Raise e, w').
Proof.
  unfold mbind, M_bind, bind.
  destruct (c w) as [[a|e'] w1]; intros; simplify_eq; eauto.
Qed.

(** The dispatcher, once its first line is printed. *)
Lemma convert_to_pdf_printed host i d w :
  encodable (converting_line i d) = true →
  let w0 := put_line (converting_line i d) w in
  let o := output_path i d in
  match classify host (splitext (basename i)).2 with
  | Text =>
      ∃ b w1, convert_txt_to_pdf host i o w0 = (Ok b, w1) ∧
              convert_to_pdf host i d w = (Ok (if b then Some o else None), w1)
  | Image =>
      ∃ b w1, convert_image_to_pdf host i o w0 = (Ok b, w1) ∧
              convert_to_pdf host i d w = (Ok (if b then Some o else None), w1)
  | Document =>
      ∃ b w1, convert_docx_to_pdf host i o w0 = (Ok b, w1) ∧
              convert_to_pdf host i d w = (Ok (if b then Some o else None), w1)
  | Unsupported =>
      convert_to_pdf host i d w
      = (Ok None,
         put_line (lit "Unsupported file format: "
                   ++ lower (unicode host) (splitext (basename i)).2) w0)
  end.
Proof.
  intros Hline w0 o.
  unfold convert_to_pdf, classify.
  change (join d ((splitext (basename i)).1 ++ lit ".pdf")) with o.
  change (lit "Converting " ++ basename i ++ lit " to " ++ o ++ lit "...")
    with (converting_line i d).
  change text_extensions with [lit ".txt"; lit ".md"; lit ".csv"].
  change image_extensions
    with [lit ".jpg"; lit ".jpeg"; lit ".png"; lit ".bmp"; lit ".gif"].
  change document_extensions with [lit ".docx"; lit ".doc"].
  rewrite (bind_Ok _ _ _ _ _ (print_ok _ w Hline)). fold w0.
  destruct (elem _ [lit ".txt"; lit ".md"; lit ".csv"]).
  { destruct (convert_txt_to_pdf_total host i o w0) as (b & w1 & Hb).
    exists b, w1. rewrite (bind_Ok _ _ _ _ _ Hb). by destruct b. }
  destruct (elem _ [lit ".jpg"; lit ".jpeg"; lit ".png"; lit ".bmp"; lit ".gif"]).
  { destruct (convert_image_to_pdf_total host i o w0) as (b & w1 & Hb).
    exists b, w1. rewrite (bind_Ok _ _ _ _ _ Hb). by destruct b. }
  destruct (elem _ [lit ".docx"; lit ".doc"]).
  { destruct (convert_docx_to_pdf_total host i o w0) as (b & w1 & Hb).
    exists b, w1. rewrite (bind_Ok _ _ _ _ _ Hb). by destruct b. }
  assert (encodable (lit "Unsupported file format: "
                     ++ lower (unicode host) (splitext (basename i)).2) = true)
    as Hu.
  { rewrite encodable_app, encodable_lit. cbn [andb].
    by apply encodable_lower, encodable_splitext,
      (converting_line_basename i d). }
  by rewrite (bind_Ok _ _ _ _ _ (print_ok _ w0 Hu)).
Qed.

(** The dispatcher when its first line cannot be printed: nothing is
    converted. *)
Lemma convert_to_pdf_unprinted host i d w :
  encodable (converting_line i d) = false →
  convert_to_pdf host i d w = (Raise (encode_error (converting_line i d)), w).
Proof.
  intros Hline. unfold convert_to_pdf.
  change (lit "Converting " ++ basename i ++ lit " to "
          ++ join d ((splitext (basename i)).1 ++ lit ".pdf") ++ lit "...")
    with (converting_line i d).
  by rewrite (bind_Raise _ _ _ _ _ (print_raise _ w Hline)).
Qed.

Lemma convert_to_pdf_result host i d w :
  encodable (converting_line i d) = true →
  ∃ o w1, convert_to_pdf host i d w = (Ok o, w1) ∧
          (o = None ∨ o = Some (output_path i d)).
Proof.
  intros Hline. pose proof (convert_to_pdf_printed host i d w Hline) as H.
  cbv zeta in H.
  destruct (classify host _); [destruct H as (b & w1 & _ & ->)..|rewrite H];
    try destruct b; eauto.
Qed.

Lemma convert_to_pdf_Ok host i d w o w1 :
  convert_to_pdf host i d w = (Ok o, w1) →
  encodable (converting_line i d) = true ∧
  (o = None ∨ o = Some (output_path i d)).
Proof.
  intros H. destruct (encodable (converting_line i d)) eqn:Hline.
  - split; [done|].
    destruct (convert_to_pdf_result host i d w Hline) as (o' & w' & H' & Ho).
    rewrite H in H'. by simplify_eq.
  - rewrite convert_to_pdf_unprinted in H by done. discriminate H.
Qed.

(** An exception leaves the dispatcher only from its first [print]. *)
Lemma convert_to_pdf_Raise host i d w e w1 :
  convert_to_pdf host i d w = (Raise e, w1) →
  encodable (converting_line i d) = false ∧
  e = encode_error (converting_line i d) ∧ w1 = w.
Proof.
  intros H. destruct (encodable (converting_line i d)) eqn:Hline.
  - destruct (convert_to_pdf_result host i d w Hline) as (o' & w' & H' & _).
    rewrite H in H'. discriminate H'.
  - rewrite convert_to_pdf_unprinted in H by done. by simplify_eq.
Qed.

(** *** One entry of the listing *)

Lemma truthy_result i d (o : option str) :
  o = None ∨ o = Some (output_path i d) →
  truthy o = bool_decide (is_Some o).
Proof.
  intros [->| ->]; [done|]. cbn.
  pose proof (output_path_nonempty i d).
  by destruct (output_path i d).
Qed.

Lemma process_entry_skip host cur out acc name w :
  skipped host cur name w = true ∨ supported host name = false →
  process_entry host cur out acc name w = (Ok acc, w).
Proof.
  unfold skipped, supported, process_entry, os_path_isdir. munfold. cbn.
  intros [->| ->]; [done|]. by destruct (_ || _).
Qed.

Lemma process_entry_run host cur out acc name w :
  skipped host cur name w = false →
  supported host name = true →
  process_entry host cur out acc name w
  = match convert_to_pdf host (join cur name) out w with
    | (Ok o, w1) =>
        let on_disk :=
          match o with
          | Some p => bool_decide (is_Some (lookup_path w1 p))
          | None => false
          end in
        let line := if on_disk then success_line name else failure_line name in
        if encodable name
        then (Ok (if on_disk then (acc.1 ++ [name], acc.2)
                  else (acc.1, acc.2 ++ [name])),
              put_line line w1)
        else (Raise (encode_error line), w1)
    | (Raise e, w1) => (Raise e, w1)
    end.
Proof.
  intros Hskip Hsup.
  unfold skipped, supported in *.
  unfold process_entry.
  change ([10003%N] ++ lit " Successfully converted: " ++ name)
    with (success_line name).
  change ([10007%N] ++ lit " Failed to convert: " ++ name)
    with (failure_line name).
  unfold os_path_isdir, os_path_exists. munfold. cbn.
  rewrite Hskip, Hsup.
  destruct (convert_to_pdf host (join cur name) out w) as [[o|e] w1] eqn:Hrun;
    [|done].
  apply convert_to_pdf_Ok in Hrun as [_ Ho].
  rewrite (truthy_result _ _ _ Ho).
  destruct Ho as [->| ->]; cbn.
  - rewrite print_run, encodable_failure_line. by destruct (encodable name).
  - destruct (bool_decide (is_Some _)).
    + rewrite print_run, encodable_success_line. by destruct (encodable name).
    + rewrite print_run, encodable_failure_line. by destruct (encodable name).
Qed.

(** An entry that can be printed, in directories that can be printed,
    never stops the loop. *)
Lemma process_entry_total host cur out acc name w :
  encodable cur = true → encodable out = true → encodable name = true →
  ∃ acc' w', process_entry host cur out acc name w = (Ok acc', w').
Proof.
  intros Hcur Hout Hname.
  destruct (skipped host cur name w) eqn:Hskip.
  { rewrite process_entry_skip by auto. eauto. }
  destruct (supported host name) eqn:Hsup.
  2: { rewrite process_entry_skip by auto. eauto. }
  rewrite process_entry_run by done.
  destruct (convert_to_pdf_result host (join cur name) out w)
    as (o & w1 & -> & _).
  { apply encodable_converting_line; [by apply encodable_join|done]. }
  cbv zeta. rewrite Hname. eauto.
Qed.

Lemma for_each_process_entry_total host cur out names : ∀ acc w,
  encodable cur = true → encodable out = true →
  Forall (λ n, encodable n = true) names →
  ∃ acc' w', for_each (process_entry host cur out) acc names w = (Ok acc', w').
Proof.
  induction names as [|n ns IH]; intros acc w Hcur Hout Hnames; cbn;
    [by eexists _, _|].
  apply Forall_cons in Hnames as [Hn Hns].
  destruct (process_entry_total host cur out acc n w Hcur Hout Hn)
    as (acc1 & w1 & H1).
  rewrite (bind_Ok _ _ _ _ _ H1). by apply IH.
Qed.

(* ================================================================== *)
(** ** Facts about the primitives and the text converter *)

(** *** Primitives that succeeded *)

Lemma read_file_Ok host p c w w' :
  read_file host p w = (Ok c, w') →
  lookup_path w p = Some (File c) ∧ w' = w.
Proof.
  unfold read_file. munfold. cbn. intros H.
  repeat case_match; simplify_eq; done.
Qed.

Lemma write_file_Ok host p c w w' :
  write_file host p c w = (Ok tt, w') →
  p ≠ [] ∧ w' = set_fs (<[resolve (cwd w) p := File c]> (fs w)) w.
Proof.
  unfold write_file. munfold. cbn. intros H.
  assert (p ≠ []) as Hp.
  { intros ->. unfold lookup_path in H. cbn in H.
    destruct (fault host (OpWrite []) w); simplify_eq. }
  repeat case_match; simplify_eq; done.
Qed.

Lemma os_remove_Ok host p w w' :
  os_remove host p w = (Ok tt, w') →
  w' = set_fs (delete (resolve (cwd w) p) (fs w)) w.
Proof.
  unfold os_remove. munfold. cbn. intros H.
  repeat case_match; simplify_eq; done.
Qed.

Lemma lookup_path_written (w : World) p n :
  p ≠ [] →
  lookup_path (set_fs (<[resolve (cwd w) p := n]> (fs w)) w) p = Some n.
Proof.
  intros Hp. unfold lookup_path. rewrite bool_decide_eq_false_2 by done.
  cbn. apply lookup_insert_eq.
Qed.

(** *** The text converter *)

Lemma fold_draw_ops (f : str → pdf_op) lines : ∀ pdf,
  ops (fold_left (λ pdf line, draw (f line) pdf) lines pdf)
  = ops pdf ++ List.map f lines.
Proof.
  induction lines as [|l ls IH]; intros pdf; cbn.
  - by rewrite app_nil_r.
  - rewrite IH. cbn. by rewrite <- app_assoc.
Qed.

Lemma cell_texts_text_pdf lines :
  cell_texts (text_pdf lines) = List.map (λ line, strip (clean line)) lines.
Proof.
  unfold cell_texts, text_pdf. rewrite fold_draw_ops. cbn.
  induction lines as [|l ls IH]; cbn; [done|]. by rewrite IH.
Qed.

Lemma scale_factor_mm : scale_factor (lit "mm") = Some (720 # 254)%Q.
Proof. reflexivity. Qed.

Lemma scale_factor_pt : scale_factor (lit "pt") = Some (1 # 1)%Q.
Proof. reflexivity. Qed.

Lemma convert_txt_to_pdf_Ok host input output w w' :
  convert_txt_to_pdf host input output w = (Ok true, w') →
  ∃ c, lookup_path w input = Some (File c) ∧ output ≠ [] ∧
       w' = set_fs (<[resolve (cwd w) output
                      := File (PdfData (text_pdf (readlines
                                (universal_newlines (file_text host c)))))]>
                      (fs w)) w.
Proof.
  rewrite convert_txt_to_pdf_run.
  unfold convert_txt_body, FPDF_new, open_lines, FPDF_output.
  rewrite scale_factor_mm. munfold. cbn.
  destruct (read_file host input w) as [[c|e] w1] eqn:Hr;
    [|intros ?; simplify_eq].
  apply read_file_Ok in Hr as [Hc ->].
  match goal with
  | |- context [write_file host output ?d w] =>
      destruct (write_file host output d w) as [[[]|e] w2] eqn:Hw;
        [|intros ?; simplify_eq]
  end.
  apply write_file_Ok in Hw as [Ho ->].
  intros [= <-]. by exists c.
Qed.

Lemma lstrip_spec s :
  ∃ pre, s = pre ++ lstrip s ∧ Forall (λ c, isspace c = true) pre ∧
         ∀ c, head (lstrip s) = Some c → isspace c = false.
Proof.
  induction s as [|x s (pre & Hs & Hpre & Hhd)]; cbn [lstrip].
  - exists []. repeat split; [constructor|done].
  - destruct (isspace x) eqn:Hx.
    + exists (x :: pre). cbn. rewrite <- Hs. repeat split; [by constructor|done].
    + exists []. repeat split; [constructor|]. cbn. by intros ? [= <-].
Qed.

Lemma strip_spec s :
  ∃ pre post,
    s = pre ++ strip s ++ post ∧
    Forall (λ c, isspace c = true) pre ∧
    Forall (λ c, isspace c = true) post ∧
    no_edge_space (strip s).
Proof.
  destruct (lstrip_spec s) as (pre & Hs & Hpre & Hhd).
  destruct (lstrip_spec (rev (lstrip s))) as (post & Hr & Hpost & Hlast).
  exists pre, (rev post). unfold strip, rstrip.
  assert (lstrip s = rev (lstrip (rev (lstrip s))) ++ rev post) as Ht.
  { rewrite <- rev_app_distr, <- Hr. by rewrite rev_involutive. }
  split; [by rewrite <- Ht|].
  split; [done|]. split; [by apply Forall_rev|].
  split.
  - intros c Hc. apply Hhd. rewrite Ht.
    destruct (rev (lstrip (rev (lstrip s)))); [done|]. done.
  - intros c Hc. apply Hlast. rewrite <- Hc.
    destruct (lstrip (rev (lstrip s))); cbn [rev head]; [done|].
    by rewrite last_snoc.
Qed.


(* ================================================================== *)
(** ** Facts about the image converter *)

Lemma Image_open_Ok host p img w w' :
  Image_open host p w = (Ok img, w') →
  lookup_path w p = Some (File (ImageData img)) ∧ w' = w.
Proof.
  unfold Image_open. munfold. cbn.
  destruct (read_file host p w) as [[c|e] w1] eqn:Hr; [|intros; simplify_eq].
  apply read_file_Ok in Hr as [Hc ->].
  destruct c; intros; simplify_eq. done.
Qed.

Lemma to_rgb_Ok host img img' w w' :
  (if negb (bool_decide (mode img = lit "RGB"))
   then Image_convert host img (lit "RGB")
   else mret img) w = (Ok img', w') →
  img' = as_rgb img ∧ w' = w.
Proof.
  unfold as_rgb, Image_convert. munfold.
  destruct (bool_decide (mode img = lit "RGB")); cbn.
  - intros; simplify_eq. done.
  - destruct (fault host OpImageConvert w); intros; simplify_eq. done.
Qed.

Lemma FPDF_image_Ok host pdf name x y wd ht pdf' w w' :
  FPDF_image host pdf name x y wd ht w = (Ok pdf', w') →
  ∃ img, lookup_path w name = Some (File (ImageData img)) ∧
         pdf' = draw (PlaceImage img x y wd ht) pdf ∧ w' = w.
Proof.
  unfold FPDF_image. munfold. cbn.
  destruct (read_file host name w) as [[c|e] w1] eqn:Hr; [|intros; simplify_eq].
  apply read_file_Ok in Hr as [Hc ->].
  destruct c; intros; simplify_eq. eauto.
Qed.

Lemma jpeg_refuses_as_rgb img : jpeg_refuses (as_rgb img) = jpeg_refuses img.
Proof. unfold as_rgb. by case_bool_decide. Qed.

Lemma Image_save_Ok host img p w w' :
  Image_save host img p w = (Ok tt, w') →
  p ≠ [] ∧ jpeg_refuses img = None ∧
  w' = set_fs (<[resolve (cwd w) p := File (ImageData img)]> (fs w)) w.
Proof.
  unfold Image_save.
  unfold mbind at 1, M_bind at 1, bind at 1, get_world. cbv beta iota zeta.
  destruct (write_file host p (OtherData []) w) as [[[]|e] w1] eqn:Hw;
    [|rewrite (bind_Raise _ _ _ _ _ Hw); intros; simplify_eq].
  rewrite (bind_Ok _ _ _ _ _ Hw).
  apply write_file_Ok in Hw as [Hp ->].
  destruct (jpeg_refuses img).
  { munfold. destruct (negb _); cbn; intros; simplify_eq. }
  unfold modify. intros [= <-]. split; [done|]. split; [done|].
  unfold set_fs. cbn. by rewrite insert_insert_eq.
Qed.

Lemma convert_image_to_pdf_Ok host input output w w' :
  convert_image_to_pdf host input output w = (Ok true, w') →
  ∃ img,
    lookup_path w input = Some (File (ImageData img)) ∧ output ≠ [] ∧
    jpeg_refuses img = None ∧
    let temp := resolve (cwd w) (input ++ lit ".temp.jpg") in
    w' = set_fs
           (delete temp
              (<[resolve (cwd w) output := File (PdfData (image_pdf img))]>
                 (<[temp := File (ImageData (as_rgb img))]> (fs w)))) w.
Proof.
  rewrite convert_image_to_pdf_run.
  destruct (convert_image_body host input output w) as [[b|e] w2] eqn:Hbody;
    [|intros; simplify_eq].
  intros [= -> ->]. revert Hbody.
  unfold convert_image_body. 
  unfold mbind at 1, M_bind at 1, bind at 1.
  destruct (Image_open host input w) as [[img|e] w1] eqn:Hopen;
    [|intros; simplify_eq].
  apply Image_open_Ok in Hopen as [Himg ->].
  destruct (size img) as [wd ht] eqn:Hsize.
  unfold mbind at 1, M_bind at 1, bind at 1.
  match goal with
  | |- context [(if negb ?b then ?x else ?y) w] =>
      destruct ((if negb b then x else y) w) as [[img'|e] w1] eqn:Hrgb;
      [|intros; simplify_eq]
  end.
  apply to_rgb_Ok in Hrgb as [-> ->].
  unfold FPDF_new, FPDF_output. rewrite scale_factor_pt.
  unfold mbind at 1, M_bind at 1, bind at 1.
  match goal with
  | |- context [Image_save host ?i ?p w] =>
      destruct (Image_save host i p w) as [[[]|e] w1] eqn:Hsave;
      [|intros; simplify_eq]
  end.
  apply Image_save_Ok in Hsave as (Htemp & Hjpeg & ->).
  rewrite jpeg_refuses_as_rgb in Hjpeg.
  munfold. cbn.
  match goal with
  | |- context [FPDF_image host ?pdf ?p ?x ?y ?a ?b ?w1] =>
      destruct (FPDF_image host pdf p x y a b w1) as [[pdf'|e] w2] eqn:Hplace;
      [|intros; simplify_eq]
  end.
  apply FPDF_image_Ok in Hplace as (img2 & Himg2 & -> & ->).
  rewrite lookup_path_written in Himg2 by done. injection Himg2 as <-.
  match goal with
  | |- context [write_file host ?p ?c ?w1] =>
      destruct (write_file host p c w1) as [[[]|e] w2] eqn:Hout;
      [|intros; simplify_eq]
  end.
  apply write_file_Ok in Hout as [Hout ->].
  match goal with
  | |- context [os_remove host ?p ?w1] =>
      destruct (os_remove host p w1) as [[[]|e] w2] eqn:Hrm;
      [|intros; simplify_eq]
  end.
  apply os_remove_Ok in Hrm as ->.
  intros [= <-]. exists img. split; [done|]. split; [done|]. split; [done|].
  cbn. unfold image_pdf. by rewrite Hsize.
Qed.

(** *** Primitives that succeed *)

Lemma lookup_path_nonempty (w : World) p :
  p ≠ [] → lookup_path w p = fs w !! resolve (cwd w) p.
Proof. intros Hp. unfold lookup_path. by rewrite bool_decide_eq_false_2. Qed.

Lemma read_file_run host p c w :
  fault host (OpRead p) w = None →
  lookup_path w p = Some (File c) →
  read_file host p w = (Ok c, w).
Proof.
  intros Hf Hc. unfold read_file. munfold. cbn. by rewrite Hf, Hc.
Qed.

Lemma write_file_run host p c w :
  fault host (OpWrite p) w = None →
  writable w p →
  write_file host p c w
  = (Ok tt, set_fs (<[resolve (cwd w) p := File c]> (fs w)) w).
Proof.
  intros Hf [Hp [[c' Hc]|[Hnone Hpar]]]; unfold write_file; munfold; cbn;
    rewrite Hf; cbn.
  - by rewrite Hc.
  - rewrite Hnone, Hpar. by rewrite bool_decide_eq_false_2.
Qed.

Lemma os_remove_run host p c w :
  fault host (OpRemove p) w = None →
  lookup_path w p = Some (File c) →
  os_remove host p w = (Ok tt, set_fs (delete (resolve (cwd w) p) (fs w)) w).
Proof.
  intros Hf Hc. unfold os_remove. munfold. cbn. by rewrite Hf, Hc.
Qed.

Lemma writable_after_write (w : World) t c p :
  writable w t → writable w p →
  writable (set_fs (<[resolve (cwd w) t := File c]> (fs w)) w) p.
Proof.
  intros [Ht Htw] [Hp Hpw]. split; [done|].
  rewrite lookup_path_nonempty by done. cbn.
  rewrite lookup_path_nonempty in Hpw by done.
  rewrite lookup_path_nonempty in Htw by done.
  destruct (decide (resolve (cwd w) t = resolve (cwd w) p)) as [Heq|Hne].
  { left. exists c. rewrite Heq. apply lookup_insert_eq. }
  rewrite lookup_insert_ne by done.
  destruct Hpw as [Hfile|[Hnone Hpar]]; [by left|].
  right. split; [done|].
  destruct (decide (resolve (cwd w) t = parent (resolve (cwd w) p)))
    as [Heq|Hne'].
  - rewrite <- Heq in Hpar. rewrite Hpar in Htw.
    destruct Htw as [[? ?]|[? _]]; simplify_eq.
  - by rewrite lookup_insert_ne.
Qed.

Lemma Image_open_run host p img w :
  fault host (OpRead p) w = None →
  lookup_path w p = Some (File (ImageData img)) →
  Image_open host p w = (Ok img, w).
Proof.
  intros Hf Hc. unfold Image_open.
  by rewrite (bind_Ok _ _ _ _ _ (read_file_run _ _ _ _ Hf Hc)).
Qed.

Lemma to_rgb_run host img w :
  fault host OpImageConvert w = None →
  (if negb (bool_decide (mode img = lit "RGB"))
   then Image_convert host img (lit "RGB")
   else mret img) w = (Ok (as_rgb img), w).
Proof.
  intros Hf. unfold as_rgb, Image_convert. munfold.
  destruct (bool_decide _); cbn; [done|]. by rewrite Hf.
Qed.

Lemma FPDF_image_run host pdf p x y wd ht img w :
  fault host (OpRead p) w = None →
  lookup_path w p = Some (File (ImageData img)) →
  FPDF_image host pdf p x y wd ht w
  = (Ok (draw (PlaceImage img x y wd ht) pdf), w).
Proof.
  intros Hf Hc. unfold FPDF_image.
  by rewrite (bind_Ok _ _ _ _ _ (read_file_run _ _ _ _ Hf Hc)).
Qed.

Lemma Image_save_run host img p w :
  fault host (OpWrite p) w = None →
  writable w p →
  jpeg_refuses img = None →
  Image_save host img p w
  = (Ok tt, set_fs (<[resolve (cwd w) p := File (ImageData img)]> (fs w)) w).
Proof.
  intros Hf Hp Hjpeg. unfold Image_save.
  unfold mbind at 1, M_bind at 1, bind at 1, get_world. cbv beta iota zeta.
  rewrite (bind_Ok _ _ _ _ _ (write_file_run _ _ _ _ Hf Hp)), Hjpeg.
  unfold modify, set_fs. cbn. by rewrite insert_insert_eq.
Qed.

Lemma convert_image_to_pdf_succeeds host input output w img :
  fault_free host →
  lookup_path w input = Some (File (ImageData img)) →
  jpeg_refuses img = None →
  writable w (input ++ lit ".temp.jpg") →
  writable w output →
  ∃ w', convert_image_to_pdf host input output w = (Ok true, w').
Proof.
  intros Hfree Himg Hjpeg Htemp Hout.
  rewrite <- jpeg_refuses_as_rgb in Hjpeg.
  rewrite convert_image_to_pdf_run.
  unfold convert_image_body.
  rewrite (bind_Ok _ _ _ _ _ (Image_open_run _ _ _ _ (Hfree _ _) Himg)).
  destruct (size img) as [wd ht].
  rewrite (bind_Ok _ _ _ _ _ (to_rgb_run _ _ _ (Hfree _ _))).
  unfold FPDF_output.
  rewrite (bind_Ok _ _ _ _ _ (Image_save_run _ _ _ _ (Hfree _ _) Htemp Hjpeg)).
  set (w1 := set_fs _ w).
  assert (lookup_path w1 (input ++ lit ".temp.jpg")
          = Some (File (ImageData (as_rgb img)))) as Hrd.
  { apply lookup_path_written. by destruct Htemp. }
  assert (writable w1 output) as Hout1 by by apply writable_after_write.
  unfold FPDF_new. rewrite scale_factor_pt.
  rewrite ret_bind.
  rewrite (bind_Ok _ _ _ _ _ (FPDF_image_run _ _ _ _ _ _ _ _ _ (Hfree _ _) Hrd)).
  rewrite (bind_Ok _ _ _ _ _ (write_file_run _ _ _ _ (Hfree _ _) Hout1)).
  set (w2 := set_fs _ w1).
  assert (∃ c, lookup_path w2 (input ++ lit ".temp.jpg") = Some (File c))
    as [c Hc].
  { unfold w2. rewrite lookup_path_nonempty by by destruct Htemp. cbn.
    destruct (decide (resolve (cwd w) output
                      = resolve (cwd w) (input ++ lit ".temp.jpg")))
      as [->|Hne].
    - rewrite lookup_insert_eq. eauto.
    - rewrite lookup_insert_ne by done. rewrite lookup_insert_eq. eauto. }
  rewrite (bind_Ok _ _ _ _ _ (os_remove_run _ _ _ _ (Hfree _ _) Hc)).
  eauto.
Qed.


Lemma convert_txt_to_pdf_succeeds host input output w c :
  fault_free host →
  lookup_path w input = Some (File c) →
  writable w output →
  convert_txt_to_pdf host input output w
  = (Ok true,
     set_fs (<[resolve (cwd w) output
               := File (PdfData (text_pdf (readlines (universal_newlines
                                                        (file_text host c)))))]>
               (fs w)) w).
Proof.
  intros Hfree Hc Hout.
  rewrite convert_txt_to_pdf_run.
  unfold convert_txt_body, FPDF_new, open_lines, FPDF_output.
  rewrite scale_factor_mm, ret_bind.
  rewrite (bind_Ok _ _ _ _ _
             (bind_Ok _ _ _ _ _ (read_file_run _ _ _ _ (Hfree _ _) Hc))).
  by rewrite (bind_Ok _ _ _ _ _ (write_file_run _ _ _ _ (Hfree _ _) Hout)).
Qed.
(* ================================================================== *)
(** ** The document converter *)

(** Up to the start of AbiWord: the working directory is read and
    changed to the output directory. *)
Lemma convert_docx_body_launch host input output w :
  fault host OpGetcwd w = None →
  fs w !! cwd w = Some Dir →
  fault host (OpChdir (docx_output_dir output)) w = None →
  lookup_path w (docx_output_dir output) = Some Dir →
  convert_docx_body host input output w
  = (subprocess_run host (abiword_argv input) true
     ≫= λ _, os_chdir host (render (cwd w));;
              found ← os_path_exists (docx_expected_pdf input output);
              when (found && negb (bool_decide
                                     (docx_expected_pdf input output = output)))
                   (os_rename host (docx_expected_pdf input output) output);;
              mret true)
      (docx_launch_world output w).
Proof.
  intros Hf1 Hcwd Hf2 Hdir.
  unfold convert_docx_body, os_getcwd, os_chdir. munfold. cbn.
  rewrite Hf1. cbn. rewrite Hcwd. cbn. rewrite Hf2. cbn. by rewrite Hdir.
Qed.

Lemma convert_docx_nonzero_exit host input output w code out err m :
  fault host OpGetcwd w = None →
  fs w !! cwd w = Some Dir →
  fault host (OpChdir (docx_output_dir output)) w = None →
  lookup_path w (docx_output_dir output) = Some Dir →
  spawn host (abiword_argv input) (docx_launch_world output w)
  = (Exited code out err, m) →
  code ≠ 0 →
  convert_docx_to_pdf host input output w
  = (Ok false,
     put_line (lit "STDERR: " ++ chars err)
       (put_line (lit "Error running AbiWord: "
                  ++ exn_str host
                       (CalledProcessError code (abiword_argv input) err))
                 (set_fs m (docx_launch_world output w)))).
Proof.
  intros Hf1 Hcwd Hf2 Hdir Hsp Hcode.
  rewrite convert_docx_to_pdf_run, convert_docx_body_launch by done.
  unfold subprocess_run. munfold. cbn. rewrite Hsp. cbn.
  by destruct (Z.eqb_spec code 0).
Qed.





(** C2 fails on the program. Once AbiWord has been started from the
    output directory and exits non-zero, the working directory after
    the call is the output directory: the [os.chdir(current_dir)] after
    [subprocess.run] is skipped by the exception. So
    [/work/report.docx], converted from the working directory [/work],
    leaves the process in [/work/pdf_output] when AbiWord exits 1, and
    also when AbiWord cannot be started; the converter returns [false]
    both times. *)
Theorem docx_failure_leaves_cwd_changed :
  (∀ host input output w code out err m,
     fault host OpGetcwd w = None →
     fs w !! cwd w = Some Dir →
     fault host (OpChdir (docx_output_dir output)) w = None →
     lookup_path w (docx_output_dir output) = Some Dir →
     spawn host (abiword_argv input) (docx_launch_world output w)
     = (Exited code out err, m) →
     code ≠ 0 →
     cwd (convert_docx_to_pdf host input output w).2
     = resolve (cwd w) (docx_output_dir output)) ∧
  cwd world = [lit "work"] ∧
  (convert_docx_to_pdf host_rejecting report_docx report_pdf world).1
  = Ok false ∧
  cwd (convert_docx_to_pdf host_rejecting report_docx report_pdf world).2
  = [lit "work"; lit "pdf_output"] ∧
  (convert_docx_to_pdf host_missing report_docx report_pdf world).1
  = Ok false ∧
  cwd (convert_docx_to_pdf host_missing report_docx report_pdf world).2
  = [lit "work"; lit "pdf_output"].
Proof.
  split.
  { intros host input output w code out err m Hf1 Hcwd Hf2 Hdir Hsp Hcode.
    by rewrite (convert_docx_nonzero_exit _ _ _ _ _ _ _ _
                  Hf1 Hcwd Hf2 Hdir Hsp Hcode). }
  repeat split; vm_compute; reflexivity.
Qed.
(* ================================================================== *)
(** ** The text converter *)

(** C3, as the program has it. On a machine without faults the text
    converter succeeds on every readable file when the output path can
    be written. Whenever it succeeds, the PDF at the output path has
    one cell per line of the input, and each cell is the line with the
    code points at or above 128 removed and then the white space at
    both ends (the line terminator included) stripped: the cleaned line
    is [pre ++ cell ++ post] with [pre] and [post] white space only and
    no white space at either end of [cell]. *)
Theorem text_cells_are_cleaned_and_stripped host input output w :
  (fault_free host →
   ∀ c, lookup_path w input = Some (File c) →
        writable w output →
        ∃ w', convert_txt_to_pdf host input output w = (Ok true, w')) ∧
  (∀ w',
     convert_txt_to_pdf host input output w = (Ok true, w') →
     ∃ c doc,
       lookup_path w input = Some (File c) ∧
       lookup_path w' output = Some (File (PdfData doc)) ∧
       let lines := readlines (universal_newlines (file_text host c)) in
       cell_texts doc = List.map (λ line, strip (clean line)) lines ∧
       Forall2 (λ line cell,
                  ∃ pre post,
                    clean line = pre ++ cell ++ post ∧
                    Forall (λ ch, isspace ch = true) pre ∧
                    Forall (λ ch, isspace ch = true) post ∧
                    no_edge_space cell)
               lines (cell_texts doc)).
Proof.
  split.
  { intros Hfree c Hc Hout. eexists.
    by apply convert_txt_to_pdf_succeeds. }
  intros w' (c & Hc & Ho & ->)%convert_txt_to_pdf_Ok.
  eexists c, _. split; [done|]. split; [by apply lookup_path_written|].
  cbn zeta. rewrite cell_texts_text_pdf. split; [done|].
  apply Forall2_fmap_r, Forall_Forall2_diag, Forall_forall.
  intros line _. apply strip_spec.
Qed.

(** The run of the text converter on [a.txt]. *)
Lemma convert_a_txt :
  (convert_txt_to_pdf host_working a_txt a_pdf world).1 = Ok true ∧
  lookup_path world a_txt = Some (File (TextData a_txt_text)) ∧
  readlines (universal_newlines a_txt_text)
  = [lit "  caf" ++ [233%N] ++ lit " au lait" ++ [10%N]; lit "fin"].
Proof. repeat split; vm_compute; reflexivity. Qed.

Lemma convert_a_txt_run :
  convert_txt_to_pdf host_working a_txt a_pdf world
  = (Ok true, (convert_txt_to_pdf host_working a_txt a_pdf world).2).
Proof.
  destruct convert_a_txt as [H _].
  destruct (convert_txt_to_pdf host_working a_txt a_pdf world) as [r w'].
  cbn in *. by rewrite H.
Qed.

(** C3, witness: [a.txt] holds two blanks, [café au lait], a line
    feed, and [fin]. *)
Lemma text_cells_witness :
  ∃ doc,
    lookup_path (convert_txt_to_pdf host_working a_txt a_pdf world).2 a_pdf
    = Some (File (PdfData doc)) ∧
    cell_texts doc = [lit "caf au lait"; lit "fin"].
Proof.
  destruct (proj2 (text_cells_are_cleaned_and_stripped host_working a_txt
                     a_pdf world)
              _ convert_a_txt_run)
    as (c & doc & Hc & Hdoc & Hcells & _).
  exists doc. split; [exact Hdoc|].
  rewrite Hcells.
  destruct convert_a_txt as (_ & Hfile & Hlines).
  rewrite Hfile in Hc. injection Hc as <-.
  cbn [file_text]. rewrite Hlines. vm_compute. reflexivity.
Defined.

(** C3, counterexample: the two leading blanks of the first line of
    [a.txt] are ASCII, and they are not in the PDF. *)
Lemma text_written_counterexample :
  ¬ text_written_as_stated host_working a_txt a_pdf world.
Proof.
  intros H.
  destruct convert_a_txt as (_ & Hfile & Hlines).
  destruct (H a_txt_text _ Hfile convert_a_txt_run) as (doc & Hdoc & Hcells).
  destruct (proj2 (text_cells_are_cleaned_and_stripped host_working a_txt
                     a_pdf world)
              _ convert_a_txt_run)
    as (c & doc' & Hc & Hdoc' & Hcells' & _).
  rewrite Hdoc in Hdoc'. injection Hdoc' as <-.
  rewrite Hfile in Hc. injection Hc as <-.
  rewrite Hcells in Hcells'. cbn [file_text] in Hcells'.
  unfold stated_pdf_lines in Hcells'. rewrite Hlines in Hcells'.
  vm_compute in Hcells'. discriminate Hcells'.
Qed.
(* ================================================================== *)
(** ** The capability probe *)

(** C4, as the program has it. When [which] can be run, the capability
    probe does not raise and returns nothing: on exit status 0 it
    prints that AbiWord is installed, on any other status it prints the
    warning and the install command; the run goes on in either case. *)
Theorem probe_reports_when_lookup_runs host w code out err m :
  spawn host [lit "which"; lit "abiword"] w = (Exited code out err, m) →
  check_dependencies host w
  = (Ok tt,
     if code =? 0
     then put_line (lit "AbiWord is installed.") (set_fs m w)
     else put_line (lit "Install with: sudo apt-get install abiword")
            (put_line (lit "WARNING: AbiWord is not installed. DOCX conversion will not work.")
                      (set_fs m w))).
Proof.
  intros Hsp.
  unfold check_dependencies, try_except, subprocess_run. munfold. cbn.
  rewrite Hsp. cbn. destruct (code =? 0); cbn.
  - by rewrite print_lit.
  - by rewrite print_lit, print_lit.
Qed.

(** C4, witness: AbiWord is not on the path. *)
Lemma probe_reports_witness :
  check_dependencies host_missing world
  = (Ok tt,
     mkWorld [lit "work"] tree
       [lit "WARNING: AbiWord is not installed. DOCX conversion will not work.";
        lit "Install with: sudo apt-get install abiword"]).
Proof.
  exact (probe_reports_when_lookup_runs host_missing world 1 [] no_text tree
           eq_refl).
Defined.

(** C4, counterexample: on a host without [which], [subprocess.run]
    raises [FileNotFoundError], which [except CalledProcessError] does
    not catch: the probe raises. *)
Lemma probe_counterexample : ¬ probe_never_raises host_no_which world.
Proof.
  intros [w' H].
  assert ((check_dependencies host_no_which world).1
          = Raise (OSError ENOENT [lit "which"])) as Hrun
    by (vm_compute; reflexivity).
  rewrite H in Hrun. discriminate Hrun.
Qed.
(* ================================================================== *)
(** ** The dispatcher *)

(** *** The tables of extensions *)

Lemma tables_disjoint :
  Forall (λ x, (x ∉ image_extensions) ∧ (x ∉ document_extensions))
         text_extensions ∧
  Forall (λ x, x ∉ document_extensions) image_extensions.
Proof. split; apply (bool_decide_unpack _); vm_compute; exact I. Qed.

Lemma classify_tables host e :
  (classify host e = Text ↔ lower (unicode host) e ∈ text_extensions) ∧
  (classify host e = Image ↔ lower (unicode host) e ∈ image_extensions) ∧
  (classify host e = Document
   ↔ lower (unicode host) e ∈ document_extensions) ∧
  (classify host e = Unsupported
   ↔ lower (unicode host) e ∉ supported_extensions).
Proof.
  destruct tables_disjoint as [Ht Hi].
  rewrite Forall_forall in Ht. rewrite Forall_forall in Hi.
  unfold classify, elem. cbv zeta.
  change [lit ".txt"; lit ".md"; lit ".csv"] with text_extensions.
  change [lit ".jpg"; lit ".jpeg"; lit ".png"; lit ".bmp"; lit ".gif"]
    with image_extensions.
  change [lit ".docx"; lit ".doc"] with document_extensions.
  change supported_extensions
    with (text_extensions ++ image_extensions ++ document_extensions).
  rewrite !elem_of_app.
  generalize (lower (unicode host) e). intros x.
  repeat case_bool_decide; repeat split; try done; try tauto;
    intros; exfalso;
    try match goal with
        | H : x ∈ text_extensions |- _ => destruct (Ht x H); tauto
        end;
    try match goal with
        | H : x ∈ image_extensions |- _ => pose proof (Hi x H); tauto
        end;
    tauto.
Qed.





(* ================================================================== *)
(** ** The batch driver *)




(** *** The loop of the batch driver *)







(** *** The listing has no name twice *)

Lemma strip_prefix_Some d : ∀ key rest,
  strip_prefix d key = Some rest → key = d ++ rest.
Proof.
  induction d as [|x d IH]; intros key rest; cbn.
  - by intros [= ->].
  - destruct key as [|y key]; [done|].
    case_bool_decide; [|done]. subst y. intros H. by rewrite (IH _ _ H).
Qed.

Lemma child_name_Some d key name :
  child_name d key = Some name → key = d ++ [name].
Proof.
  unfold child_name.
  destruct (strip_prefix d key) as [[|x [|y rest]]|] eqn:H; try done.
  intros [= ->]. by apply strip_prefix_Some.
Qed.

Lemma NoDup_omap_inj {A B} (f : A → option B) (l : list A) :
  (∀ x y z, f x = Some z → f y = Some z → x = y) →
  NoDup l → NoDup (omap f l).
Proof.
  intros Hinj Hl. induction Hl as [|x l Hx Hl IH]; cbn; [constructor|].
  destruct (f x) as [z|] eqn:Hfx; [|done].
  constructor; [|done].
  intros (y & Hy & Hfy)%list_elem_of_omap.
  by rewrite (Hinj _ _ _ Hfx Hfy) in Hx.
Qed.


(** *** [main] around the loop *)


Lemma os_getcwd_Ok host w d w' :
  os_getcwd host w = (Ok d, w') → d = render (cwd w) ∧ w' = w.
Proof.
  unfold os_getcwd. munfold. cbn. intros H.
  repeat case_match; simplify_eq; done.
Qed.







(* ================================================================== *)
(** ** Errors stay inside the converters *)



(* ================================================================== *)
(** ** The image converter *)






(* ================================================================== *)
(** ** Files that share a stem *)

Lemma convert_to_pdf_dispatch host f dir w p w' :
  convert_to_pdf host f dir w = (Ok (Some p), w') →
  p = output_path f dir ∧
  let w0 := put_line (converting_line f dir) w in
  match classify host (splitext (basename f)).2 with
  | Text => convert_txt_to_pdf host f (output_path f dir) w0 = (Ok true, w')
  | Image => convert_image_to_pdf host f (output_path f dir) w0 = (Ok true, w')
  | Document =>
      convert_docx_to_pdf host f (output_path f dir) w0 = (Ok true, w')
  | Unsupported => False
  end.
Proof.
  intros H. pose proof H as [Hline _]%convert_to_pdf_Ok.
  pose proof (convert_to_pdf_printed host f dir w Hline) as Hp.
  cbv zeta in *.
  destruct (classify host _);
    [destruct Hp as ([] & w1 & Hb & Hrun)..|];
    rewrite H in *; simplify_eq; done.
Qed.

Lemma os_chdir_Ok host p w w' :
  os_chdir host p w = (Ok tt, w') →
  lookup_path w p = Some Dir ∧ w' = set_cwd (resolve (cwd w) p) w.
Proof.
  unfold os_chdir. munfold. cbn. intros H.
  repeat case_match; simplify_eq; done.
Qed.

Lemma subprocess_run_Ok host argv r w w' :
  subprocess_run host argv true w = (Ok r, w') →
  ∃ out err m,
    spawn host argv w = (Exited 0 out err, m) ∧ w' = set_fs m w.
Proof.
  unfold subprocess_run. munfold. cbn.
  destruct (spawn host argv w) as [[code out err|e] m]; cbn; [|done].
  destruct (Z.eqb_spec code 0) as [->|]; cbn; [|done].
  intros [= <- <-]. eauto.
Qed.

(** The document converter, when it reports success: AbiWord was
    started in the output directory and exited with 0; the file tree
    is the one AbiWord left, unless its file had to be renamed; and
    nothing was printed. *)
Lemma convert_docx_to_pdf_Ok host input output w w' :
  convert_docx_to_pdf host input output w = (Ok true, w') →
  ∃ out err m,
    spawn host (abiword_argv input) (docx_launch_world output w)
    = (Exited 0 out err, m) ∧
    (fs w' = m ∨ docx_expected_pdf input output ≠ output) ∧
    stdout w' = stdout w.
Proof.
  rewrite convert_docx_to_pdf_run.
  destruct (convert_docx_body host input output w) as [[b|e] wb] eqn:Hbody;
    [|intros; simplify_eq].
  intros [= -> ->]. unfold convert_docx_body in Hbody.
  apply bind_inv_Ok in Hbody as (d & w1 & Hcwd & H).
  apply os_getcwd_Ok in Hcwd as [-> ->].
  apply bind_inv_Ok in H as ([] & w2 & Hcd & H).
  apply os_chdir_Ok in Hcd as [_ ->].
  apply bind_inv_Ok in H as (r & w3 & Hrun & H).
  apply subprocess_run_Ok in Hrun as (out & err & m & Hsp & ->).
  apply bind_inv_Ok in H as ([] & w4 & Hback & H).
  apply os_chdir_Ok in Hback as [_ ->].
  apply bind_inv_Ok in H as (found & w5 & Hex & H).
  injection Hex as <- <-.
  apply bind_inv_Ok in H as ([] & w6 & Hren & [= <-]).
  exists out, err, m. split; [done|].
  unfold when in Hren.
  destruct (_ && _) eqn:Hcond.
  - split.
    + right. apply andb_prop in Hcond as [_ Hne%negb_true_iff].
      by apply bool_decide_eq_false in Hne.
    + unfold os_rename in Hren. munfold. cbn in Hren.
      repeat case_match; simplify_eq; done.
  - injection Hren as <-. split; [by left|done].
Qed.

(** C10, as the program has it. Two input paths with the same stem
    get the same output path, and that is the path the dispatcher
    returns. A later successful text or image conversion leaves at
    that path the PDF built from its own input, whatever was there
    before. A later successful document conversion leaves the file
    tree as AbiWord left it (unless the converter had to rename
    AbiWord's file): when AbiWord exits with 0 and writes nothing, the
    earlier PDF is still there. In [/work], [a.txt] and then [a.jpg]
    are both recorded as succeeded and [a.pdf] first holds the text
    and then the image; [a.txt] and then [a.docx], with an AbiWord
    that writes nothing, are both recorded as succeeded too, and
    [a.pdf] holds the text throughout. *)
Theorem same_stem_overwrites host :
  (∀ f1 f2 dir,
     (splitext (basename f1)).1 = (splitext (basename f2)).1 →
     output_path f1 dir = output_path f2 dir) ∧
  (∀ f dir w p w',
     convert_to_pdf host f dir w = (Ok (Some p), w') →
     p = output_path f dir) ∧
  (∀ f dir w p w',
     classify host (splitext (basename f)).2 = Text →
     convert_to_pdf host f dir w = (Ok (Some p), w') →
     ∃ c, lookup_path w f = Some (File c) ∧
          lookup_path w' p
          = Some (File (PdfData (text_pdf (readlines (universal_newlines
                                                        (file_text host c))))))) ∧
  (∀ f dir w p w',
     classify host (splitext (basename f)).2 = Image →
     convert_to_pdf host f dir w = (Ok (Some p), w') →
     ∃ img, lookup_path w f = Some (File (ImageData img)) ∧
            lookup_path w' p = Some (File (PdfData (image_pdf img)))) ∧
  (∀ f dir w p w',
     classify host (splitext (basename f)).2 = Document →
     convert_to_pdf host f dir w = (Ok (Some p), w') →
     ∃ out err m,
       spawn host (abiword_argv f)
             (docx_launch_world p (put_line (converting_line f dir) w))
       = (Exited 0 out err, m) ∧
       (fs w' = m ∨ docx_expected_pdf f p ≠ p)) ∧
  (let step := process_entry host_working (lit "/work") out_dir in
   let w1 := (step ([], []) (lit "a.txt") world).2 in
   let w2 := (step ([lit "a.txt"], []) (lit "a.jpg") w1).2 in
   output_path (lit "/work/a.txt") out_dir = a_pdf ∧
   output_path (lit "/work/a.jpg") out_dir = a_pdf ∧
   lookup_path w1 a_pdf
   = Some (File (PdfData (text_pdf [lit "  caf" ++ [233%N] ++ lit " au lait"
                                    ++ [10%N]; lit "fin"]))) ∧
   lookup_path w2 a_pdf = Some (File (PdfData (image_pdf photo))) ∧
   (for_each step ([], []) [lit "a.txt"; lit "a.jpg"] world).1
   = Ok ([lit "a.txt"; lit "a.jpg"], []) ∧
   report ([lit "a.txt"; lit "a.jpg"], []) = mkReport 2 2 0) ∧
  (let step := process_entry host_silent (lit "/work") out_dir in
   let w1 := (step ([], []) (lit "a.txt") world_pair).2 in
   let w2 := (step ([lit "a.txt"], []) (lit "a.docx") w1).2 in
   output_path (lit "/work/a.docx") out_dir = a_pdf ∧
   lookup_path w1 a_pdf
   = Some (File (PdfData (text_pdf [lit "  caf" ++ [233%N] ++ lit " au lait"
                                    ++ [10%N]; lit "fin"]))) ∧
   lookup_path w2 a_pdf = lookup_path w1 a_pdf ∧
   fs w2 = fs w1 ∧
   (for_each step ([], []) [lit "a.txt"; lit "a.docx"] world_pair).1
   = Ok ([lit "a.txt"; lit "a.docx"], [])).
Proof.
  split.
  { intros f1 f2 dir H. unfold output_path. by rewrite H. }
  split.
  { intros f dir w p w' H. by apply convert_to_pdf_dispatch in H as [-> _]. }
  split.
  { intros f dir w p w' Hk H.
    apply convert_to_pdf_dispatch in H as [-> H]. cbn zeta in H.
    rewrite Hk in H.
    apply convert_txt_to_pdf_Ok in H as (c & Hc & Ho & ->).
    exists c. split; [done|]. by apply lookup_path_written. }
  split.
  { intros f dir w p w' Hk H.
    apply convert_to_pdf_dispatch in H as [-> H]. cbn zeta in H.
    rewrite Hk in H.
    apply convert_image_to_pdf_Ok in H as (img & Himg & Ho & _ & ->).
    exists img. split; [done|].
    rewrite lookup_path_nonempty by done. cbn.
    rewrite lookup_delete_ne
      by (intros E; by apply (output_path_not_temp (cwd w) f dir)).
    apply lookup_insert_eq. }
  split.
  { intros f dir w p w' Hk H.
    apply convert_to_pdf_dispatch in H as [-> H]. cbn zeta in H.
    rewrite Hk in H.
    apply convert_docx_to_pdf_Ok in H as (out & err & m & Hsp & Hfs & _).
    by exists out, err, m. }
  split; repeat split; vm_compute; reflexivity.
Qed.

(** C10, counterexample: [a.txt] and then [a.docx] with an AbiWord
    that exits with 0 and writes nothing. The loop records both as
    succeeded, and the PDF at their output path after the second
    conversion is the one the first conversion left. *)
Lemma same_stem_counterexample :
  ¬ later_conversion_overwrites host_silent (lit "/work") out_dir
      (lit "a.txt") (lit "a.docx") world_pair.
Proof.
  intros H. apply H; vm_compute; reflexivity.
Qed.
(* ================================================================== *)
(** ** A whole run *)

(** [main] in [/work] with a working AbiWord: the three supported files
    are recorded as succeeded, the directory [notes.txt], the script
    and [archive.zip] are passed over, and [pdf_output] holds two
    files, since [a.jpg] and [a.txt] share [a.pdf]. *)
Example main_in_work_directory :
  (main host_working world).1
  = Ok ([lit "report.docx"; lit "a.jpg"; lit "a.txt"], []) ∧
  children [lit "work"; lit "pdf_output"] (fs (main host_working world).2)
  = [lit "report.pdf"; lit "a.pdf"] ∧
  cwd (main host_working world).2 = [lit "work"].
Proof. repeat split; vm_compute; reflexivity. Qed.

(** The same run with an AbiWord that rejects the document: the
    document is recorded as failed, the batch goes on, and the process
    ends in [/work/pdf_output]. *)
Example main_with_rejecting_abiword :
  (main host_rejecting world).1
  = Ok ([lit "a.jpg"; lit "a.txt"], [lit "report.docx"]) ∧
  cwd (main host_rejecting world).2 = [lit "work"; lit "pdf_output"].
Proof. repeat split; vm_compute; reflexivity. Qed.

(* ================================================================== *)
(** ** What the converters leave alone *)

(** *** Statements that keep an observation *)

Lemma keeps_ret {X A} (f : World → X) (a : A) : keeps f (mret a : M A).
Proof. by intros w. Qed.

Lemma keeps_raise {X A} (f : World → X) e : keeps f (raise e : M A).
Proof. by intros w. Qed.

Lemma keeps_bind {X A B} (f : World → X) (c : M A) (k : A → M B) :
  keeps f c → (∀ a, keeps f (k a)) → keeps f (c ≫= k).
Proof.
  intros Hc Hk w. unfold mbind, M_bind, bind.
  specialize (Hc w). destruct (c w) as [[a|e] w1]; cbn in *; [|done].
  by rewrite Hk.
Qed.

Lemma keeps_check_fault {X} (f : World → X) host op :
  keeps f (check_fault host op).
Proof. intros w. unfold check_fault. by destruct (fault host op w). Qed.

Lemma keeps_get_world {X} (f : World → X) : keeps f get_world.
Proof. by intros w. Qed.

Lemma keeps_modify {X} (f : World → X) g :
  (∀ w, f (g w) = f w) → keeps f (modify g).
Proof. intros H w. apply H. Qed.

Lemma keeps_when {X} (f : World → X) b c : keeps f c → keeps f (when b c).
Proof. intros H. destruct b; [done|]. apply keeps_ret. Qed.

Lemma keeps_try_except {X A} (f : World → X) (body : M A) hs :
  keeps f body →
  Forall (λ ch, ∀ e, keeps f (ch.2 e)) hs →
  keeps f (try_except body hs).
Proof.
  intros Hb Hhs w. unfold try_except.
  specialize (Hb w). destruct (body w) as [[a|e] w1]; cbn in *; [done|].
  assert (∀ h, select_handler hs e = Some h → keeps f h) as Hsel.
  { clear -Hhs. induction Hhs as [|[c h] hs Hh _ IH]; cbn; [done|].
    destruct (isinstance e c); [|done]. intros ? [= <-]. apply Hh. }
  destruct (select_handler hs e) as [h|]; [|done].
  by rewrite (Hsel h eq_refl w1).
Qed.

Ltac keeps_step :=
  first
    [ apply keeps_ret | apply keeps_raise | apply keeps_check_fault
    | apply keeps_get_world
    | apply keeps_modify; intros []; reflexivity
    | apply keeps_when
    | apply keeps_bind; [|intros ?] ].

Ltac keeps_auto := repeat (keeps_step || case_match).

(** The primitives other than [os.chdir] keep the working directory. *)
Lemma keeps_cwd_read_file host p : keeps cwd (read_file host p).
Proof. unfold read_file. keeps_auto. Qed.

Lemma keeps_cwd_write_file host p c : keeps cwd (write_file host p c).
Proof. unfold write_file. keeps_auto. Qed.

Lemma keeps_cwd_os_remove host p : keeps cwd (os_remove host p).
Proof. unfold os_remove. keeps_auto. Qed.

Lemma keeps_cwd_os_rename host p q : keeps cwd (os_rename host p q).
Proof. unfold os_rename. keeps_auto. Qed.

Lemma keeps_cwd_subprocess_run host argv check :
  keeps cwd (subprocess_run host argv check).
Proof. unfold subprocess_run. keeps_auto. Qed.

Lemma keeps_cwd_print s : keeps cwd (print s).
Proof. unfold print. keeps_auto. Qed.

(** The primitives other than [print] keep the console. *)
Lemma keeps_stdout_read_file host p : keeps stdout (read_file host p).
Proof. unfold read_file. keeps_auto. Qed.

Lemma keeps_stdout_write_file host p c : keeps stdout (write_file host p c).
Proof. unfold write_file. keeps_auto. Qed.

Lemma keeps_stdout_os_remove host p : keeps stdout (os_remove host p).
Proof. unfold os_remove. keeps_auto. Qed.

Lemma keeps_stdout_os_rename host p q : keeps stdout (os_rename host p q).
Proof. unfold os_rename. keeps_auto. Qed.

Lemma keeps_stdout_subprocess_run host argv check :
  keeps stdout (subprocess_run host argv check).
Proof. unfold subprocess_run. keeps_auto. Qed.

Lemma keeps_stdout_os_chdir host p : keeps stdout (os_chdir host p).
Proof. unfold os_chdir. keeps_auto. Qed.

Lemma keeps_stdout_os_getcwd host : keeps stdout (os_getcwd host).
Proof. unfold os_getcwd. keeps_auto. Qed.

Lemma keeps_stdout_os_path_exists p : keeps stdout (os_path_exists p).
Proof. unfold os_path_exists. keeps_auto. Qed.
Lemma keeps_cwd_convert_txt_body host i o :
  keeps cwd (convert_txt_body host i o).
Proof.
  unfold convert_txt_body, FPDF_new, open_lines, FPDF_output.
  rewrite scale_factor_mm.
  repeat first [ apply keeps_cwd_read_file | apply keeps_cwd_write_file
               | keeps_step ].
Qed.

Lemma keeps_stdout_convert_txt_body host i o :
  keeps stdout (convert_txt_body host i o).
Proof.
  unfold convert_txt_body, FPDF_new, open_lines, FPDF_output.
  rewrite scale_factor_mm.
  repeat first [ apply keeps_stdout_read_file | apply keeps_stdout_write_file
               | keeps_step ].
Qed.

Lemma keeps_cwd_convert_image_body host i o :
  keeps cwd (convert_image_body host i o).
Proof.
  unfold convert_image_body, Image_open, Image_convert, Image_save, FPDF_new,
    FPDF_image, FPDF_output.
  rewrite scale_factor_pt.
  repeat first [ apply keeps_cwd_read_file | apply keeps_cwd_write_file
               | apply keeps_cwd_os_remove | keeps_step | case_match ].
Qed.

Lemma keeps_stdout_convert_image_body host i o :
  keeps stdout (convert_image_body host i o).
Proof.
  unfold convert_image_body, Image_open, Image_convert, Image_save, FPDF_new,
    FPDF_image, FPDF_output.
  rewrite scale_factor_pt.
  repeat first [ apply keeps_stdout_read_file | apply keeps_stdout_write_file
               | apply keeps_stdout_os_remove | keeps_step | case_match ].
Qed.

Lemma keeps_stdout_convert_docx_body host i o :
  keeps stdout (convert_docx_body host i o).
Proof.
  unfold convert_docx_body.
  repeat first [ apply keeps_stdout_os_getcwd | apply keeps_stdout_os_chdir
               | apply keeps_stdout_subprocess_run
               | apply keeps_stdout_os_path_exists
               | apply keeps_when; apply keeps_stdout_os_rename
               | keeps_step ].
Qed.

Lemma keeps_cwd_convert_txt_to_pdf host i o :
  keeps cwd (convert_txt_to_pdf host i o).
Proof.
  apply keeps_try_except; [apply keeps_cwd_convert_txt_body|].
  repeat constructor; intros e; cbn;
    repeat first [ apply keeps_cwd_print | keeps_step ].
Qed.

Lemma keeps_cwd_convert_image_to_pdf host i o :
  keeps cwd (convert_image_to_pdf host i o).
Proof.
  apply keeps_try_except; [apply keeps_cwd_convert_image_body|].
  repeat constructor; intros e; cbn;
    repeat first [ apply keeps_cwd_print | keeps_step ].
Qed.

Lemma keeps_cwd_check_dependencies host : keeps cwd (check_dependencies host).
Proof.
  apply keeps_try_except.
  - repeat first [ apply keeps_cwd_subprocess_run | apply keeps_cwd_print
                 | keeps_step ].
  - repeat constructor; intros e; cbn;
      repeat first [ apply keeps_cwd_print | keeps_step ].
Qed.

(** *** The [try] blocks return [True] or raise *)

Lemma bind_returns {A B} (P : B → Prop) (c : M A) (k : A → M B) :
  (∀ a w b, (k a w).1 = Ok b → P b) →
  ∀ w b, ((c ≫= k) w).1 = Ok b → P b.
Proof.
  intros Hk w b. unfold mbind, M_bind, bind.
  destruct (c w) as [[a|e] w1]; [apply Hk|done].
Qed.

Ltac returns_true :=
  repeat first
    [ apply bind_returns; intros ?
    | progress (intros ? ?; cbn; intros [= <-]; reflexivity)
    | case_match ].

Lemma convert_txt_body_true host i o w b :
  (convert_txt_body host i o w).1 = Ok b → b = true.
Proof.
  revert w b. unfold convert_txt_body, FPDF_new. rewrite scale_factor_mm.
  returns_true.
Qed.

Lemma convert_image_body_true host i o w b :
  (convert_image_body host i o w).1 = Ok b → b = true.
Proof.
  revert w b. unfold convert_image_body, FPDF_new. rewrite scale_factor_pt.
  returns_true.
Qed.

Lemma convert_docx_body_true host i o w b :
  (convert_docx_body host i o w).1 = Ok b → b = true.
Proof.
  revert w b. unfold convert_docx_body. returns_true.
Qed.
(** *** Statements confined to some paths *)

Lemma touches_only_refl c0 paths w : touches_only c0 paths w w.
Proof. by intros H. Qed.

Lemma touches_only_trans c0 paths w1 w2 w3 :
  touches_only c0 paths w1 w2 → touches_only c0 paths w2 w3 →
  touches_only c0 paths w1 w3.
Proof.
  intros H12 H23 Hc. destruct (H12 Hc) as [Hc2 Hfs2].
  destruct (H23 Hc2) as [Hc3 Hfs3]. split; [done|].
  intros key Hk. by rewrite Hfs3, Hfs2.
Qed.

Lemma confined_ret {A} c0 paths (a : A) : confined c0 paths (mret a : M A).
Proof. intros w. apply touches_only_refl. Qed.

Lemma confined_raise {A} c0 paths e : confined c0 paths (raise e : M A).
Proof. intros w. apply touches_only_refl. Qed.

Lemma confined_bind {A B} c0 paths (c : M A) (k : A → M B) :
  confined c0 paths c → (∀ a, confined c0 paths (k a)) →
  confined c0 paths (c ≫= k).
Proof.
  intros Hc Hk w. unfold mbind, M_bind, bind.
  specialize (Hc w). destruct (c w) as [[a|e] w1]; cbn in *; [|done].
  eapply touches_only_trans; [done|apply Hk].
Qed.

Lemma confined_check_fault c0 paths host op :
  confined c0 paths (check_fault host op).
Proof.
  intros w. unfold check_fault.
  destruct (fault host op w); apply touches_only_refl.
Qed.

Lemma confined_print c0 paths s : confined c0 paths (print s).
Proof. intros w Hc. unfold print. by destruct (encodable s). Qed.

Lemma confined_read_file c0 paths host p :
  confined c0 paths (read_file host p).
Proof.
  intros w. unfold read_file. munfold. cbn.
  repeat case_match; simplify_eq; apply touches_only_refl.
Qed.

Lemma touches_only_insert c0 paths (w : World) p n :
  p ∈ paths →
  touches_only c0 paths w (set_fs (<[resolve (cwd w) p := n]> (fs w)) w).
Proof.
  intros Hp Hc. split; [done|]. intros key Hk. cbn.
  apply lookup_insert_ne. intros <-. apply Hk.
  rewrite Hc. apply list_elem_of_In, in_map, list_elem_of_In, Hp.
Qed.

Lemma touches_only_delete c0 paths (w : World) p :
  p ∈ paths →
  touches_only c0 paths w (set_fs (delete (resolve (cwd w) p) (fs w)) w).
Proof.
  intros Hp Hc. split; [done|]. intros key Hk. cbn.
  apply lookup_delete_ne. intros <-. apply Hk.
  rewrite Hc. apply list_elem_of_In, in_map, list_elem_of_In, Hp.
Qed.

Lemma confined_write_file c0 paths host p c :
  p ∈ paths → confined c0 paths (write_file host p c).
Proof.
  intros Hp w. unfold write_file. munfold. cbn.
  repeat case_match; simplify_eq;
    first [apply touches_only_refl | by apply touches_only_insert].
Qed.

Lemma confined_os_remove c0 paths host p :
  p ∈ paths → confined c0 paths (os_remove host p).
Proof.
  intros Hp w. unfold os_remove. munfold. cbn.
  repeat case_match; simplify_eq;
    first [apply touches_only_refl | by apply touches_only_delete].
Qed.

Lemma confined_Image_save c0 paths host img p :
  p ∈ paths → confined c0 paths (Image_save host img p).
Proof.
  intros Hp w. unfold Image_save.
  unfold mbind at 1, M_bind at 1, bind at 1, get_world. cbv beta iota zeta.
  pose proof (confined_write_file c0 paths host p (OtherData []) Hp w) as Hw.
  destruct (write_file host p (OtherData []) w) as [[[]|e] w1] eqn:Hrun;
    [rewrite (bind_Ok _ _ _ _ _ Hrun)|by rewrite (bind_Raise _ _ _ _ _ Hrun)].
  cbn in Hw. eapply touches_only_trans; [exact Hw|].
  assert (cwd w1 = cwd w) as Hcwd
    by (apply write_file_Ok in Hrun as [_ ->]; done).
  rewrite <- Hcwd.
  destruct (jpeg_refuses img); [|by apply touches_only_insert].
  munfold. destruct (negb _); cbn;
    [by apply touches_only_delete|apply touches_only_refl].
Qed.

Lemma confined_try_except {A} c0 paths (body : M A) hs :
  confined c0 paths body →
  Forall (λ ch, ∀ e, confined c0 paths (ch.2 e)) hs →
  confined c0 paths (try_except body hs).
Proof.
  intros Hb Hhs w. unfold try_except.
  specialize (Hb w). destruct (body w) as [[a|e] w1]; cbn in *; [done|].
  assert (∀ h, select_handler hs e = Some h → confined c0 paths h) as Hsel.
  { clear -Hhs. induction Hhs as [|[c h] hs Hh _ IH]; cbn; [done|].
    destruct (isinstance e c); [|done]. intros ? [= <-]. apply Hh. }
  destruct (select_handler hs e) as [h|]; [|done].
  eapply touches_only_trans; [done|]. by apply Hsel.
Qed.

Ltac confined_step :=
  first
    [ apply confined_ret | apply confined_raise | apply confined_check_fault
    | apply confined_print | apply confined_read_file
    | apply confined_write_file;
      repeat first [apply list_elem_of_here | apply list_elem_of_further]
    | apply confined_os_remove;
      repeat first [apply list_elem_of_here | apply list_elem_of_further]
    | apply confined_Image_save;
      repeat first [apply list_elem_of_here | apply list_elem_of_further]
    | apply confined_bind; [|intros ?] ].

Lemma confined_convert_txt_to_pdf c0 host i o :
  confined c0 [o] (convert_txt_to_pdf host i o).
Proof.
  apply confined_try_except.
  - unfold convert_txt_body, FPDF_new, open_lines, FPDF_output.
    rewrite scale_factor_mm. repeat confined_step.
  - constructor; [|constructor].
    intros e. cbn. repeat confined_step.
Qed.

Lemma confined_convert_image_to_pdf c0 host i o :
  confined c0 [i ++ lit ".temp.jpg"; o] (convert_image_to_pdf host i o).
Proof.
  apply confined_try_except.
  - unfold convert_image_body, Image_open, Image_convert,
      FPDF_new, FPDF_image, FPDF_output.
    rewrite scale_factor_pt. repeat (confined_step || case_match).
  - constructor; [|constructor].
    intros e. cbn. repeat confined_step.
Qed.
(** *** A converter prints exactly when it fails *)

Lemma logs_iff_fails_intro (body : M bool) (r : result bool * World) w msg :
  keeps stdout body →
  (∀ b, (body w).1 = Ok b → b = true) →
  r = match body w with
      | (Ok b, w') => (Ok b, w')
      | (Raise e, w') => (Ok false, put_line (msg e) w')
      end →
  logs_iff_fails r w.
Proof.
  intros Hk Ht ->. specialize (Hk w). specialize (Ht).
  destruct (body w) as [[b|e] w1]; cbn in *.
  - rewrite (Ht b eq_refl). by exists true.
  - exists false. split; [done|]. exists [msg e]. split; [done|].
    cbn. by rewrite Hk.
Qed.

(** X1. The text converter is confined to its output file: it leaves
    the working directory as it was, prints nothing when it returns
    [True] and at least one line when it returns [False], and changes
    the file tree at most at the output path. *)
Theorem text_conversion_is_confined host input output w :
  let r := convert_txt_to_pdf host input output w in
  cwd r.2 = cwd w ∧
  logs_iff_fails r w ∧
  (∀ key, key ≠ resolve (cwd w) output → fs r.2 !! key = fs w !! key).
Proof.
  cbn zeta. split; [apply keeps_cwd_convert_txt_to_pdf|].
  split.
  { eapply logs_iff_fails_intro;
      [apply keeps_stdout_convert_txt_body
      |apply convert_txt_body_true
      |apply convert_txt_to_pdf_run]. }
  intros key Hk.
  destruct (confined_convert_txt_to_pdf (cwd w) host input output w eq_refl)
    as [_ Hfs].
  apply Hfs. cbn. intros [?|[]]%list_elem_of_In. congruence.
Qed.

(** X2. The image converter is confined to the temporary JPEG and the
    output file: it leaves the working directory as it was, prints
    nothing when it returns [True] and at least one line when it
    returns [False], changes the file tree at most at those two paths,
    and after [True] the temporary JPEG is gone. *)
Theorem image_conversion_is_confined host input output w :
  let r := convert_image_to_pdf host input output w in
  let temp := input ++ lit ".temp.jpg" in
  cwd r.2 = cwd w ∧
  logs_iff_fails r w ∧
  (∀ key, key ≠ resolve (cwd w) temp → key ≠ resolve (cwd w) output →
          fs r.2 !! key = fs w !! key) ∧
  (r.1 = Ok true → lookup_path r.2 temp = None).
Proof.
  cbn zeta. split; [apply keeps_cwd_convert_image_to_pdf|].
  split.
  { eapply logs_iff_fails_intro;
      [apply keeps_stdout_convert_image_body
      |apply convert_image_body_true
      |apply convert_image_to_pdf_run]. }
  split.
  { intros key Ht Ho.
    destruct (confined_convert_image_to_pdf (cwd w) host input output w eq_refl)
      as [_ Hfs].
    apply Hfs. cbn. intros [?|[?|[]]]%list_elem_of_In; congruence. }
  intros Hr.
  destruct (convert_image_to_pdf host input output w) as [r w'] eqn:Hrun.
  cbn in Hr. subst r.
  apply convert_image_to_pdf_Ok in Hrun as (img & _ & _ & _ & ->).
  unfold lookup_path. case_bool_decide; [done|]. cbn.
  apply lookup_delete_eq.
Qed.

(* ================================================================== *)
(** ** What the text converter writes *)

(** *** Lines and visible characters *)

Lemma concat_readlines s : concat (readlines s) = s.
Proof.
  induction s as [|c s IH]; cbn; [done|].
  destruct (N.eqb c 10); cbn; [by rewrite IH|].
  destruct (readlines s) as [|l ls]; cbn in *; by rewrite <- IH.
Qed.

Lemma filter_concat {A} (f : A → bool) (ls : list (list A)) :
  List.filter f (concat ls) = concat (List.map (List.filter f) ls).
Proof.
  induction ls as [|l ls IH]; cbn; [done|].
  by rewrite List.filter_app, IH.
Qed.

Lemma filter_all_space pre :
  Forall (λ c, isspace c = true) pre → List.filter visible pre = [].
Proof.
  induction 1 as [|c pre Hc _ IH]; cbn; [done|].
  unfold visible at 1. rewrite Hc. cbn. by rewrite andb_false_r.
Qed.

Lemma filter_visible_strip s :
  List.filter visible (strip s) = List.filter visible s.
Proof.
  destruct (strip_spec s) as (pre & post & Hs & Hpre & Hpost & _).
  rewrite Hs at 2. rewrite !List.filter_app.
  rewrite (filter_all_space pre), (filter_all_space post) by done.
  cbn. by rewrite app_nil_r.
Qed.

Lemma filter_visible_clean s :
  List.filter visible (clean s) = List.filter visible s.
Proof.
  unfold clean. induction s as [|c s IH]; cbn; [done|].
  destruct (c <? 128)%N eqn:Hc; cbn.
  - by rewrite IH.
  - unfold visible at 2. by rewrite Hc.
Qed.

Lemma filter_visible_universal_newlines s :
  List.filter visible (universal_newlines s) = List.filter visible s.
Proof.
  induction s as [|c s IH]; [done|].
  cbn [universal_newlines].
  destruct (N.eqb_spec c 13) as [->|Hc].
  - destruct s as [|d s]; [done|].
    destruct (N.eqb d 10); [by rewrite IH|].
    cbn [List.filter]. rewrite IH. done.
  - cbn [List.filter]. by rewrite IH.
Qed.

(** X4. When the text converter returns [True], the visible ASCII
    characters of the PDF's cells, read in order, are exactly the
    visible ASCII characters of the decoded input, in order: cleaning
    and stripping drop white space and non-ASCII characters only. *)
Theorem text_conversion_keeps_visible_ascii host input output w w' :
  convert_txt_to_pdf host input output w = (Ok true, w') →
  ∃ c doc,
    lookup_path w input = Some (File c) ∧
    lookup_path w' output = Some (File (PdfData doc)) ∧
    List.filter visible (concat (cell_texts doc))
    = List.filter visible (file_text host c).
Proof.
  intros (c & Hc & Ho & ->)%convert_txt_to_pdf_Ok.
  eexists c, _. split; [done|]. split; [by apply lookup_path_written|].
  rewrite cell_texts_text_pdf, filter_concat, List.map_map.
  rewrite <- filter_visible_universal_newlines.
  rewrite <- (concat_readlines (universal_newlines _)) at 2.
  rewrite filter_concat. f_equal. apply List.map_ext. intros line.
  by rewrite filter_visible_strip, filter_visible_clean.
Qed.

(** X4, witness: [a.txt]. *)
Lemma text_visible_witness :
  ∃ doc,
    lookup_path (convert_txt_to_pdf host_working a_txt a_pdf world).2 a_pdf
    = Some (File (PdfData doc)) ∧
    List.filter visible (concat (cell_texts doc)) = lit "cafaulaitfin".
Proof.
  destruct (text_conversion_keeps_visible_ascii host_working a_txt a_pdf world
              _ convert_a_txt_run)
    as (c & doc & Hc & Hdoc & Hvis).
  exists doc. split; [exact Hdoc|]. rewrite Hvis.
  destruct convert_a_txt as (_ & Hfile & _).
  rewrite Hfile in Hc. injection Hc as <-. vm_compute. reflexivity.
Defined.

Lemma universal_newlines_no_cr s : 13%N ∉ universal_newlines s.
Proof.
  induction s as [|c s IH]; cbn [universal_newlines].
  { apply not_elem_of_nil. }
  destruct (N.eqb_spec c 13) as [->|Hc].
  - destruct s as [|d s].
    + by intros [?|?%elem_of_nil]%elem_of_cons.
    + destruct (N.eqb d 10); [done|].
      by intros [?|?]%elem_of_cons.
  - by intros [?|?]%elem_of_cons.
Qed.

Lemma readlines_shape s : Forall line_shaped (readlines s).
Proof.
  induction s as [|c s IH]; cbn; [constructor|].
  destruct (N.eqb_spec c 10) as [->|Hc].
  - constructor; [|done]. exists []. split; [by left|apply not_elem_of_nil].
  - destruct (readlines s) as [|l ls].
    + constructor; [|constructor]. exists [c]. split; [by right|].
      by intros [?|?%elem_of_nil]%elem_of_cons.
    + apply Forall_cons in IH as [(b & Hl & Hb) Hls].
      constructor; [|done]. exists (c :: b). split.
      * destruct Hl as [->| ->]; [by left|by right].
      * by intros [?|?]%elem_of_cons.
Qed.

Lemma elem_of_clean ch s : ch ∈ clean s → ch ∈ s ∧ (ch < 128)%N.
Proof.
  unfold clean. rewrite !list_elem_of_In, List.filter_In.
  intros [? ?%N.ltb_lt]. done.
Qed.

Lemma clean_line_shaped l : line_shaped l → line_shaped (clean l).
Proof.
  intros (b & Hl & Hb). exists (clean b). split.
  - destruct Hl as [->| ->]; [left|by right].
    unfold clean. by rewrite List.filter_app.
  - by intros [? _]%elem_of_clean.
Qed.

Lemma strip_no_newline s : line_shaped s → 10%N ∉ strip s.
Proof.
  intros (b & Hs & Hb) Hin.
  destruct (strip_spec s) as (pre & post & Hdec & _ & _ & [_ Hlast]).
  destruct Hs as [->| ->].
  2: { apply Hb. rewrite Hdec, !elem_of_app. auto. }
  destruct (decide (post = [])) as [->|Hpost].
  - rewrite app_nil_r in Hdec.
    assert (last (strip (b ++ [10%N])) = Some 10%N) as Hl.
    { apply (f_equal last) in Hdec. rewrite last_snoc in Hdec.
      rewrite last_app in Hdec.
      destruct (last (strip (b ++ [10%N]))) as [x|] eqn:Hx; [done|].
      apply last_None in Hx. rewrite Hx in Hin. by apply elem_of_nil in Hin. }
    by specialize (Hlast _ Hl).
  - destruct (exists_last Hpost) as (post' & x & ->).
    rewrite !app_assoc in Hdec. apply app_inj_tail in Hdec as [Hbeq _].
    apply Hb. rewrite Hbeq, !elem_of_app. auto.
Qed.

Lemma elem_of_strip ch s : ch ∈ strip s → ch ∈ s.
Proof.
  destruct (strip_spec s) as (pre & post & Hdec & _).
  intros H. rewrite Hdec, !elem_of_app. auto.
Qed.

(** X5. When the text converter returns [True], every cell of the PDF is
    ASCII, holds no line feed and no carriage return, and neither
    starts nor ends with white space. *)
Theorem text_cells_are_single_ascii_lines host input output w w' :
  convert_txt_to_pdf host input output w = (Ok true, w') →
  ∃ doc,
    lookup_path w' output = Some (File (PdfData doc)) ∧
    Forall (λ cell,
              no_edge_space cell ∧
              Forall (λ ch, (ch < 128)%N ∧ ch ≠ 10%N ∧ ch ≠ 13%N) cell)
           (cell_texts doc).
Proof.
  intros (c & Hc & Ho & ->)%convert_txt_to_pdf_Ok.
  eexists. split; [by apply lookup_path_written|].
  rewrite cell_texts_text_pdf. apply Forall_fmap, Forall_forall.
  intros line Hline. cbn. split.
  { by destruct (strip_spec (clean line)) as (? & ? & _ & _ & _ & ?). }
  apply Forall_forall. intros ch Hch.
  assert (line_shaped line) as Hshape.
  { eapply Forall_forall; [apply readlines_shape|done]. }
  split; [|split].
  - by apply elem_of_strip, elem_of_clean in Hch as [_ ?].
  - intros ->. by apply (strip_no_newline _ (clean_line_shaped _ Hshape)).
  - intros ->. apply elem_of_strip, elem_of_clean in Hch as [Hch _].
    apply (universal_newlines_no_cr (file_text host c)).
    rewrite <- concat_readlines. apply list_elem_of_In, in_concat.
    exists line. by rewrite <- !list_elem_of_In.
Qed.

(** X5, witness: [a.txt]. *)
Lemma text_cells_single_witness :
  ∃ doc,
    lookup_path (convert_txt_to_pdf host_working a_txt a_pdf world).2 a_pdf
    = Some (File (PdfData doc)) ∧
    Forall (λ cell,
              no_edge_space cell ∧
              Forall (λ ch, (ch < 128)%N ∧ ch ≠ 10%N ∧ ch ≠ 13%N) cell)
           (cell_texts doc).
Proof.
  exact (text_cells_are_single_ascii_lines host_working a_txt a_pdf world
           _ convert_a_txt_run).
Defined.

(* ================================================================== *)
(** ** The temporary JPEG *)

(** X3. When the image was read and saved as the temporary JPEG and
    writing the PDF then fails, the converter prints the error, returns
    [False], and the temporary JPEG stays beside the source:
    [os.remove] is the last statement of the [try] block and no
    [finally] clause repeats it. *)
Theorem image_temp_file_left_behind host input output w img e :
  let temp := input ++ lit ".temp.jpg" in
  let w1 :=
    set_fs (<[resolve (cwd w) temp := File (ImageData (as_rgb img))]> (fs w))
           w in
  fault_free host →
  lookup_path w input = Some (File (ImageData img)) →
  jpeg_refuses img = None →
  writable w temp →
  write_file host output (PdfData (image_pdf img)) w1 = (Raise e, w1) →
  convert_image_to_pdf host input output w
  = (Ok false,
     put_line (lit "Error converting image: " ++ exn_str host e) w1) ∧
  lookup_path (convert_image_to_pdf host input output w).2 temp
  = Some (File (ImageData (as_rgb img))).
Proof.
  intros temp w1 Hfree Himg Hjpeg Htemp Hfail.
  assert (convert_image_to_pdf host input output w
          = (Ok false,
             put_line (lit "Error converting image: " ++ exn_str host e) w1))
    as Hrun.
  { rewrite convert_image_to_pdf_run. unfold convert_image_body.
    rewrite (bind_Ok _ _ _ _ _ (Image_open_run _ _ _ _ (Hfree _ _) Himg)).
    unfold image_pdf in Hfail. destruct (size img) as [wd ht].
    rewrite (bind_Ok _ _ _ _ _ (to_rgb_run _ _ _ (Hfree _ _))).
    unfold FPDF_output.
    rewrite <- jpeg_refuses_as_rgb in Hjpeg.
    rewrite (bind_Ok _ _ _ _ _
               (Image_save_run _ _ _ _ (Hfree _ _) Htemp Hjpeg)).
    fold temp. fold w1.
    assert (lookup_path w1 temp = Some (File (ImageData (as_rgb img))))
      as Hrd by (apply lookup_path_written; by destruct Htemp).
    unfold FPDF_new. rewrite scale_factor_pt, ret_bind.
    rewrite (bind_Ok _ _ _ _ _
               (FPDF_image_run _ _ _ _ _ _ _ _ _ (Hfree _ _) Hrd)).
    unfold mbind, M_bind, bind. cbn in Hfail. by rewrite Hfail. }
  split; [done|]. rewrite Hrun. cbn.
  apply lookup_path_written. by destruct Htemp.
Qed.

Lemma bare_image_facts :
  lookup_path bare_world a_jpg = Some (File (ImageData photo)) ∧
  jpeg_refuses photo = None ∧
  lookup_path bare_world a_temp = None ∧
  lookup_path bare_world (dirname a_temp) = Some Dir ∧
  (let w1 :=
     set_fs (<[resolve (cwd bare_world) a_temp
               := File (ImageData (as_rgb photo))]> (fs bare_world))
            bare_world in
   write_file host_working a_pdf (PdfData (image_pdf photo)) w1
   = (Raise (OSError ENOENT [a_pdf]), w1)) ∧
  exn_str host_working (OSError ENOENT [a_pdf])
  = lit "[Errno 2] No such file or directory: '/work/pdf_output/a.pdf'".
Proof. repeat split; vm_compute; reflexivity. Qed.

(** X3, witness: [/work] has no [pdf_output] directory, so the PDF of
    [a.jpg] cannot be written. *)
Lemma image_temp_file_witness :
  (convert_image_to_pdf host_working a_jpg a_pdf bare_world).1 = Ok false ∧
  stdout (convert_image_to_pdf host_working a_jpg a_pdf bare_world).2
  = [lit "Error converting image: [Errno 2] No such file or directory: '/work/pdf_output/a.pdf'"] ∧
  lookup_path (convert_image_to_pdf host_working a_jpg a_pdf bare_world).2
              a_temp
  = Some (File (ImageData (as_rgb photo))).
Proof.
  destruct bare_image_facts as (Himg & Hjpeg & Hnone & Hdir & Hfail & Hmsg).
  destruct (image_temp_file_left_behind host_working a_jpg a_pdf bare_world
              photo (OSError ENOENT [a_pdf])
              (λ _ _, eq_refl) Himg Hjpeg
              (conj (ltac:(discriminate) : a_temp ≠ [])
                    (or_intror (conj Hnone Hdir)))
              Hfail) as [Hrun Htemp].
  split; [by rewrite Hrun|]. split; [|exact Htemp].
  rewrite Hrun. cbn [snd]. unfold put_line. cbn [stdout].
  by rewrite Hmsg.
Defined.

(* ================================================================== *)
(** ** More on the document converter *)

(** *** Round trip of the working directory *)

Lemma split_on_app_sep c a b :
  split_on c (a ++ c :: b) = split_on c a ++ split_on c b.
Proof.
  induction a as [|x a IH]; cbn.
  - rewrite N.eqb_refl. pose proof (split_on_nonempty c b).
    by destruct (split_on c b).
  - rewrite IH. pose proof (split_on_nonempty c a) as Hne.
    destruct (split_on c a) as [|piece rest]; [done|]. cbn.
    by destruct (N.eqb x c).
Qed.

Lemma split_on_components c d :
  ord_slash ∉ c → canonical d →
  split_on ord_slash (c ++ concat (List.map (λ c, ord_slash :: c) d)) = c :: d.
Proof.
  intros Hc Hd. revert c Hc.
  induction Hd as [|c' d [_ Hc'] _ IH]; intros c Hc; cbn [List.map concat].
  - rewrite app_nil_r. by apply split_on_notin.
  - rewrite <- app_comm_cons, split_on_app_sep, IH by done.
    by rewrite split_on_notin.
Qed.

Lemma split_on_render d :
  canonical d → d ≠ [] →
  split_on ord_slash (concat (List.map (λ c, ord_slash :: c) d)) = [] :: d.
Proof.
  intros Hd Hne. destruct Hd as [|c d [_ Hc] Hd]; [done|].
  cbn [List.map concat]. rewrite <- app_comm_cons.
  pose proof (split_on_app_sep ord_slash []
                (c ++ concat (List.map (λ c, ord_slash :: c) d))) as H.
  cbn [app] in H. rewrite H. cbn [split_on app].
  by rewrite split_on_components.
Qed.

Lemma walk_canonical d : canonical d → ∀ acc, walk acc d = rev acc ++ d.
Proof.
  induction 1 as [|c d [(H1 & H2 & H3) _] _ IH]; intros acc; cbn.
  - by rewrite app_nil_r.
  - rewrite !bool_decide_eq_false_2 by done. cbn.
    rewrite IH. cbn. by rewrite <- app_assoc.
Qed.

Lemma resolve_render c0 d : canonical d → resolve c0 (render d) = d.
Proof.
  intros Hd. destruct d as [|c d]; [done|].
  unfold resolve, render.
  change (startswith ord_slash (concat (List.map (λ c, ord_slash :: c) (c :: d))))
    with true.
  cbn [negb]. rewrite split_on_render by done.
  change (walk [] ([] :: c :: d)) with (walk [] (c :: d)).
  by rewrite walk_canonical.
Qed.
(** *** Inversions of the directory primitives *)

Lemma os_getcwd_Raise host e w w' :
  os_getcwd host w = (Raise e, w') → w' = w.
Proof.
  unfold os_getcwd. munfold. cbn. intros H.
  repeat case_match; simplify_eq; done.
Qed.

Lemma os_chdir_Raise host p e w w' :
  os_chdir host p w = (Raise e, w') → w' = w.
Proof.
  unfold os_chdir. munfold. cbn. intros H.
  repeat case_match; simplify_eq; done.
Qed.

Lemma keeps_run {X A} (f : World → X) (c : M A) w r w' :
  keeps f c → c w = (r, w') → f w' = f w.
Proof. intros Hk Hrun. specialize (Hk w). by rewrite Hrun in Hk. Qed.

(** X6. When the document converter returns [True], the working
    directory is the one it started from: the second [os.chdir] goes
    back to the path [os.getcwd] gave. *)
Theorem docx_success_restores_cwd host input output w w' :
  canonical (cwd w) →
  convert_docx_to_pdf host input output w = (Ok true, w') →
  cwd w' = cwd w.
Proof.
  intros Hcan. rewrite convert_docx_to_pdf_run.
  destruct (convert_docx_body host input output w) as [[b|e] w2] eqn:Hbody;
    [|intros; simplify_eq].
  intros [= -> ->]. unfold convert_docx_body in Hbody.
  apply bind_inv_Ok in Hbody as (cur & w1 & [-> ->]%os_getcwd_Ok & H).
  apply bind_inv_Ok in H as ([] & w1 & [_ ->]%os_chdir_Ok & H).
  apply bind_inv_Ok in H as (res & w3 & Hsp & H).
  apply bind_inv_Ok in H as ([] & w4 & [_ ->]%os_chdir_Ok & H).
  apply bind_inv_Ok in H as (found & w5 & [= _ <-] & H).
  apply bind_inv_Ok in H as ([] & w6 & Hren & [= <-]).
  rewrite (keeps_run cwd _ _ _ _
             (keeps_when cwd _ _ (keeps_cwd_os_rename host _ _)) Hren).
  cbn. by apply resolve_render.
Qed.

Lemma work_docx_facts :
  canonical (cwd world) ∧
  (convert_docx_to_pdf host_working report_docx report_pdf world).1
  = Ok true ∧
  lookup_path bare_world (docx_output_dir report_pdf) = None.
Proof.
  split; [|split; vm_compute; reflexivity].
  repeat constructor; try discriminate;
    apply (bool_decide_unpack _); vm_compute; exact I.
Qed.

Lemma result_run {A} (r : result A * World) a : r.1 = Ok a → r = (Ok a, r.2).
Proof. destruct r as [r w]. cbn. by intros ->. Qed.

(** X6, witness: [report.docx] in [/work]. *)
Lemma docx_success_restores_cwd_witness :
  cwd (convert_docx_to_pdf host_working report_docx report_pdf world).2
  = [lit "work"].
Proof.
  destruct work_docx_facts as (Hcan & Hrun & _).
  exact (docx_success_restores_cwd host_working report_docx report_pdf world
           _ Hcan (result_run _ _ Hrun)).
Defined.

(** X7. When the directory of the output file is not an existing
    directory, the document converter returns [False] without starting
    AbiWord: the working directory and the file tree are unchanged and
    at least one line is printed. *)
Theorem docx_without_output_directory host input output w :
  lookup_path w (docx_output_dir output) ≠ Some Dir →
  let r := convert_docx_to_pdf host input output w in
  r.1 = Ok false ∧ cwd r.2 = cwd w ∧ fs r.2 = fs w ∧
  ∃ lines, lines ≠ [] ∧ stdout r.2 = stdout w ++ lines.
Proof.
  intros Hdir. cbn zeta.
  assert (∃ e, convert_docx_body host input output w = (Raise e, w))
    as [e Hbody].
  { unfold convert_docx_body.
    destruct ((os_getcwd host ≫= _) w) as [[b|e] w1] eqn:H.
    - apply bind_inv_Ok in H as (cur & w2 & [-> ->]%os_getcwd_Ok & H).
      apply bind_inv_Ok in H as ([] & w2 & [Hd _]%os_chdir_Ok & _). done.
    - exists e. f_equal.
      apply bind_inv_Raise in H
        as [->%os_getcwd_Raise|(cur & w2 & [-> ->]%os_getcwd_Ok & H)];
        [done|].
      apply bind_inv_Raise in H
        as [->%os_chdir_Raise|([] & w2 & [Hd _]%os_chdir_Ok & _)]; done. }
  rewrite convert_docx_to_pdf_run, Hbody. cbv beta iota.
  destruct (isinstance e CalledProcessErrorC); cbn;
    (split; [done|]; split; [done|]; split; [done|]).
  - eexists [_; _]. split; [done|]. by rewrite <- app_assoc.
  - by eexists [_].
Qed.

(** X7, witness: [/work] without [pdf_output]. *)
Lemma docx_without_output_directory_witness :
  (convert_docx_to_pdf host_working report_docx report_pdf bare_world).1
  = Ok false ∧
  fs (convert_docx_to_pdf host_working report_docx report_pdf bare_world).2
  = fs bare_world.
Proof.
  destruct work_docx_facts as (_ & _ & Hnone).
  destruct (docx_without_output_directory host_working report_docx report_pdf
              bare_world) as (H1 & _ & H3 & _).
  - rewrite Hnone. discriminate.
  - split; [exact H1|exact H3].
Defined.

(** X8. When AbiWord cannot be started (the executable is missing, say),
    the error is not a [CalledProcessError]: the generic handler prints
    [Error converting DOCX: <error>], no [STDERR:] line follows, and
    the converter returns [False]. *)
Theorem docx_abiword_cannot_start host input output w e m :
  fault host OpGetcwd w = None →
  fs w !! cwd w = Some Dir →
  fault host (OpChdir (docx_output_dir output)) w = None →
  lookup_path w (docx_output_dir output) = Some Dir →
  spawn host (abiword_argv input) (docx_launch_world output w)
  = (NotStarted e, m) →
  isinstance e CalledProcessErrorC = false →
  (convert_docx_to_pdf host input output w).1 = Ok false ∧
  stdout (convert_docx_to_pdf host input output w).2
  = stdout w ++ [lit "Error converting DOCX: " ++ exn_str host e].
Proof.
  intros Hf1 Hcwd Hf2 Hdir Hsp He.
  rewrite convert_docx_to_pdf_run, convert_docx_body_launch by done.
  unfold subprocess_run. munfold. cbn. rewrite Hsp.
  destruct e; cbn in He |- *; [discriminate|done..].
Qed.

Lemma work_launch_facts :
  fs world !! cwd world = Some Dir ∧
  lookup_path world (docx_output_dir report_pdf) = Some Dir ∧
  spawn host_missing (abiword_argv report_docx)
        (docx_launch_world report_pdf world)
  = (NotStarted (OSError ENOENT [lit "abiword"]), tree) ∧
  exn_str host_missing (OSError ENOENT [lit "abiword"])
  = lit "[Errno 2] No such file or directory: 'abiword'".
Proof. repeat split; vm_compute; reflexivity. Qed.

(** X8, witness: [abiword] is not installed. *)
Lemma docx_abiword_cannot_start_witness :
  (convert_docx_to_pdf host_missing report_docx report_pdf world).1 = Ok false ∧
  stdout (convert_docx_to_pdf host_missing report_docx report_pdf world).2
  = [lit "Error converting DOCX: [Errno 2] No such file or directory: 'abiword'"].
Proof.
  destruct work_launch_facts as (Hcwd & Hdir & Hsp & Hmsg).
  destruct (docx_abiword_cannot_start host_missing report_docx report_pdf world
              (OSError ENOENT [lit "abiword"]) tree
              eq_refl Hcwd eq_refl Hdir Hsp eq_refl) as [Hr Hout].
  split; [exact Hr|]. rewrite Hout. cbn [stdout world app]. by rewrite Hmsg.
Defined.

(** X9. The document converter always returns a boolean, prints nothing
    when it returns [True] and at least one line when it returns
    [False]. *)
Theorem document_conversion_logs_iff_fails host input output w :
  logs_iff_fails (convert_docx_to_pdf host input output w) w.
Proof.
  rewrite convert_docx_to_pdf_run.
  pose proof (keeps_stdout_convert_docx_body host input output w) as Hk.
  pose proof (convert_docx_body_true host input output w) as Ht.
  destruct (convert_docx_body host input output w) as [[b|e] w1]; cbn in *.
  - rewrite (Ht b eq_refl). by exists true.
  - exists false. split; [done|].
    destruct e; cbn; rewrite Hk;
      first [ by eexists [_]
            | eexists [_; _]; split; [done|]; by rewrite <- app_assoc ].
Qed.
(** *** [dirname] of a derived output path *)

Lemma lstrip_char_head c x s : x ≠ c → lstrip_char c (x :: s) = x :: s.
Proof. intros H. cbn. by destruct (N.eqb_spec x c). Qed.

Lemma lstrip_char_same c s : lstrip_char c (c :: s) = lstrip_char c s.
Proof. cbn. by rewrite N.eqb_refl. Qed.

Lemma endswith_false_last c a :
  a ≠ [] → endswith c a = false → ∃ a' x, a = a' ++ [x] ∧ x ≠ c.
Proof.
  intros Ha He. destruct (exists_last Ha) as (a' & x & ->).
  exists a', x. split; [done|]. unfold endswith in He.
  rewrite last_snoc in He. by destruct (N.eqb_spec x c).
Qed.

Lemma dirname_app_slash a b :
  a ≠ [] → endswith ord_slash a = false → ord_slash ∉ b →
  dirname (a ++ ord_slash :: b) = a.
Proof.
  intros Ha He Hb. unfold dirname. rewrite rfind_last by done.
  replace (Z.of_nat (length a) + 1) with (Z.of_nat (length (a ++ [ord_slash])))
    by (rewrite length_app; cbn; lia).
  rewrite (cons_middle _ a b), app_assoc, upto_app.
  destruct (endswith_false_last _ _ Ha He) as (a' & x & -> & Hx).
  rewrite bool_decide_eq_false_2 by (by destruct a').
  rewrite bool_decide_eq_false_2.
  2: { intros H%(f_equal (λ l, l !! length a')).
       rewrite <- app_assoc in H. cbn in H.
       rewrite list_lookup_middle in H by done.
       rewrite lookup_replicate_2 in H; [congruence|].
       rewrite !length_app. cbn. lia. }
  cbn [negb andb]. unfold rstrip_char.
  rewrite !rev_app_distr. cbn [rev app].
  rewrite lstrip_char_same, lstrip_char_head by done.
  cbn [rev]. by rewrite rev_involutive.
Qed.
Lemma stem_pdf_no_slash input :
  ord_slash ∉ (splitext (basename input)).1 ++ lit ".pdf".
Proof.
  rewrite elem_of_app. intros [H|H].
  - by apply (stem_no_slash (basename input) (basename_no_slash input)).
  - by apply lit_pdf_no_slash.
Qed.

Lemma docx_expected_pdf_derived input dir :
  dir ≠ [] → endswith ord_slash dir = false →
  docx_expected_pdf input (output_path input dir) = output_path input dir.
Proof.
  intros Hd He. unfold docx_expected_pdf, docx_output_dir, output_path.
  rewrite (join_plain dir) by
    (try done; apply startswith_notin, stem_pdf_no_slash).
  cbn [app]. rewrite dirname_app_slash by (try done; apply stem_pdf_no_slash).
  rewrite bool_decide_eq_false_2 by done.
  by rewrite (join_plain dir) by
    (try done; apply startswith_notin, stem_pdf_no_slash).
Qed.

Lemma join_pdf_output cur :
  join cur (lit "pdf_output") ≠ [] ∧
  endswith ord_slash (join cur (lit "pdf_output")) = false.
Proof.
  assert (∃ a, join cur (lit "pdf_output") = a ++ lit "pdf_outpu" ++ [116%N])
    as [a ->].
  { unfold join. change (startswith ord_slash (lit "pdf_output")) with false.
    cbv iota. destruct (_ || _).
    - by exists cur.
    - exists (cur ++ [ord_slash]). by rewrite <- app_assoc. }
  split.
  - intros H%(f_equal length). rewrite !length_app in H. cbn in H. lia.
  - unfold endswith. by rewrite !app_assoc, last_snoc.
Qed.

(** X10. For the output path the dispatcher derives, the PDF AbiWord is
    expected to write is that very path, so [os.rename] is never
    reached from [main]: for any non-empty output directory without a
    final slash, and for [main]'s [<cwd>/pdf_output] in particular. For
    a bare output name the expected path is [./<stem>.pdf], which
    differs as a string. *)
Theorem docx_rename_not_needed_from_main :
  (∀ input dir,
     dir ≠ [] → endswith ord_slash dir = false →
     docx_expected_pdf input (output_path input dir) = output_path input dir) ∧
  (∀ input cur,
     let output_dir := join cur (lit "pdf_output") in
     docx_expected_pdf input (output_path input output_dir)
     = output_path input output_dir) ∧
  docx_expected_pdf (lit "/work/report.docx") (lit "report.pdf")
  = lit "./report.pdf".
Proof.
  split; [apply docx_expected_pdf_derived|].
  split; [|reflexivity].
  intros input cur output_dir.
  destruct (join_pdf_output cur). by apply docx_expected_pdf_derived.
Qed.
Lemma os_rename_file_run host src dst c w :
  fault host (OpRename src dst) w = None →
  lookup_path w src = Some (File c) →
  writable w dst →
  os_rename host src dst w
  = (Ok tt,
     set_fs (<[resolve (cwd w) dst := File c]>
               (delete (resolve (cwd w) src) (fs w))) w).
Proof.
  intros Hf Hsrc [Hd [[c' Hdst]|[Hnone Hpar]]];
    unfold os_rename; munfold; cbn; rewrite Hf; cbn; rewrite Hsrc.
  - by rewrite Hdst.
  - rewrite Hnone, Hpar. by rewrite bool_decide_eq_false_2.
Qed.

(** X11. When AbiWord exits with 0, its PDF exists under the expected
    name and the caller asked for another output path, the converter
    renames it: the output path then holds AbiWord's PDF, the expected
    path (if it is another file) is gone, and the result is [True]. *)
Theorem docx_renames_into_place host input output w out err m c :
  let launched := set_fs m (docx_launch_world output w) in
  let restored := set_cwd (resolve (cwd launched) (render (cwd w))) launched in
  let expected := docx_expected_pdf input output in
  fault_free host →
  fs w !! cwd w = Some Dir →
  lookup_path w (docx_output_dir output) = Some Dir →
  spawn host (abiword_argv input) (docx_launch_world output w)
  = (Exited 0 out err, m) →
  lookup_path launched (render (cwd w)) = Some Dir →
  lookup_path restored expected = Some (File c) →
  expected ≠ output →
  writable restored output →
  (convert_docx_to_pdf host input output w).1 = Ok true ∧
  lookup_path (convert_docx_to_pdf host input output w).2 output
  = Some (File c) ∧
  (resolve (cwd restored) expected ≠ resolve (cwd restored) output →
   lookup_path (convert_docx_to_pdf host input output w).2 expected = None).
Proof.
  intros launched restored expected Hfree Hcwd Hdir Hsp Hback Hexp Hne Hout.
  assert (convert_docx_to_pdf host input output w
          = (Ok true,
             set_fs (<[resolve (cwd restored) output := File c]>
                       (delete (resolve (cwd restored) expected) (fs restored)))
                    restored)) as Hrun.
  { rewrite convert_docx_to_pdf_run, convert_docx_body_launch by done.
    unfold subprocess_run, os_chdir, os_path_exists. munfold. cbn.
    rewrite Hsp. cbn. fold launched. rewrite Hfree. cbn. rewrite Hback. cbn.
    pose proof (os_rename_file_run _ _ _ _ _ (Hfree _ _) Hexp Hout) as Hren.
    unfold restored, launched, expected, docx_launch_world, set_cwd, set_fs
      in *.
    cbn in *. rewrite Hexp. cbn.
    rewrite bool_decide_eq_false_2 by done. cbn. by rewrite Hren. }
  rewrite Hrun. cbn [fst snd]. split; [done|]. split.
  - rewrite lookup_path_nonempty by by destruct Hout.
    cbn. apply lookup_insert_eq.
  - intros Hres. unfold lookup_path in *. cbn.
    destruct (bool_decide (expected = [])); [done|].
    rewrite lookup_insert_ne by done. apply lookup_delete_eq.
Qed.

Lemma work_rename_facts :
  let m := <[[lit "work"; lit "pdf_output"; lit "report.pdf"]
             := File (PdfData abiword_doc)]> tree in
  let launched := set_fs m (docx_launch_world final_pdf world) in
  let restored :=
    set_cwd (resolve (cwd launched) (render (cwd world))) launched in
  let expected := docx_expected_pdf report_docx final_pdf in
  fs world !! cwd world = Some Dir ∧
  lookup_path world (docx_output_dir final_pdf) = Some Dir ∧
  spawn host_working (abiword_argv report_docx)
        (docx_launch_world final_pdf world)
  = (Exited 0 [] no_text, m) ∧
  lookup_path launched (render (cwd world)) = Some Dir ∧
  lookup_path restored expected = Some (File (PdfData abiword_doc)) ∧
  expected ≠ final_pdf ∧
  lookup_path restored final_pdf = None ∧
  lookup_path restored (dirname final_pdf) = Some Dir ∧
  resolve (cwd restored) expected ≠ resolve (cwd restored) final_pdf.
Proof.
  cbv zeta.
  repeat split; try (vm_compute; reflexivity); vm_compute; discriminate.
Qed.

(** X11, witness: the caller asks for [final.pdf]; AbiWord writes
    [report.pdf]. *)
Lemma docx_renames_witness :
  (convert_docx_to_pdf host_working report_docx final_pdf world).1 = Ok true ∧
  lookup_path (convert_docx_to_pdf host_working report_docx final_pdf world).2
              final_pdf
  = Some (File (PdfData abiword_doc)) ∧
  lookup_path (convert_docx_to_pdf host_working report_docx final_pdf world).2
              report_pdf
  = None.
Proof.
  destruct work_rename_facts
    as (Hcwd & Hdir & Hsp & Hback & Hexp & Hne & Hnone & Hpar & Hres).
  destruct (docx_renames_into_place host_working report_docx final_pdf world
              [] no_text
              (<[[lit "work"; lit "pdf_output"; lit "report.pdf"]
                 := File (PdfData abiword_doc)]> tree)
              (PdfData abiword_doc)
              (λ _ _, eq_refl) Hcwd Hdir Hsp Hback Hexp Hne
              (conj (ltac:(discriminate) : final_pdf ≠ [])
                    (or_intror (conj Hnone Hpar))))
    as (H1 & H2 & H3).
  split; [exact H1|]. split; [exact H2|]. exact (H3 Hres).
Defined.

(* ================================================================== *)
(** ** More on the dispatcher and the batch *)

(** *** The filter of [main] and the dispatcher *)

Lemma supported_classify host name :
  supported host name = true ↔ classify host (splitext name).2 ≠ Unsupported.
Proof.
  unfold supported, elem. rewrite bool_decide_eq_true.
  destruct (classify_tables host (splitext name).2) as (_ & _ & _ & Hu).
  rewrite Hu.
  destruct (decide (lower (unicode host) (splitext name).2
                    ∈ supported_extensions)); tauto.
Qed.

(** X12. The filter of [main] and the dispatcher agree: a directory
    entry passes [extension in supported_extensions] exactly when the
    dispatcher, given the joined path, finds a converter for it, so the
    dispatcher's [Unsupported file format] branch is never reached from
    [main]. *)
Theorem main_hands_over_only_dispatchable host cur name :
  ord_slash ∉ name →
  (supported host name = true ↔
   classify host (splitext (basename (join cur name))).2 ≠ Unsupported).
Proof.
  intros Hs. rewrite basename_join by done. apply supported_classify.
Qed.

Lemma a_txt_name_facts :
  (ord_slash ∉ lit "a.txt") ∧ (ord_slash ∉ lit "txt") ∧
  (ord_dot ∉ lit "txt") ∧ (ord_slash ∉ lit "csv") ∧ (ord_dot ∉ lit "csv") ∧
  supported host_working (lit "a.txt") = true.
Proof.
  repeat split;
    first [ apply (bool_decide_unpack _); vm_compute; exact I
          | vm_compute; reflexivity ].
Qed.

(** X12, witness: [a.txt] in [/work]. *)
Lemma main_hands_over_witness :
  classify host_working
    (splitext (basename (join (lit "/work") (lit "a.txt")))).2
  ≠ Unsupported.
Proof.
  destruct a_txt_name_facts as (Hs & _ & _ & _ & _ & Hsup).
  exact (proj1 (main_hands_over_only_dispatchable host_working (lit "/work")
                  (lit "a.txt") Hs) Hsup).
Defined.

(** X13. A name that is only leading dots and one suffix, such as
    [.txt] or [..csv], has no extension for [os.path.splitext]: [main]
    does not hand it to the dispatcher and records nothing for it. *)
Theorem dot_files_are_not_processed dots e :
  Forall (λ c, c = ord_dot) dots → ord_dot ∉ e → ord_slash ∉ e →
  ∀ host,
    supported host (dots ++ ord_dot :: e) = false ∧
    ∀ cur out acc w,
      process_entry host cur out acc (dots ++ ord_dot :: e) w = (Ok acc, w).
Proof.
  intros Hdots He Hs host.
  assert (supported host (dots ++ ord_dot :: e) = false) as Hsup.
  { unfold supported. rewrite splitext_name; [|  |done..].
    - by rewrite bool_decide_eq_true_2.
    - intros Hin. eapply Forall_forall in Hdots; [|done]. done. }
  split; [done|]. intros. apply process_entry_skip. by right.
Qed.

Lemma one_dot : Forall (λ c, c = ord_dot) [ord_dot].
Proof. by repeat constructor. Qed.

(** X13, witness: [.txt] and [..csv]. *)
Lemma dot_files_witness :
  supported host_working (lit ".txt") = false ∧
  supported host_working (lit "..csv") = false.
Proof.
  destruct a_txt_name_facts as (_ & Hs1 & Hd1 & Hs2 & Hd2 & _).
  split.
  - exact (proj1 (dot_files_are_not_processed [] (lit "txt")
                    (List.Forall_nil _) Hd1 Hs1 host_working)).
  - exact (proj1 (dot_files_are_not_processed [ord_dot] (lit "csv")
                    one_dot Hd2 Hs2
                    host_working)).
Defined.


(** X14. Two inputs are given the same output path in one output
    directory exactly when their file names have the same stem. *)
Theorem output_paths_collide_iff_same_stem f1 f2 dir :
  output_path f1 dir = output_path f2 dir ↔
  (splitext (basename f1)).1 = (splitext (basename f2)).1.
Proof.
  split; [|unfold output_path; by intros ->].
  unfold output_path, join.
  rewrite !startswith_notin by apply stem_pdf_no_slash.
  destruct (_ || _).
  - intros H%app_inv_head. by apply app_inv_tail in H.
  - intros H%app_inv_head. injection H as H. by apply app_inv_tail in H.
Qed.

(** *** A batch without documents *)

Lemma convert_to_pdf_keeps_cwd host i d :
  classify host (splitext (basename i)).2 ≠ Document →
  keeps cwd (convert_to_pdf host i d).
Proof.
  unfold convert_to_pdf, classify.
  change text_extensions with [lit ".txt"; lit ".md"; lit ".csv"].
  change image_extensions
    with [lit ".jpg"; lit ".jpeg"; lit ".png"; lit ".bmp"; lit ".gif"].
  change document_extensions with [lit ".docx"; lit ".doc"].
  intros Hk. cbv zeta in *.
  apply keeps_bind; [apply keeps_cwd_print|intros _].
  destruct (elem _ [lit ".txt"; lit ".md"; lit ".csv"]).
  { apply keeps_bind; [apply keeps_cwd_convert_txt_to_pdf|].
    intros []; apply keeps_ret. }
  destruct (elem _ [lit ".jpg"; lit ".jpeg"; lit ".png"; lit ".bmp"; lit ".gif"]).
  { apply keeps_bind; [apply keeps_cwd_convert_image_to_pdf|].
    intros []; apply keeps_ret. }
  destruct (elem _ [lit ".docx"; lit ".doc"]); [done|].
  apply keeps_bind; [apply keeps_cwd_print|intros _; apply keeps_ret].
Qed.

Lemma keeps_cwd_os_path_exists p : keeps cwd (os_path_exists p).
Proof. unfold os_path_exists. keeps_auto. Qed.

Lemma keeps_cwd_os_path_isdir p : keeps cwd (os_path_isdir p).
Proof. unfold os_path_isdir. keeps_auto. Qed.

Lemma process_entry_keeps_cwd host cur out acc n :
  classify host (splitext (basename (join cur n))).2 ≠ Document →
  keeps cwd (process_entry host cur out acc n).
Proof.
  intros Hk. unfold process_entry. cbv zeta.
  apply keeps_bind; [apply keeps_cwd_os_path_isdir|intros is_dir].
  destruct (_ || _); [apply keeps_ret|].
  destruct (elem _ _); [|apply keeps_ret].
  apply keeps_bind; [by apply convert_to_pdf_keeps_cwd|intros o].
  apply keeps_bind.
  { destruct (truthy o); [apply keeps_cwd_os_path_exists|apply keeps_ret]. }
  intros []; (apply keeps_bind; [apply keeps_cwd_print|intros _]);
    apply keeps_ret.
Qed.

(** X15. A batch without Word documents leaves the working directory
    where it was, whatever fails: only the document converter calls
    [os.chdir]. *)
Theorem batch_without_documents_keeps_cwd host cur out names : ∀ acc w,
  Forall (λ n, classify host (splitext (basename (join cur n))).2 ≠ Document)
         names →
  cwd (for_each (process_entry host cur out) acc names w).2 = cwd w.
Proof.
  induction names as [|n ns IH]; intros acc w Hns; [done|].
  apply Forall_cons in Hns as [Hn Hns]. cbn [for_each]. munfold.
  pose proof (process_entry_keeps_cwd host cur out acc n Hn w) as Hc.
  destruct (process_entry host cur out acc n w) as [[acc1|e] w1]; [|done].
  cbn in Hc. rewrite <- Hc. by apply IH.
Qed.

Lemma work_batch_facts :
  Forall (λ n, classify host_rejecting
                 (splitext (basename (join (lit "/work") n))).2 ≠ Document)
         [lit "a.txt"; lit "archive.zip"; lit "a.jpg"].
Proof. repeat constructor; vm_compute; discriminate. Qed.

(** X15, witness: a text file, an archive and an image in [/work]. *)
Lemma batch_without_documents_witness :
  cwd (for_each (process_entry host_rejecting (lit "/work") out_dir) ([], [])
                [lit "a.txt"; lit "archive.zip"; lit "a.jpg"] world).2
  = [lit "work"].
Proof.
  exact (batch_without_documents_keeps_cwd host_rejecting (lit "/work") out_dir
           [lit "a.txt"; lit "archive.zip"; lit "a.jpg"] ([], []) world
           work_batch_facts).
Defined.

(** *** A name the console cannot encode *)

(** X16. A supported entry whose name holds a lone surrogate stops the
    batch: the dispatcher's first [print] raises [UnicodeEncodeError]
    outside every [try], before any converter runs, so the world is
    unchanged, no later entry is processed and [main] prints no
    summary. *)
Theorem unprintable_name_stops_the_batch host cur out acc name w :
  skipped host cur name w = false →
  supported host name = true →
  ord_slash ∉ name →
  encodable name = false →
  let line := converting_line (join cur name) out in
  process_entry host cur out acc name w = (Raise (encode_error line), w) ∧
  ∀ rest,
    for_each (process_entry host cur out) acc (name :: rest) w
    = (Raise (encode_error line), w).
Proof.
  intros Hskip Hsup Hslash Hname line.
  assert (encodable line = false) as Hline.
  { destruct (encodable line) eqn:H; [|done].
    apply converting_line_basename in H.
    rewrite basename_join in H by done. congruence. }
  assert (process_entry host cur out acc name w
          = (Raise (encode_error line), w)) as Hrun.
  { rewrite process_entry_run by done.
    by rewrite (convert_to_pdf_unprinted _ _ _ _ Hline). }
  split; [done|]. intros rest. cbn [for_each].
  by rewrite (bind_Raise _ _ _ _ _ Hrun).
Qed.

Lemma latin1_name_facts :
  skipped host_working (lit "/work") latin1_name world_latin1 = false ∧
  supported host_working latin1_name = true ∧
  (ord_slash ∉ latin1_name) ∧
  encodable latin1_name = false.
Proof.
  repeat split;
    first [ apply (bool_decide_unpack _); vm_compute; exact I
          | vm_compute; reflexivity ].
Qed.

(** X16, witness: a text file whose name was decoded from a Latin-1
    byte with [surrogateescape], followed by [a.txt]. *)
Lemma unprintable_name_witness :
  (for_each (process_entry host_working (lit "/work") out_dir) ([], [])
            [latin1_name; lit "a.txt"] world_latin1).2
  = world_latin1.
Proof.
  destruct latin1_name_facts as (Hskip & Hsup & Hslash & Hname).
  destruct (unprintable_name_stops_the_batch host_working (lit "/work") out_dir
              ([], []) latin1_name world_latin1 Hskip Hsup Hslash Hname)
    as [_ Hloop].
  by rewrite (Hloop [lit "a.txt"]).
Defined.

(* ================================================================== *)
(** ** [main] runs to its end *)

(** *** The start of [main] *)

Lemma render_cons c d :
  render (c :: d) = concat (List.map (λ c, ord_slash :: c) (c :: d)).
Proof. reflexivity. Qed.

Lemma endswith_render d :
  canonical d → d ≠ [] → endswith ord_slash (render d) = false.
Proof.
  intros Hd Hne. destruct (exists_last Hne) as (d' & c & ->).
  apply Forall_app in Hd as [_ [[[Hc _] Hs] _]%Forall_cons].
  destruct (exists_last Hc) as (c' & x & ->).
  assert (render (d' ++ [c' ++ [x]])
          = (concat (List.map (λ c, ord_slash :: c) d') ++ ord_slash :: c')
            ++ [x]) as ->.
  { destruct d'; unfold render; cbn [app List.map concat];
      [by rewrite app_nil_r|].
    rewrite List.map_app, concat_app. cbn [List.map concat].
    by rewrite app_nil_r, <- !app_assoc. }
  unfold endswith. rewrite last_snoc.
  destruct (N.eqb_spec x ord_slash) as [->|]; [|done].
  destruct Hs. rewrite elem_of_app, list_elem_of_singleton. auto.
Qed.

Lemma join_render d name :
  canonical d → ord_slash ∉ name →
  join (render d) name = render (d ++ [name]).
Proof.
  intros Hd Hn. destruct d as [|c d].
  - unfold join. rewrite startswith_notin by done. unfold render. cbn.
    by rewrite app_nil_r.
  - rewrite join_plain;
      [|done|by apply endswith_render|by apply startswith_notin].
    cbn [app]. rewrite !render_cons. cbn [List.map concat].
    rewrite List.map_app, concat_app. cbn [List.map concat app].
    by rewrite app_nil_r, <- !app_assoc.
Qed.

Lemma resolve_join_render c0 d name :
  canonical d → plain_name name → ord_slash ∉ name →
  resolve c0 (join (render d) name) = d ++ [name].
Proof.
  intros Hd Hp Hn. rewrite join_render by done.
  apply resolve_render, Forall_app. split; [done|].
  constructor; [done|constructor].
Qed.

Lemma mkdirs_inr rest : ∀ pre (m : gmap (list str) node),
  (∀ r1 r2 c, rest = r1 ++ r2 → r1 ≠ [] → m !! (pre ++ r1) ≠ Some (File c)) →
  ∃ m', mkdirs pre rest m = inr m' ∧
        ∀ k n, m !! k = Some n → m' !! k = Some n.
Proof.
  induction rest as [|c rest IH]; intros pre m Hm; cbn [mkdirs].
  { by exists m. }
  destruct (m !! (pre ++ [c])) as [[|c1]|] eqn:Hd.
  - apply IH. intros r1 r2 c2 -> Hr.
    rewrite <- app_assoc. by apply (Hm (c :: r1) r2).
  - destruct (Hm [c] rest c1); done.
  - destruct (IH (pre ++ [c]) (<[pre ++ [c] := Dir]> m)) as (m' & Hrun & Hkeep).
    + intros r1 r2 c2 -> Hr. rewrite lookup_insert_ne.
      * rewrite <- app_assoc. by apply (Hm (c :: r1) r2).
      * intros H%(f_equal length). rewrite !length_app in H.
        destruct r1; [done|]. cbn in H. lia.
    + exists m'. split; [done|]. intros k n Hk. apply Hkeep.
      rewrite lookup_insert_ne; [done|]. intros <-. congruence.
Qed.

Lemma check_dependencies_run host w code out err m :
  spawn host [lit "which"; lit "abiword"] w = (Exited code out err, m) →
  ∃ lines, check_dependencies host w
           = (Ok tt, mkWorld (cwd w) m (stdout w ++ lines)).
Proof.
  intros Hsp.
  unfold check_dependencies, try_except, subprocess_run. munfold. cbn.
  rewrite Hsp. cbn. destruct (code =? 0); cbn.
  - rewrite print_lit. by eexists [_].
  - rewrite print_lit, print_lit. eexists [_; _].
    unfold put_line, set_fs. cbn. by rewrite <- app_assoc.
Qed.

Lemma mkdirs_printable rest : ∀ pre (m m' : gmap (list str) node),
  mkdirs pre rest m = inr m' →
  printable_tree m →
  Forall (λ c, encodable c = true) (pre ++ rest) →
  printable_tree m'.
Proof.
  induction rest as [|c rest IH]; intros pre m m'; cbn [mkdirs].
  { by intros [= <-]. }
  intros Hrun Hm Hall.
  rewrite (cons_middle c pre rest), app_assoc in Hall.
  destruct (m !! (pre ++ [c])) as [[|c1]|] eqn:Hd; [|done|].
  - by apply (IH _ _ _ Hrun).
  - apply (IH _ _ _ Hrun); [|done].
    intros key n. destruct (decide (key = pre ++ [c])) as [->|Hne].
    + intros _. by apply Forall_app in Hall as [? _].
    + rewrite lookup_insert_ne by done. apply Hm.
Qed.

Lemma children_printable (d : list str) (m : gmap (list str) node) :
  printable_tree m → Forall (λ n, encodable n = true) (children d m).
Proof.
  intros Hm. apply Forall_forall. intros name Hname.
  unfold children in Hname.
  apply list_elem_of_omap in Hname as ([key n] & Hin & Hchild).
  apply elem_of_map_to_list in Hin. cbn in Hchild.
  apply child_name_Some in Hchild as ->.
  specialize (Hm _ _ Hin). apply Forall_app in Hm as [_ Hm].
  by apply Forall_cons in Hm as [? _].
Qed.



(** X17. [main] runs to its end and returns its two lists when nothing
    fails at the system-call level, [which] can be started, the working
    directory exists under a canonical path with no file among its
    ancestors, and the console can encode every name of the file tree:
    no exception escapes. *)
Theorem main_completes host w code out err m :
  fault_free host →
  spawn host [lit "which"; lit "abiword"] w = (Exited code out err, m) →
  canonical (cwd w) →
  m !! cwd w = Some Dir →
  (∀ pre suf c, cwd w = pre ++ suf → m !! pre ≠ Some (File c)) →
  printable_tree m →
  ∃ acc w', main host w = (Ok acc, w').
Proof.
  intros Hfree Hsp Hcan Hcwd Hanc Hprint.
  destruct (check_dependencies_run _ _ _ _ _ _ Hsp) as (lines & Hprobe).
  unfold main. rewrite (bind_Ok _ _ _ _ _ Hprobe).
  set (w1 := mkWorld (cwd w) m (stdout w ++ lines)).
  assert (os_getcwd host w1 = (Ok (render (cwd w)), w1)) as Hget.
  { unfold os_getcwd. munfold. cbn. rewrite Hfree. cbn. by rewrite Hcwd. }
  rewrite (bind_Ok _ _ _ _ _ Hget).
  set (output_dir := join (render (cwd w)) (lit "pdf_output")).
  assert (Forall (λ c, encodable c = true) (cwd w)) as Hcwd_enc
    by apply (Hprint _ _ Hcwd).
  assert (encodable (render (cwd w)) = true) as Hcur
    by by apply encodable_render.
  assert (encodable output_dir = true) as Hout
    by (apply encodable_join; [done|apply encodable_lit]).
  assert (resolve (cwd w) output_dir = cwd w ++ [lit "pdf_output"]) as Hres.
  { apply resolve_join_render; [done| |];
      [by repeat split|apply (bool_decide_unpack _); vm_compute; exact I]. }
  assert (output_dir ≠ []) as Hne by apply join_pdf_output.
  assert (∃ w2, (os_path_exists output_dir
                 ≫= λ present,
                      when (negb present)
                           (os_makedirs host output_dir;;
                            print (lit "Created output directory: "
                                   ++ output_dir));;
                      mret tt) w1 = (Ok tt, w2) ∧
                cwd w2 = cwd w ∧ fs w2 !! cwd w = Some Dir ∧
                printable_tree (fs w2))
    as (w2 & Hmk & Hc2 & Hd2 & Hp2).
  { unfold os_path_exists. munfold. cbn.
    destruct (bool_decide (is_Some (lookup_path w1 output_dir))) eqn:Hex; cbn.
    { by exists w1. }
    apply bool_decide_eq_false in Hex.
    assert (lookup_path w1 output_dir = None) as Hnone.
    { destruct (lookup_path w1 output_dir) eqn:E; [|done]. destruct Hex. eauto. }
    unfold os_makedirs. munfold. cbn. rewrite Hfree. cbn. rewrite Hnone.
    rewrite bool_decide_eq_false_2 by done. rewrite Hres.
    destruct (mkdirs_inr (cwd w ++ [lit "pdf_output"]) [] m)
      as (m' & Hrun & Hkeep).
    { intros r1 r2 c Hsplit Hr1. cbn [app].
      destruct (decide (r2 = [])) as [->|Hr2].
      - rewrite app_nil_r in Hsplit. subst r1.
        rewrite lookup_path_nonempty in Hnone by done. cbn in Hnone.
        rewrite Hres in Hnone. by rewrite Hnone.
      - destruct (exists_last Hr2) as (r2' & x & ->).
        rewrite app_assoc in Hsplit. apply app_inj_tail in Hsplit as [Hsplit _].
        by apply (Hanc r1 r2'). }
    rewrite Hrun. cbn.
    rewrite print_ok by by rewrite encodable_app, encodable_lit.
    eexists. split; [done|]. cbn. split; [done|]. split; [by apply Hkeep|].
    apply (mkdirs_printable _ _ _ _ Hrun); [done|]. cbn [app].
    apply Forall_app. split; [done|].
    constructor; [apply encodable_lit|constructor]. }
  assert (∀ B (k : M B),
            ((present ← os_path_exists output_dir;
              when (negb present)
                   (os_makedirs host output_dir;;
                    print (lit "Created output directory: " ++ output_dir));;
              k) w1) = k w2) as Hskip.
  { intros B k. revert Hmk. unfold os_path_exists. munfold. cbn.
    destruct (bool_decide _); cbn.
    - by intros [= <-].
    - destruct (os_makedirs host output_dir w1) as [[[]|e] w3]; cbn;
        [|intros; simplify_eq].
      destruct (print _ w3) as [[[]|e] w4]; cbn; intros; simplify_eq. done. }
  rewrite Hskip.
  assert (os_listdir host (render (cwd w)) w2
          = (Ok (children (cwd w) (fs w2)), w2)) as Hls.
  { unfold os_listdir. munfold. cbn. rewrite Hfree. cbn.
    rewrite lookup_path_nonempty by (by destruct (cwd w)).
    rewrite !resolve_render, Hd2 by done. done. }
  rewrite (bind_Ok _ _ _ _ _ Hls).
  destruct (for_each_process_entry_total host (render (cwd w)) output_dir
              (children (cwd w) (fs w2)) ([], []) w2 Hcur Hout
              (children_printable _ _ Hp2)) as (acc & w3 & Hloop).
  rewrite (bind_Ok _ _ _ _ _ Hloop). cbv zeta.
  do 4 (erewrite bind_Ok;
        [|apply print_ok;
          rewrite ?encodable_app, ?encodable_lit, ?encodable_of_nat;
          reflexivity]).
  unfold when. destruct (negb _).
  - erewrite bind_Ok;
      [|apply print_ok; rewrite ?encodable_app, ?encodable_lit; reflexivity].
    eauto.
  - rewrite ret_bind. eauto.
Qed.

Lemma work_main_facts :
  let bare := delete [lit "work"; lit "pdf_output"] tree in
  let no_file_above (m : gmap (list str) node) :=
    ∀ pre suf c, [lit "work"] = pre ++ suf → m !! pre ≠ Some (File c) in
  canonical [lit "work"] ∧
  printable_tree tree ∧ printable_tree bare ∧
  tree !! [lit "work"] = Some Dir ∧ bare !! [lit "work"] = Some Dir ∧
  no_file_above tree ∧ no_file_above bare.
Proof.
  cbv zeta.
  assert (printable_tree tree) as Htree.
  { assert (Forall (λ kv, Forall (λ c, encodable c = true) kv.1)
                   (map_to_list tree)) as Hall.
    { apply (bool_decide_unpack _). vm_compute. exact I. }
    intros key n Hkey. apply elem_of_map_to_list in Hkey.
    by apply (proj1 (Forall_forall _ _) Hall (key, n)). }
  assert (∀ (m : gmap (list str) node),
            m !! [] = Some Dir → m !! [lit "work"] = Some Dir →
            ∀ pre suf c, [lit "work"] = pre ++ suf → m !! pre ≠ Some (File c))
    as Hanc.
  { intros m H0 H1 pre suf c Hsplit.
    destruct pre as [|x [|y pre]]; [by rewrite H0| |].
    - injection Hsplit as <- _. by rewrite H1.
    - apply (f_equal length) in Hsplit. cbn in Hsplit. lia. }
  split; [|split; [done|split; [|split; [|split; [|split]]]]].
  - repeat constructor; try discriminate.
    apply (bool_decide_unpack _). vm_compute. exact I.
  - intros key n [_ Hkey]%lookup_delete_Some. by apply (Htree key n).
  - vm_compute. reflexivity.
  - vm_compute. reflexivity.
  - apply Hanc; vm_compute; reflexivity.
  - apply Hanc; vm_compute; reflexivity.
Qed.

(** X17, witness: [/work] with AbiWord installed, and [/work] before
    the first run without AbiWord. *)
Lemma main_completes_witness :
  (∃ acc w', main host_working world = (Ok acc, w')) ∧
  (∃ acc w', main host_missing bare_world = (Ok acc, w')).
Proof.
  destruct work_main_facts
    as (Hcan & Htree & Hbare & Hdir & Hdir' & Hanc & Hanc').
  split.
  - exact (main_completes host_working world 0 (lit "/usr/bin/abiword")
             no_text tree (λ _ _, eq_refl) eq_refl Hcan Hdir Hanc Htree).
  - exact (main_completes host_missing bare_world 1 [] no_text
             (delete [lit "work"; lit "pdf_output"] tree)
             (λ _ _, eq_refl) eq_refl Hcan Hdir' Hanc' Hbare).
Defined.
